(** * VM balancer: a shallow embedding of the balancing core

    The development follows the two code bases of the repository:
    - the stand-alone script [vm_balancer.py] (classes [NodeInfo], [VMInfo],
      [VMManagerAPI] and [VMBalancer]);
    - the package modules [core/node_analyzer.py], [core/migration_strategy.py]
      and [core/resource_estimator.py] (classes [NodeAnalyzer],
      [MigrationStrategy] and [ResourceEstimator]).

    Modelling conventions.
    - Python [int] is [Z]; [dict] is [gmap]; [set] is [gset].
    - Python [float] is the exact rational [Q] in the selection of nodes and
      in the orchestrator: a comparison with a threshold is decided there as
      in the code unless the exact value lies within rounding of the
      threshold.  The two acceptance checks are also given in double
      precision, in [Doubles], where the difference is shown.
    - [str] is [string], read as ASCII text: the character classes
      ([is_space], [is_digit]) and [int()] are those of ASCII text, and the
      statements that depend on them are for strings with [isascii].
    - [datetime] values are integers: microseconds since [datetime.min].
    - A Python list holds references.  The functions that walk a list of
      nodes are written over a type [Ref] of references with a reader
      [deref]; the orchestrator instantiates [Ref] with positions in
      [cluster.nodes] and keeps the objects in a heap, so that the two node
      lists and the cluster share the objects they point to.
    - Code that can raise returns [result]. *)

From Stdlib Require Import ZArith QArith Ascii String List Bool Lia Lqa.
From Stdlib Require Import DecimalString DecimalPos DecimalZ.
From Stdlib Require PrimFloat.
From Stdlib Require Import PrimInt63.
From stdpp Require Import base tactics option list gmap strings sorting.

Local Open Scope string_scope.
Local Open Scope Z_scope.

(** ** Exceptions *)

Inductive exn : Type :=
  | ZeroDivisionError
  | TypeError
  | AttributeError
  | ValueError.

Inductive result (A : Type) : Type :=
  | Ok (a : A)
  | Raise (e : exn).

Arguments Ok {A} a.
Arguments Raise {A} e.

(** ** Rationals standing for floats *)

Definition Qlt_bool (x y : Q) : bool := negb (Qle_bool y x).

Definition Qmax (x y : Q) : Q := if Qlt_bool x y then y else x.

(** Python's true division of two integers. *)
Definition truediv (a b : Z) : result Q :=
  if b =? 0 then Raise ZeroDivisionError else Ok (inject_Z a / inject_Z b)%Q.

(** ** [list.sort(key=...)]: a stable sort

    Elements with equal keys keep their relative order, also with
    [reverse=True]. *)

Section SortByKey.
Context {A K : Type} (ltb : K → K → bool) (key : A → K).

(** Keys are compared with [<] only.  [x] stood before every element of
    [l] in the input, so it stays before the elements it is not greater
    than. *)
Fixpoint insert_asc (x : A) (l : list A) : list A :=
  match l with
  | [] => [x]
  | y :: l' =>
      if ltb (key y) (key x) then y :: insert_asc x l' else x :: y :: l'
  end.

Fixpoint insert_desc (x : A) (l : list A) : list A :=
  match l with
  | [] => [x]
  | y :: l' =>
      if ltb (key x) (key y) then y :: insert_desc x l' else x :: y :: l'
  end.

Definition sort_by_key (reverse : bool) (l : list A) : list A :=
  foldr (if reverse then insert_desc else insert_asc) [] l.
End SortByKey.

(** [<] on pairs of floats, as Python compares tuples: the first components
    decide unless they are equal. *)
Definition pair_ltb (a b : Q * Q) : bool :=
  if Qeq_bool (fst a) (fst b) then Qlt_bool (snd a) (snd b)
  else Qlt_bool (fst a) (fst b).

Definition key_ge {A : Type} (key : A → Q) (a b : A) : Prop := (key b <= key a)%Q.
Definition key_le {A : Type} (key : A → Q) (a b : A) : Prop := (key a <= key b)%Q.

(** ** Strings *)

(** The decimal digits of ASCII. *)
Definition is_digit (c : ascii) : bool :=
  ((48 <=? N_of_ascii c) && (N_of_ascii c <=? 57))%N.

Definition digit_value (c : ascii) : Z := Z.of_N (N_of_ascii c) - 48.

(** [str.isspace] on the ASCII range: tab to carriage return, the four
    separators 28..31 and the space. *)
Definition is_space (c : ascii) : bool :=
  let n := N_of_ascii c in
  (((9 <=? n) && (n <=? 13)) || ((28 <=? n) && (n <=? 31)) || (n =? 32))%N.

Definition is_upper (c : ascii) : bool :=
  ((65 <=? N_of_ascii c) && (N_of_ascii c <=? 90))%N.

Definition lower_ascii (c : ascii) : ascii :=
  if is_upper c then ascii_of_N (N_of_ascii c + 32) else c.

(** [str.lower] *)
Fixpoint lower (s : string) : string :=
  match s with
  | EmptyString => EmptyString
  | String c s' => String (lower_ascii c) (lower s')
  end.

Fixpoint lstrip (s : string) : string :=
  match s with
  | EmptyString => EmptyString
  | String c s' => if is_space c then lstrip s' else s
  end.

Fixpoint rstrip (s : string) : string :=
  match s with
  | EmptyString => EmptyString
  | String c s' =>
      match rstrip s' with
      | EmptyString => if is_space c then EmptyString else String c EmptyString
      | r => String c r
      end
  end.

(** [str.strip] *)
Definition strip (s : string) : string := rstrip (lstrip s).

(** [str.split(sep)] for a one-character separator. *)
Fixpoint split_on (sep : ascii) (s : string) : list string :=
  match s with
  | EmptyString => [EmptyString]
  | String c s' =>
      if Ascii.eqb c sep then EmptyString :: split_on sep s'
      else match split_on sep s' with
           | h :: t => String c h :: t
           | [] => [String c EmptyString]
           end
  end.

(** The digits of [int(str)] after whitespace and sign are removed: decimal
    digits, single underscores allowed between two digits. *)
Fixpoint int_digits (acc : Z) (after_digit : bool) (s : string) : option Z :=
  match s with
  | EmptyString => if after_digit then Some acc else None
  | String c s' =>
      if is_digit c then int_digits (10 * acc + digit_value c) true s'
      else if Ascii.eqb c "_" && after_digit then int_digits acc false s'
      else None
  end.

(** Strings of decimal digits and their value, continuing from [acc]. *)
Fixpoint all_digits (s : string) : bool :=
  match s with
  | EmptyString => true
  | String c s' => is_digit c && all_digits s'
  end.

Fixpoint decimal (acc : Z) (s : string) : Z :=
  match s with
  | EmptyString => acc
  | String c s' => decimal (10 * acc + digit_value c) s'
  end.

(** [s.isascii()].  The character classes of this section are those of
    ASCII text: on other text [str.strip], the pattern class for digits and
    [int()] also know the whitespace and the decimal digits of Unicode. *)
Definition isascii_char (c : ascii) : bool := (N_of_ascii c <? 128)%N.

Fixpoint isascii (s : string) : bool :=
  match s with
  | EmptyString => true
  | String c s' => isascii_char c && isascii s'
  end.

(** The whitespace [int()] skips around a literal in ASCII text: tab to
    carriage return and the space.  The separators 28..31, which
    [str.strip] removes, are not among them. *)
Definition is_int_space (c : ascii) : bool :=
  let n := N_of_ascii c in
  (((9 <=? n) && (n <=? 13)) || (n =? 32))%N.

Fixpoint int_lstrip (s : string) : string :=
  match s with
  | EmptyString => EmptyString
  | String c s' => if is_int_space c then int_lstrip s' else s
  end.

Fixpoint int_rstrip (s : string) : string :=
  match s with
  | EmptyString => EmptyString
  | String c s' =>
      match int_rstrip s' with
      | EmptyString => if is_int_space c then EmptyString else String c EmptyString
      | r => String c r
      end
  end.

(** The number of digits of a literal; underscores do not count. *)
Fixpoint count_digits (s : string) : Z :=
  match s with
  | EmptyString => 0
  | String c s' => (if is_digit c then 1 else 0) + count_digits s'
  end.

(** [sys.get_int_max_str_digits()] at its default: the longest literal
    [int()] reads, and the longest number [str()] prints. *)
Definition int_max_str_digits : Z := 4300.

(** [int(str)]: surrounding whitespace, an optional sign, then the digits;
    anything else raises [ValueError], and so does a literal of more than
    [int_max_str_digits] digits. *)
Definition py_int (s : string) : result Z :=
  let body := int_rstrip (int_lstrip s) in
  let '(sign, digits) :=
    match body with
    | String "-" d => (-1, d)
    | String "+" d => (1, d)
    | _ => (1, body)
    end in
  match int_digits 0 false digits with
  | Some n =>
      if int_max_str_digits <? count_digits digits then Raise ValueError
      else Ok (sign * n)
  | None => Raise ValueError
  end.

(** [[f(x) for x in l]] where [f] can raise: the first exception wins. *)
Fixpoint mapM {A B : Type} (f : A → result B) (l : list A) : result (list B) :=
  match l with
  | [] => Ok []
  | x :: l' =>
      match f x with
      | Raise e => Raise e
      | Ok y => match mapM f l' with
                | Raise e => Raise e
                | Ok ys => Ok (y :: ys)
                end
      end
  end.

(** Comparison of two tuples of integers, [a <= b]: the first position
    where they differ decides; a proper prefix is smaller. *)
Fixpoint tuple_le (a b : list Z) : bool :=
  match a, b with
  | [], _ => true
  | _ :: _, [] => false
  | x :: a', y :: b' =>
      if x <? y then true else if y <? x then false else tuple_le a' b'
  end.

(** ** Environment variables ([vm_balancer.py], module level)

    [os.environ] is a map from names to values; [os.getenv(key, default)]
    is the value under [key], or [default]. *)

(** [c in s] for a character [c]. *)
Fixpoint contains_char (c : ascii) (s : string) : bool :=
  match s with
  | EmptyString => false
  | String d s' => Ascii.eqb d c || contains_char c s'
  end.

Definition get_env_value (environ : gmap string string) (key default : string)
    : string :=
  let value := from_option id default (environ !! key) in
  if contains_char "#" value then
    match split_on "#" value with
    | first :: _ => strip first
    | [] => EmptyString
    end
  else value.

(** [str(n)] for an integer: decimal digits, a minus sign first if the
    number is negative. *)
Definition py_str_int (n : Z) : string := NilZero.string_of_int (Z.to_int n).

(** [str(n)] raises [ValueError] for a number of more than
    [int_max_str_digits] digits. *)
Definition py_str (n : Z) : result string :=
  let text := py_str_int n in
  if int_max_str_digits <? count_digits text then Raise ValueError else Ok text.

(** [str(default)] is evaluated before the call, outside the [try]. *)
Definition get_env_int (environ : gmap string string) (key : string)
    (default : Z) : result Z :=
  match py_str default with
  | Raise e => Raise e
  | Ok text =>
      let value := get_env_value environ key text in
      match py_int value with
      | Ok n => Ok n
      | Raise ValueError => Ok default
      | Raise e => Raise e
      end
  end.

Definition get_env_list (environ : gmap string string) (key default : string)
    : list string :=
  let value := get_env_value environ key default in
  if String.eqb value "" then []
  else
    map strip
      (List.filter (λ item, negb (String.eqb (strip item) ""))
         (split_on "," value)).

(** ** Data model ([vm_balancer.py], dataclasses) *)

Module VMInfo.
Record t : Type := mk {
  id : string;
  name : string;
  node_id : string;
  cpu_cores : Z;
  memory_mb : Z;
  state : string;
  can_migrate : bool
}.
End VMInfo.

Module NodeInfo.
Record t : Type := mk {
  id : string;
  name : string;
  cpu_total : Z;
  cpu_used : Z;
  memory_total_mb : Z;
  memory_used_mb : Z;
  vm_count : Z;
  is_maintenance : bool;
  vm_creation_allowed : bool;
  vm_limit : Z;
  qemu_version : string
}.

#[global] Instance eq_dec : EqDecision t.
Proof. solve_decision. Defined.

#[global] Instance inhabited : Inhabited t :=
  populate (mk "" "" 0 0 0 0 0 false true 0 "").

Definition cpu_allocation_ratio (self : t) : Q :=
  if 0 <? cpu_total self
  then (inject_Z (cpu_used self) / inject_Z (cpu_total self))%Q
  else 0%Q.

Definition memory_usage_percent (self : t) : Q :=
  if 0 <? memory_total_mb self
  then (inject_Z (memory_used_mb self) / inject_Z (memory_total_mb self) * 100)%Q
  else 0%Q.

Definition can_accept_vms (self : t) : bool :=
  let vm_limit_ok := (vm_limit self <=? 0) || (vm_count self <? vm_limit self) in
  negb (is_maintenance self) && vm_creation_allowed self && vm_limit_ok.

(** [self.vm_count = v] *)
Definition set_vm_count (v : Z) (self : t) : t :=
  mk (id self) (name self) (cpu_total self) (cpu_used self)
     (memory_total_mb self) (memory_used_mb self) v
     (is_maintenance self) (vm_creation_allowed self) (vm_limit self)
     (qemu_version self).
(** The two properties below are not read by the balancer itself. *)
Definition cpu_usage_percent (self : t) : Q :=
  if 0 <? cpu_total self
  then (inject_Z (cpu_used self) / inject_Z (cpu_total self) * 100)%Q
  else 0%Q.

Definition is_overloaded (self : t) : bool :=
  let cpu_overloaded := Qlt_bool 7 (cpu_allocation_ratio self) in
  let memory_overloaded := Qlt_bool 70 (memory_usage_percent self) in
  cpu_overloaded || memory_overloaded.
End NodeInfo.

Module ClusterInfo.
Record t : Type := mk {
  id : string;
  name : string;
  nodes : list NodeInfo.t;
  balancer_enabled : bool
}.
End ClusterInfo.

(** [datetime.min], and [timedelta(hours=h)] in microseconds. *)
Definition datetime_min : Z := 0.
Definition timedelta_hours (h : Z) : Z := h * 3600000000.

(** ** Decoded JSON, as [response.json()] gives it *)

#[local] Unset Elimination Schemes.
Inductive json : Type :=
  | JNull
  | JBool (b : bool)
  | JNum (q : Q)
  | JStr (s : string)
  | JArr (items : list json)
  | JObj (fields : list (string * json)).
#[local] Set Elimination Schemes.

(** Truth value of a Python object in [if x:]. *)
Definition truthy (v : json) : bool :=
  match v with
  | JNull => false
  | JBool b => b
  | JNum q => negb (Qeq_bool q 0)
  | JStr s => negb (String.eqb s "")
  | JArr items => match items with [] => false | _ => true end
  | JObj fields => match fields with [] => false | _ => true end
  end.

(** [v.lower()]: only strings have the method. *)
Definition py_lower (v : json) : result string :=
  match v with
  | JStr s => Ok (lower s)
  | _ => Raise AttributeError
  end.

(** [v > 0]: numbers and booleans compare with an integer, the rest raise. *)
Definition py_gt_zero (v : json) : result bool :=
  match v with
  | JBool b => Ok b
  | JNum q => Ok (Qlt_bool 0 q)
  | _ => Raise TypeError
  end.

(** [v == s] for a string literal [s]. *)
Definition py_eq_str (v : json) (s : string) : bool :=
  match v with
  | JStr s' => String.eqb s' s
  | _ => false
  end.

(** The world outside the process: the clock read by [datetime.now()] and
    the migration requests sent so far, as pairs (vm id, target node id). *)
Record World : Type := mkWorld {
  now : Z;
  migrate_calls : list (string * string)
}.

(** ** [VMManagerAPI] ([vm_balancer.py]) *)

Module VMManagerAPI.

(** The remote side of the client.  [migrate_vm] answers a request made in
    a given world with the boolean the method returns (false on a failed
    job, a timeout or a transport error) and the time at its return. *)
Record t : Type := mk {
  get_cluster_vms : World → string → list VMInfo.t;
  migrate_vm : World → string → string → Z → bool * Z
}.

Definition can_vm_migrate (vm_data : gmap string json) : result bool :=
  match py_lower (default (JStr "") (vm_data !! "state")) with
  | Raise e => Raise e
  | Ok state =>
      if negb (String.eqb state "active") then Ok false
      else
        let has_iso := default (JBool false) (vm_data !! "iso_mounted") in
        match py_gt_zero (default (JNum 0) (vm_data !! "snapshot_count")) with
        | Raise e => Raise e
        | Ok has_snapshots =>
            let balancer_disabled :=
              py_eq_str (default (JStr "off") (vm_data !! "balancer_mode")) "off" in
            if truthy has_iso then Ok false
            else if has_snapshots then Ok false
            else if balancer_disabled then Ok false
            else Ok true
        end
  end.

(** What the pattern still takes once it is inside a run of digits: a
    digit, or a dot that a digit follows. *)
Fixpoint match_more (s : string) : string :=
  match s with
  | EmptyString => EmptyString
  | String c s' =>
      if is_digit c then String c (match_more s')
      else if Ascii.eqb c "." then
        match s' with
        | String d _ => if is_digit d then String c (match_more s') else EmptyString
        | EmptyString => EmptyString
        end
      else EmptyString
  end.

(** [re.match] with the pattern of [parse_version], one or more digits
    followed by any number of groups "dot, one or more digits": the text
    matched at the start of [s], or [None]. *)
Definition re_match_numeric (s : string) : option string :=
  match s with
  | String c s' => if is_digit c then Some (String c (match_more s')) else None
  | EmptyString => None
  end.

Definition parse_version (version_str : string) : result (list Z) :=
  match re_match_numeric (strip version_str) with
  | Some numeric_part => mapM py_int (split_on "." numeric_part)
  | None => Ok [0]
  end.

Definition compare_qemu_versions (source_version target_version : string) : bool :=
  if String.eqb source_version "" || String.eqb target_version "" then true
  else
    match parse_version source_version with
    | Raise _ => true
    | Ok source_parsed =>
        match parse_version target_version with
        | Raise _ => true
        | Ok target_parsed => tuple_le source_parsed target_parsed
        end
    end.
End VMManagerAPI.

(** *** The migration request and its job ([VMManagerAPI.migrate_vm],
    [VMManagerAPI.wait_for_job_completion])

    The server as the two methods see it.  An answer is [Raise] when
    [session.post], [session.get], [raise_for_status] or [response.json]
    raises, and the decoded body otherwise.  [time] lists the readings of
    [time.time()] the loop depends on: reading 0 is [start_time], reading
    [k + 1] is the one in the [k]-th test of the loop condition. *)

Module VMManagerSession.

Record t : Type := mk {
  post_migrate : string → Z → result json;
  get_task : json → nat → result json;
  time : nat → Q
}.

(** The entry of a decoded object under [key]; a decoded object has one
    entry for each key. *)
Fixpoint entry (key : string) (fields : list (string * json)) : option json :=
  match fields with
  | [] => None
  | (k, v) :: rest => if String.eqb k key then Some v else entry key rest
  end.

(** [v.get(key, default)]: only objects have the method. *)
Definition py_get (v : json) (key : string) (default : json) : result json :=
  match v with
  | JObj fields => Ok (from_option id default (entry key fields))
  | _ => Raise AttributeError
  end.

(** [response.json().get('status', '').lower()] in the [k]-th pass of the
    loop, with whatever the pass raises before it has the status. *)
Definition poll_status (self : t) (job_id : json) (k : nat) : result string :=
  match get_task self job_id k with
  | Raise e => Raise e
  | Ok job_data =>
      match py_get job_data "status" (JStr "") with
      | Raise e => Raise e
      | Ok status => py_lower status
      end
  end.

(** The [while] loop from its [k]-th pass on; [fuel] bounds the number of
    passes.  Every exception ends in the handler, which returns [False]. *)
Fixpoint wait_loop (self : t) (job_id : json) (timeout : Z) (fuel k : nat)
    : option bool :=
  match fuel with
  | O => None
  | S fuel' =>
      if Qlt_bool (time self (S k) - time self 0) (inject_Z timeout) then
        match poll_status self job_id k with
        | Raise _ => Some false
        | Ok status =>
            if String.eqb status "success" then Some true
            else if String.eqb status "error" then Some false
            else wait_loop self job_id timeout fuel' (S k)
        end
      else Some false
  end.

Definition wait_for_job_completion (self : t) (job_id : json) (timeout : Z)
    (fuel : nat) : option bool :=
  wait_loop self job_id timeout fuel 0.

Definition migrate_vm (self : t) (vm_id target_node_id : string) (timeout : Z)
    (fuel : nat) : option bool :=
  match py_int target_node_id with
  | Raise _ => Some false
  | Ok node =>
      match post_migrate self vm_id node with
      | Raise _ => Some false
      | Ok job_data =>
          match py_get job_data "id" JNull with
          | Raise _ => Some false
          | Ok job_id =>
              if truthy job_id
              then wait_for_job_completion self job_id timeout fuel
              else Some true
          end
      end
  end.
End VMManagerSession.

(** An instance attribute: never assigned, assigned [None], or holding a
    value. *)
Inductive attr (A : Type) : Type :=
  | Missing
  | PyNone
  | Value (a : A).

Arguments Missing {A}.
Arguments PyNone {A}.
Arguments Value {A} a.

(** ** [VMBalancer] ([vm_balancer.py]) *)

Module VMBalancer.

Record t : Type := mk {
  api : VMManagerAPI.t;
  cpu_overload_threshold : Q;
  memory_overload_threshold : Q;
  cpu_target_threshold : Q;
  memory_target_threshold : Q;
  migration_history : gmap string Z;
  dry_run : bool;
  cluster_ids : option (list string);
  excluded_source_nodes : gset string;
  excluded_target_nodes : gset string;
  max_migrations_per_cycle : Z;
  migration_timeout : Z
}.

(** [self.migration_history = h] *)
Definition set_migration_history (h : gmap string Z) (self : t) : t :=
  mk (api self) (cpu_overload_threshold self) (memory_overload_threshold self)
     (cpu_target_threshold self) (memory_target_threshold self) h
     (dry_run self) (cluster_ids self) (excluded_source_nodes self)
     (excluded_target_nodes self) (max_migrations_per_cycle self)
     (migration_timeout self).

Section Nodes.
Context {Ref : Type} (deref : Ref → NodeInfo.t).

Definition is_overloaded_source (self : t) (r : Ref) : bool :=
  let node := deref r in
  if bool_decide (NodeInfo.name node ∈ excluded_source_nodes self)
     || bool_decide (NodeInfo.id node ∈ excluded_source_nodes self)
  then false
  else
    negb (NodeInfo.is_maintenance node)
    && (Qlt_bool (cpu_overload_threshold self) (NodeInfo.cpu_allocation_ratio node)
        || Qlt_bool (memory_overload_threshold self) (NodeInfo.memory_usage_percent node)).

Definition overload_key (r : Ref) : Q :=
  Qmax (NodeInfo.cpu_allocation_ratio (deref r))
       (NodeInfo.memory_usage_percent (deref r)).

Definition find_overloaded_nodes (self : t) (nodes : list Ref) : list Ref :=
  let overloaded := List.filter (is_overloaded_source self) nodes in
  sort_by_key Qlt_bool overload_key true overloaded.

Definition is_underloaded_target (self : t) (r : Ref) : bool :=
  let node := deref r in
  if bool_decide (NodeInfo.name node ∈ excluded_target_nodes self)
     || bool_decide (NodeInfo.id node ∈ excluded_target_nodes self)
  then false
  else
    let cpu_has_capacity :=
      Qlt_bool (NodeInfo.cpu_allocation_ratio node) (cpu_target_threshold self) in
    let memory_has_capacity :=
      Qlt_bool (NodeInfo.memory_usage_percent node) (memory_target_threshold self) in
    NodeInfo.can_accept_vms node && cpu_has_capacity && memory_has_capacity.

Definition underload_key (r : Ref) : Q * Q :=
  (NodeInfo.cpu_allocation_ratio (deref r),
   NodeInfo.memory_usage_percent (deref r)).

Definition find_underloaded_nodes (self : t) (nodes : list Ref) : list Ref :=
  let underloaded := List.filter (is_underloaded_target self) nodes in
  sort_by_key pair_ltb underload_key false underloaded.

(** [_current_cluster_nodes] is passed explicitly.  Iterating [None]
    raises [TypeError]. *)
Definition get_source_node_for_vm (current_cluster_nodes : attr (list Ref))
    (vm : VMInfo.t) : result (option Ref) :=
  match current_cluster_nodes with
  | Missing => Ok None
  | PyNone => Raise TypeError
  | Value nodes =>
      Ok (List.find
            (λ r, String.eqb (NodeInfo.id (deref r)) (VMInfo.node_id vm))
            nodes)
  end.

Definition can_node_accept_vm (self : t)
    (current_cluster_nodes : attr (list Ref))
    (node : Ref) (vm : VMInfo.t) : result bool :=
  let n := deref node in
  match truediv (NodeInfo.cpu_used n + VMInfo.cpu_cores vm) (NodeInfo.cpu_total n) with
  | Raise e => Raise e
  | Ok estimated_cpu_ratio =>
  match truediv (VMInfo.memory_mb vm) (NodeInfo.memory_total_mb n) with
  | Raise e => Raise e
  | Ok memory_share =>
  let estimated_memory :=
    (NodeInfo.memory_usage_percent n + memory_share * 100)%Q in
  let cpu_ok := Qlt_bool estimated_cpu_ratio (cpu_overload_threshold self) in
  let memory_ok := Qlt_bool estimated_memory (memory_overload_threshold self) in
  match get_source_node_for_vm current_cluster_nodes vm with
  | Raise e => Raise e
  | Ok source_node =>
      let qemu_ok :=
        match source_node with
        | Some src =>
            if negb (String.eqb (NodeInfo.qemu_version n) "")
               && negb (String.eqb (NodeInfo.qemu_version (deref src)) "")
            then VMManagerAPI.compare_qemu_versions
                   (NodeInfo.qemu_version (deref src)) (NodeInfo.qemu_version n)
            else true
        | None => true
        end in
      Ok (cpu_ok && memory_ok && qemu_ok)
  end end end.

Fixpoint find_target_node (self : t) (current_cluster_nodes : attr (list Ref))
    (vm : VMInfo.t) (underloaded_nodes : list Ref) : result (option Ref) :=
  match underloaded_nodes with
  | [] => Ok None
  | node :: rest =>
      match can_node_accept_vm self current_cluster_nodes node vm with
      | Raise e => Raise e
      | Ok true => Ok (Some node)
      | Ok false => find_target_node self current_cluster_nodes vm rest
      end
  end.
End Nodes.

Definition vm_size_key (vm : VMInfo.t) : Q :=
  (inject_Z (VMInfo.cpu_cores vm) + inject_Z (VMInfo.memory_mb vm) / 1024)%Q.

(** [current_time] is the value [datetime.now()] returns in the call. *)
Definition select_vm_for_migration (self : t) (current_time : Z)
    (vms : list VMInfo.t) (source_node : NodeInfo.t) : option VMInfo.t :=
  let all_vms_on_node :=
    List.filter (λ vm, String.eqb (VMInfo.node_id vm) (NodeInfo.id source_node)) vms in
  let candidates := List.filter VMInfo.can_migrate all_vms_on_node in
  match candidates with
  | [] => None
  | _ =>
      let recent_cutoff := current_time - timedelta_hours 1 in
      let recent_candidates :=
        List.filter
          (λ vm, default datetime_min (migration_history self !! VMInfo.id vm)
                 <? recent_cutoff)
          candidates in
      match recent_candidates with
      | [] => None
      | _ => head (sort_by_key Qlt_bool vm_size_key false recent_candidates)
      end
  end.

(** *** The orchestrator

    [cluster.nodes] is the heap of node objects; a reference is a position
    in it.  [overloaded_nodes], [underloaded_nodes] and
    [_current_cluster_nodes] are lists of such references, so an update of
    [vm_count] through one of them is seen through the others. *)

Definition node_at (heap : list NodeInfo.t) (r : nat) : NodeInfo.t := heap !!! r.

(** [node.vm_count += d] *)
Definition add_vm_count (d : Z) (r : nat) (heap : list NodeInfo.t) : list NodeInfo.t :=
  alter (λ n, NodeInfo.set_vm_count (NodeInfo.vm_count n + d) n) r heap.

(** [l.remove(x)]: the first element that is [x] or compares equal to it
    (dataclass equality is field by field) goes; [ValueError] if none. *)
Fixpoint list_remove (heap : list NodeInfo.t) (x : nat) (l : list nat)
    : result (list nat) :=
  match l with
  | [] => Raise ValueError
  | r :: l' =>
      if bool_decide (r = x) || bool_decide (node_at heap r = node_at heap x)
      then Ok l'
      else match list_remove heap x l' with
           | Ok l'' => Ok (r :: l'')
           | Raise e => Raise e
           end
  end.

(** The variables of [balance_cluster] that change during the loop. *)
Record cycle : Type := mkCycle {
  self_ : t;
  heap : list NodeInfo.t;
  underloaded_nodes : list nat;
  migrations_performed : Z;
  world : World
}.

Inductive outcome : Type :=
  | Next (st : cycle)
  | Raised (e : exn) (st : cycle).

(** The body of the [for source_node in overloaded_nodes] loop, after the
    test of the cap. *)
Definition attempt (cluster_nodes : list nat) (cluster_vms : list VMInfo.t)
    (source_node : nat) (st : cycle) : outcome :=
  let self := self_ st in
  let current := Value cluster_nodes in
  match select_vm_for_migration self (now (world st)) cluster_vms
          (node_at (heap st) source_node) with
  | None => Next st
  | Some vm_to_migrate =>
      match find_target_node (node_at (heap st)) self current vm_to_migrate
              (underloaded_nodes st) with
      | Raise e => Raised e st
      | Ok None => Next st
      | Ok (Some target_node) =>
          let projected :=
            add_vm_count 1 target_node (add_vm_count (-1) source_node (heap st)) in
          if dry_run self then
            Next (mkCycle self projected (underloaded_nodes st)
                    (migrations_performed st + 1) (world st))
          else
            let vm_id := VMInfo.id vm_to_migrate in
            let target_id := NodeInfo.id (node_at (heap st) target_node) in
            let '(ok, finished) :=
              VMManagerAPI.migrate_vm (api self) (world st) vm_id target_id
                (migration_timeout self) in
            let world' :=
              mkWorld finished (migrate_calls (world st) ++ [(vm_id, target_id)]) in
            if ok then
              let self' :=
                set_migration_history
                  (<[vm_id := finished]> (migration_history self)) self in
              let st' :=
                mkCycle self' projected (underloaded_nodes st)
                  (migrations_performed st + 1) world' in
              match can_node_accept_vm (node_at projected) self' current
                      target_node vm_to_migrate with
              | Raise e => Raised e st'
              | Ok true => Next st'
              | Ok false =>
                  match list_remove projected target_node (underloaded_nodes st) with
                  | Raise e => Raised e st'
                  | Ok remaining =>
                      Next (mkCycle self' projected remaining
                              (migrations_performed st + 1) world')
                  end
              end
            else
              Next (mkCycle self (heap st) (underloaded_nodes st)
                      (migrations_performed st) world')
      end
  end.

Fixpoint for_each_source (cluster_nodes : list nat) (cluster_vms : list VMInfo.t)
    (overloaded_nodes : list nat) (st : cycle) : outcome :=
  match overloaded_nodes with
  | [] => Next st
  | source_node :: rest =>
      if max_migrations_per_cycle (self_ st) <=? migrations_performed st
      then Next st
      else match attempt cluster_nodes cluster_vms source_node st with
           | Next st' => for_each_source cluster_nodes cluster_vms rest st'
           | Raised e st' => Raised e st'
           end
  end.

(** What a call of [balance_cluster] leaves behind: the variables at the
    end, the attribute [_current_cluster_nodes], and the value returned or
    the exception that escaped. *)
Record run : Type := mkRun {
  final : cycle;
  current_cluster_nodes : attr (list nat);
  returned : result Z
}.

Definition balance_cluster (self : t) (cluster : ClusterInfo.t) (w : World) : run :=
  let nodes := ClusterInfo.nodes cluster in
  let refs := seq 0 (length nodes) in
  let overloaded_nodes := find_overloaded_nodes (node_at nodes) self refs in
  let underloaded_nodes := find_underloaded_nodes (node_at nodes) self refs in
  let st0 := mkCycle self nodes underloaded_nodes 0 w in
  match overloaded_nodes, underloaded_nodes with
  | [], _ => mkRun st0 (Value refs) (Ok 0)
  | _, [] => mkRun st0 (Value refs) (Ok 0)
  | _, _ =>
      let cluster_vms :=
        VMManagerAPI.get_cluster_vms (api self) w (ClusterInfo.id cluster) in
      match for_each_source refs cluster_vms overloaded_nodes st0 with
      | Next st => mkRun st PyNone (Ok (migrations_performed st))
      | Raised e st => mkRun st (Value refs) (Raise e)
      end
  end.
(** *** The cycle over all clusters *)

(** [c.id in self.cluster_ids] *)
Definition id_in (ids : list string) (cluster : ClusterInfo.t) : bool :=
  existsb (String.eqb (ClusterInfo.id cluster)) ids.

Definition filter_clusters (self : t) (clusters : list ClusterInfo.t)
    : list ClusterInfo.t :=
  match cluster_ids self with
  | None | Some [] => clusters
  | Some ids => List.filter (id_in ids) clusters
  end.

(** The answers of [check_manager_state] and [get_clusters], the two
    inventory requests [run_balance_cycle] makes through [self.api], in a
    given world. *)
Record inventory : Type := mkInventory {
  check_manager_state : World → bool;
  get_clusters : World → list ClusterInfo.t
}.

(** The [for cluster in clusters] loop: an exception that escapes
    [balance_cluster] is caught and logged, and the loop goes on with what
    the call left behind. *)
Fixpoint balance_clusters (self : t) (clusters : list ClusterInfo.t) (w : World)
    (total_migrations : Z) : t * World * Z :=
  match clusters with
  | [] => (self, w, total_migrations)
  | cluster :: rest =>
      let r := balance_cluster self cluster w in
      let total_migrations' :=
        match returned r with
        | Ok migrations => total_migrations + migrations
        | Raise _ => total_migrations
        end in
      balance_clusters (self_ (final r)) rest (world (final r)) total_migrations'
  end.

(** The balancer and the world after the cycle, and the total it logs when
    it gets as far as the loop. *)
Definition run_balance_cycle (self : t) (remote : inventory) (w : World)
    : t * World * option Z :=
  if negb (check_manager_state remote w) then (self, w, None)
  else
    match get_clusters remote w with
    | [] => (self, w, None)
    | all_clusters =>
        match filter_clusters self all_clusters with
        | [] => (self, w, None)
        | clusters =>
            let '(self', w', total) := balance_clusters self clusters w 0 in
            (self', w', Some total)
        end
    end.
End VMBalancer.

(** ** The package modules

    [models/node.py], [models/vm.py] and [core/constants.py] are not among
    the sources.  [NodeInfo] and [VMInfo] are taken to be the dataclasses of
    [vm_balancer.py], with the fields and properties the three modules read;
    the two properties only the package has, [effective_cpu_load] and
    [cpu_load_score], and the two retention constants are parameters. *)

(** *** [ResourceEstimator] ([core/resource_estimator.py]) *)

Module ResourceEstimator.

Record t : Type := mk {
  cpu_overload_threshold : Q;
  memory_overload_threshold : Q
}.

Definition estimate_post_migration_resources (self : t)
    (node : NodeInfo.t) (vm : VMInfo.t) : result (Q * Q) :=
  match truediv (NodeInfo.cpu_used node + VMInfo.cpu_cores vm)
          (NodeInfo.cpu_total node) with
  | Raise e => Raise e
  | Ok estimated_cpu_ratio =>
      match truediv (VMInfo.memory_mb vm) (NodeInfo.memory_total_mb node) with
      | Raise e => Raise e
      | Ok memory_share =>
          Ok (estimated_cpu_ratio,
              (NodeInfo.memory_usage_percent node + memory_share * 100)%Q)
      end
  end.

(** The first three dot-separated parts, each through [int()];
    [ValueError] and [AttributeError] give [(0, 0, 0)]. *)
Definition _parse_qemu_version (version_str : string) : result (list Z) :=
  match mapM py_int (take 3 (split_on "." version_str)) with
  | Ok parts => Ok parts
  | Raise ValueError | Raise AttributeError => Ok [0; 0; 0]
  | Raise e => Raise e
  end.

Definition _check_qemu_compatibility (self : t) (target_node : NodeInfo.t)
    (source_node : option NodeInfo.t) : bool :=
  match source_node with
  | None => true
  | Some source =>
      if String.eqb (NodeInfo.qemu_version target_node) ""
         || String.eqb (NodeInfo.qemu_version source) ""
      then true
      else
        match _parse_qemu_version (NodeInfo.qemu_version target_node) with
        | Raise _ => true
        | Ok target_version =>
            match _parse_qemu_version (NodeInfo.qemu_version source) with
            | Raise _ => true
            | Ok source_version => tuple_le source_version target_version
            end
        end
  end.

Definition can_node_accept_vm (self : t) (node : NodeInfo.t) (vm : VMInfo.t)
    (source_node : option NodeInfo.t) : result bool :=
  match estimate_post_migration_resources self node vm with
  | Raise e => Raise e
  | Ok (estimated_cpu_ratio, estimated_memory_percent) =>
      let cpu_ok := Qlt_bool estimated_cpu_ratio (cpu_overload_threshold self) in
      let memory_ok :=
        Qlt_bool estimated_memory_percent (memory_overload_threshold self) in
      let qemu_ok := _check_qemu_compatibility self node source_node in
      Ok (cpu_ok && memory_ok && qemu_ok)
  end.
End ResourceEstimator.

(** *** [NodeAnalyzer] ([core/node_analyzer.py]) *)

Module NodeAnalyzer.

Record t : Type := mk {
  cpu_overload_threshold : Q;
  memory_overload_threshold : Q;
  cpu_target_threshold : Q;
  memory_target_threshold : Q;
  excluded_source_nodes : gset string;
  excluded_target_nodes : gset string
}.

Section Properties.
(** The two properties of the package's [NodeInfo] that the sources do
    not define. *)
Context (effective_cpu_load cpu_load_score : NodeInfo.t → Q).

Definition _is_excluded_source_node (self : t) (node : NodeInfo.t) : bool :=
  bool_decide (NodeInfo.name node ∈ excluded_source_nodes self)
  || bool_decide (NodeInfo.id node ∈ excluded_source_nodes self).

Definition _is_excluded_target_node (self : t) (node : NodeInfo.t) : bool :=
  bool_decide (NodeInfo.name node ∈ excluded_target_nodes self)
  || bool_decide (NodeInfo.id node ∈ excluded_target_nodes self).

Definition _is_node_overloaded (self : t) (node : NodeInfo.t) : bool :=
  let cpu_overloaded :=
    Qlt_bool (cpu_overload_threshold self) (effective_cpu_load node) in
  let memory_overloaded :=
    Qlt_bool (memory_overload_threshold self) (NodeInfo.memory_usage_percent node) in
  negb (NodeInfo.is_maintenance node) && (cpu_overloaded || memory_overloaded).

Definition _has_node_capacity (self : t) (node : NodeInfo.t) : bool :=
  let cpu_has_capacity :=
    Qlt_bool (effective_cpu_load node) (cpu_target_threshold self) in
  let memory_has_capacity :=
    Qlt_bool (NodeInfo.memory_usage_percent node) (memory_target_threshold self) in
  NodeInfo.can_accept_vms node && cpu_has_capacity && memory_has_capacity.

Definition combined_load_score (n : NodeInfo.t) : Q :=
  (cpu_load_score n + NodeInfo.memory_usage_percent n / 100)%Q.

Definition find_overloaded_nodes (self : t) (nodes : list NodeInfo.t)
    : list NodeInfo.t :=
  let overloaded :=
    List.filter
      (λ node, negb (_is_excluded_source_node self node)
               && _is_node_overloaded self node)
      nodes in
  sort_by_key Qlt_bool combined_load_score true overloaded.

Definition find_underloaded_nodes (self : t) (nodes : list NodeInfo.t)
    : list NodeInfo.t :=
  let underloaded :=
    List.filter
      (λ node, negb (_is_excluded_target_node self node)
               && _has_node_capacity self node)
      nodes in
  sort_by_key pair_ltb
    (λ n, (cpu_load_score n, NodeInfo.memory_usage_percent n)) false underloaded.
End Properties.
End NodeAnalyzer.

(** *** [MigrationStrategy] ([core/migration_strategy.py]) *)

Module MigrationStrategy.

Record t : Type := mk {
  resource_estimator : ResourceEstimator.t;
  migration_history : gmap string Z;
  migration_blacklist : gmap string Z
}.

Section Constants.
(** The constants of [core/constants.py], in hours. *)
Context (MIGRATION_BLACKLIST_RETENTION_HOURS : Z)
        (MIGRATION_HISTORY_RETENTION_HOURS : Z).

Definition _filter_recently_migrated_vms (self : t) (current_time : Z)
    (candidates : list VMInfo.t) : list VMInfo.t :=
  let recent_cutoff :=
    current_time - timedelta_hours MIGRATION_HISTORY_RETENTION_HOURS in
  let recent_candidates :=
    List.filter
      (λ vm, default datetime_min (migration_history self !! VMInfo.id vm)
             <? recent_cutoff)
      candidates in
  match recent_candidates with
  | [] => []
  | _ => recent_candidates
  end.

Definition _filter_blacklisted_vms (self : t) (current_time : Z)
    (candidates : list VMInfo.t) : list VMInfo.t :=
  let blacklist_cutoff :=
    current_time - timedelta_hours MIGRATION_BLACKLIST_RETENTION_HOURS in
  let final_candidates :=
    List.filter
      (λ vm, default datetime_min (migration_blacklist self !! VMInfo.id vm)
             <? blacklist_cutoff)
      candidates in
  match final_candidates with
  | [] => []
  | _ => final_candidates
  end.

(** [current_time] is what [datetime.now()] returns in the two filters. *)
Definition select_vm_for_migration (self : t) (current_time : Z)
    (vms : list VMInfo.t) (source_node : NodeInfo.t) : option VMInfo.t :=
  let all_vms_on_node :=
    List.filter
      (λ vm, String.eqb (VMInfo.node_id vm) (NodeInfo.id source_node)) vms in
  let candidates := List.filter VMInfo.can_migrate all_vms_on_node in
  match candidates with
  | [] => None
  | _ =>
      match _filter_recently_migrated_vms self current_time candidates with
      | [] => None
      | candidates1 =>
          match _filter_blacklisted_vms self current_time candidates1 with
          | [] => None
          | candidates2 =>
              head (sort_by_key Qlt_bool VMBalancer.vm_size_key false candidates2)
          end
      end
  end.
End Constants.

Fixpoint find_target_node (self : t) (vm : VMInfo.t)
    (underloaded_nodes : list NodeInfo.t) (source_node : NodeInfo.t)
    : result (option NodeInfo.t) :=
  match underloaded_nodes with
  | [] => Ok None
  | node :: rest =>
      match ResourceEstimator.can_node_accept_vm (resource_estimator self)
              node vm (Some source_node) with
      | Raise e => Raise e
      | Ok true => Ok (Some node)
      | Ok false => find_target_node self vm rest source_node
      end
  end.

Definition record_migration_start (self : t) (current_time : Z) (vm_id : string) : t :=
  mk (resource_estimator self)
     (<[vm_id := current_time]> (migration_history self))
     (migration_blacklist self).

Definition record_migration_failure (self : t) (current_time : Z) (vm_id : string) : t :=
  mk (resource_estimator self)
     (migration_history self)
     (<[vm_id := current_time]> (migration_blacklist self)).
End MigrationStrategy.

(** ** The acceptance checks in double precision

    In the definitions above a Python [float] is an exact rational.  Here
    the two acceptance checks are given again with the arithmetic the
    program runs: IEEE 754 binary64 with rounding to nearest, the
    operations in the order the source has them.  [a / b] of two integers
    is the correctly rounded quotient; for integers of at most 53 bits,
    which a double holds exactly, it is the quotient of their doubles. *)

Module Doubles.

(** A positive number of at most 63 bits as a machine integer. *)
Fixpoint int_of_pos (p : positive) : PrimInt63.int :=
  match p with
  | xH => 1%uint63
  | xO p' => PrimInt63.lsl (int_of_pos p') 1%uint63
  | xI p' => PrimInt63.lor (PrimInt63.lsl (int_of_pos p') 1%uint63) 1%uint63
  end.

(** [float(n)] for an integer of at most 53 bits. *)
Definition of_int (n : Z) : PrimFloat.float :=
  match n with
  | Z0 => PrimFloat.zero
  | Zpos p => PrimFloat.of_uint63 (int_of_pos p)
  | Zneg p => PrimFloat.opp (PrimFloat.of_uint63 (int_of_pos p))
  end.

Definition fits (n : Z) : Prop := Z.abs n ≤ 2 ^ 53.

Definition truediv (a b : Z) : result PrimFloat.float :=
  if b =? 0 then Raise ZeroDivisionError
  else Ok (PrimFloat.div (of_int a) (of_int b)).

(** [NodeInfo.memory_usage_percent] *)
Definition memory_usage_percent (self : NodeInfo.t) : PrimFloat.float :=
  if 0 <? NodeInfo.memory_total_mb self
  then PrimFloat.mul
         (PrimFloat.div (of_int (NodeInfo.memory_used_mb self))
            (of_int (NodeInfo.memory_total_mb self)))
         (of_int 100)
  else PrimFloat.zero.

(** The thresholds of a [VMBalancer], and of a [ResourceEstimator], as the
    doubles they are. *)
Record balancer : Type := mkBalancer {
  cpu_overload_threshold : PrimFloat.float;
  memory_overload_threshold : PrimFloat.float;
  cpu_target_threshold : PrimFloat.float;
  memory_target_threshold : PrimFloat.float
}.

Record estimator : Type := mkEstimator {
  estimator_cpu_overload_threshold : PrimFloat.float;
  estimator_memory_overload_threshold : PrimFloat.float
}.

(** [ResourceEstimator.estimate_post_migration_resources] *)
Definition estimate_post_migration_resources (node : NodeInfo.t) (vm : VMInfo.t)
    : result (PrimFloat.float * PrimFloat.float) :=
  match truediv (NodeInfo.cpu_used node + VMInfo.cpu_cores vm)
          (NodeInfo.cpu_total node) with
  | Raise e => Raise e
  | Ok estimated_cpu_ratio =>
      match truediv (VMInfo.memory_mb vm) (NodeInfo.memory_total_mb node) with
      | Raise e => Raise e
      | Ok memory_share =>
          Ok (estimated_cpu_ratio,
              PrimFloat.add (memory_usage_percent node)
                (PrimFloat.mul memory_share (of_int 100)))
      end
  end.

(** [ResourceEstimator.can_node_accept_vm]; the QEMU check reads no
    attribute of the estimator. *)
Definition estimator_can_node_accept_vm (self : estimator) (node : NodeInfo.t)
    (vm : VMInfo.t) (source_node : option NodeInfo.t) : result bool :=
  match estimate_post_migration_resources node vm with
  | Raise e => Raise e
  | Ok (estimated_cpu_ratio, estimated_memory_percent) =>
      let cpu_ok :=
        PrimFloat.ltb estimated_cpu_ratio (estimator_cpu_overload_threshold self) in
      let memory_ok :=
        PrimFloat.ltb estimated_memory_percent
          (estimator_memory_overload_threshold self) in
      let qemu_ok :=
        ResourceEstimator._check_qemu_compatibility (ResourceEstimator.mk 0 0)
          node source_node in
      Ok (cpu_ok && memory_ok && qemu_ok)
  end.

(** [VMBalancer.can_node_accept_vm] *)
Definition can_node_accept_vm {Ref : Type} (deref : Ref → NodeInfo.t)
    (self : balancer) (current_cluster_nodes : attr (list Ref))
    (node : Ref) (vm : VMInfo.t) : result bool :=
  let n := deref node in
  match truediv (NodeInfo.cpu_used n + VMInfo.cpu_cores vm) (NodeInfo.cpu_total n) with
  | Raise e => Raise e
  | Ok estimated_cpu_ratio =>
  match truediv (VMInfo.memory_mb vm) (NodeInfo.memory_total_mb n) with
  | Raise e => Raise e
  | Ok memory_share =>
  let estimated_memory :=
    PrimFloat.add (memory_usage_percent n) (PrimFloat.mul memory_share (of_int 100)) in
  let cpu_ok := PrimFloat.ltb estimated_cpu_ratio (cpu_overload_threshold self) in
  let memory_ok := PrimFloat.ltb estimated_memory (memory_overload_threshold self) in
  match VMBalancer.get_source_node_for_vm deref current_cluster_nodes vm with
  | Raise e => Raise e
  | Ok source_node =>
      let qemu_ok :=
        match source_node with
        | Some src =>
            if negb (String.eqb (NodeInfo.qemu_version n) "")
               && negb (String.eqb (NodeInfo.qemu_version (deref src)) "")
            then VMManagerAPI.compare_qemu_versions
                   (NodeInfo.qemu_version (deref src)) (NodeInfo.qemu_version n)
            else true
        | None => true
        end in
      Ok (cpu_ok && memory_ok && qemu_ok)
  end end end.
End Doubles.

(** ** The acceptance rule in the words of the specification

    "(t.cpu_used + v.cpu_cores) / t.cpu_total < cpu_overload_threshold, and
    t.memory_usage_percent + 100 * v.memory_mb / t.memory_total_mb <
    memory_overload_threshold, and the QEMU check passes", the numbers being
    the exact ones. *)
Definition spec_accepts (cpu_overload_threshold memory_overload_threshold : Q)
    (t : NodeInfo.t) (v : VMInfo.t) (qemu_ok : bool) : bool :=
  Qlt_bool (inject_Z (NodeInfo.cpu_used t + VMInfo.cpu_cores v)
            / inject_Z (NodeInfo.cpu_total t))
    cpu_overload_threshold
  && Qlt_bool (NodeInfo.memory_usage_percent t
               + 100 * inject_Z (VMInfo.memory_mb v)
                 / inject_Z (NodeInfo.memory_total_mb t))
       memory_overload_threshold
  && qemu_ok.

(** ** The compatibility rule in the words of the specification

    "Extract the leading dotted integer tuple from each version string.
    Missing: tuple (0,).  If either side's version is empty, return true.
    Otherwise return target_tuple >= source_tuple lexicographically." *)

(** Reads a dotted integer tuple whose current component has value [cur]
    so far. *)
Fixpoint dotted_tuple (cur : Z) (s : string) : list Z :=
  match s with
  | EmptyString => [cur]
  | String c s' =>
      if is_digit c then dotted_tuple (10 * cur + digit_value c) s'
      else if Ascii.eqb c "." then
        match s' with
        | String d _ => if is_digit d then cur :: dotted_tuple 0 s' else [cur]
        | EmptyString => [cur]
        end
      else [cur]
  end.

Definition spec_leading_tuple (s : string) : list Z :=
  match s with
  | String c _ => if is_digit c then dotted_tuple 0 s else [0]
  | EmptyString => [0]
  end.

Definition spec_qemu_compatible (source_version target_version : string) : bool :=
  if String.eqb source_version "" || String.eqb target_version "" then true
  else tuple_le (spec_leading_tuple source_version) (spec_leading_tuple target_version).

(** The tuple [ResourceEstimator._parse_qemu_version] returns, as a total
    function. *)
Definition first_three_parts (version_str : string) : list Z :=
  match mapM py_int (take 3 (split_on "." version_str)) with
  | Ok parts => parts
  | Raise _ => [0; 0; 0]
  end.

(** ** Reading the results of the orchestrator *)

(** The variables at the end of a loop body, whether it fell through or
    raised. *)
Definition outcome_state (o : VMBalancer.outcome) : VMBalancer.cycle :=
  match o with
  | VMBalancer.Next st => st
  | VMBalancer.Raised _ st => st
  end.

(** A node with its VM counter masked: all that an assignment to
    [vm_count] leaves alone. *)
Definition without_vm_count (n : NodeInfo.t) : NodeInfo.t := NodeInfo.set_vm_count 0 n.

(** The projection the specification describes, for comparison with what
    the loop body does:
    "src.vm_count -= 1, src.cpu_used -= vm.cpu_cores,
     src.memory_used_mb -= vm.memory_mb" and the same with += on the target. *)
Definition spec_shift (sign : Z) (vm : VMInfo.t) (n : NodeInfo.t) : NodeInfo.t :=
  NodeInfo.mk (NodeInfo.id n) (NodeInfo.name n) (NodeInfo.cpu_total n)
    (NodeInfo.cpu_used n + sign * VMInfo.cpu_cores vm)
    (NodeInfo.memory_total_mb n)
    (NodeInfo.memory_used_mb n + sign * VMInfo.memory_mb vm)
    (NodeInfo.vm_count n + sign)
    (NodeInfo.is_maintenance n) (NodeInfo.vm_creation_allowed n)
    (NodeInfo.vm_limit n) (NodeInfo.qemu_version n).

Definition spec_projection (vm : VMInfo.t) (source target : nat)
    (heap : list NodeInfo.t) : list NodeInfo.t :=
  alter (spec_shift 1 vm) target (alter (spec_shift (-1) vm) source heap).

(** ** Scenarios *)

Module Scenario.

Definition minutes (m : Z) : Z := m * 60000000.

(** Thresholds and limits at the defaults of [VMBalancer.__init__]. *)
Definition balancer (api : VMManagerAPI.t) (dry_run : bool)
    (history : gmap string Z) (cap : Z) : VMBalancer.t :=
  VMBalancer.mk api 7 70 6 80 history dry_run None ∅ ∅ cap 1800.

(** S1: node A with 8 vCPUs on 1 core and 40% of memory, holding VM x
    (2 vCPUs, 4 GiB); node B with 0 vCPUs on 1 core and 10% of memory. *)
Definition node_A : NodeInfo.t :=
  NodeInfo.mk "1" "A" 1 8 40960 16384 1 false true 0 "".
Definition node_B : NodeInfo.t :=
  NodeInfo.mk "2" "B" 1 0 40960 4096 0 false true 0 "".
Definition vm_x : VMInfo.t := VMInfo.mk "100" "x" "1" 2 4096 "active" true.
Definition cluster_AB : ClusterInfo.t := ClusterInfo.mk "c1" "main" [node_A; node_B] true.

(** A remote side that lists the given VMs; every migration takes one
    minute and ends as [ok] says. *)
Definition remote (vms : list VMInfo.t) (ok : bool) : VMManagerAPI.t :=
  VMManagerAPI.mk (λ _ _, vms) (λ w _ _ _, (ok, now w + minutes 1)).

(** Some time in 2026, in microseconds since [datetime.min]. *)
Definition t0 : Z := 63900000000000000.
Definition world0 : World := mkWorld t0 [].

(** A node without cores, as an inventory entry with [cpu.number] missing
    gives it. *)
Definition node_C : NodeInfo.t :=
  NodeInfo.mk "3" "C" 0 0 40960 4096 0 false true 0 "".
Definition cluster_AC : ClusterInfo.t := ClusterInfo.mk "c2" "edge" [node_A; node_C] true.

(** Two nodes for the ordering of sources: [hot_cpu] has ratio 8 and 10% of
    memory, [hot_mem] has ratio 1/2 and 71% of memory. *)
Definition hot_cpu : NodeInfo.t :=
  NodeInfo.mk "10" "hot-cpu" 1 8 1000 100 4 false true 0 "".
Definition hot_mem : NodeInfo.t :=
  NodeInfo.mk "11" "hot-mem" 2 1 1000 710 4 false true 0 "".

Definition with_qemu (v : string) (n : NodeInfo.t) : NodeInfo.t :=
  NodeInfo.mk (NodeInfo.id n) (NodeInfo.name n) (NodeInfo.cpu_total n)
    (NodeInfo.cpu_used n) (NodeInfo.memory_total_mb n) (NodeInfo.memory_used_mb n)
    (NodeInfo.vm_count n) (NodeInfo.is_maintenance n)
    (NodeInfo.vm_creation_allowed n) (NodeInfo.vm_limit n) v.

(** S4: VM y, the only VM on node A, was migrated ten minutes ago. *)
Definition vm_y : VMInfo.t := VMInfo.mk "200" "y" "1" 2 4096 "active" true.
Definition history_y : gmap string Z := {["200" := t0 - minutes 10]}.

(** The next cycle starts ten minutes after the end of a run. *)
Definition next_cycle (w : World) : World :=
  mkWorld (now w + minutes 10) (migrate_calls w).

(** S6: three overloaded one-core nodes with one VM of 4 vCPUs each, and
    one empty one-core target. *)
Definition node_N (id : string) : NodeInfo.t :=
  NodeInfo.mk id ("N" ++ id) 1 8 40960 4096 1 false true 0 "".
Definition node_T : NodeInfo.t :=
  NodeInfo.mk "30" "T" 1 0 40960 4096 0 false true 0 "".
Definition vm_on (node_id vm_id : string) : VMInfo.t :=
  VMInfo.mk vm_id ("v" ++ vm_id) node_id 4 1024 "active" true.
Definition cluster_S6 : ClusterInfo.t :=
  ClusterInfo.mk "c6" "busy" [node_N "21"; node_N "22"; node_N "23"; node_T] true.
Definition vms_S6 : list VMInfo.t :=
  [vm_on "21" "301"; vm_on "22" "302"; vm_on "23" "303"].

(** An inventory record of an active VM without ISO and snapshots in which
    [balancer_mode] is absent. *)
Definition vm_record : gmap string json :=
  <["name" := JStr "x"]> (<["state" := JStr "Active"]>
    (<["iso_mounted" := JBool false]> (<["snapshot_count" := JNum 0]> ∅))).
End Scenario.

(** ** The settings dialogs ([interactive.py], [InteractiveBalancer])

    [ask prompt default] is what [Prompt.ask(prompt, default=default)]
    returns: the text the user enters, the default if they enter none. *)

Module InteractiveBalancer.

(** The entries of [self.settings] that [configure_exclusions] and
    [configure_other] read and write. *)
Record settings : Type := mkSettings {
  max_migrations_per_cycle : Z;
  balance_interval : Z;
  cluster_ids : list string;
  exclude_source_nodes : list string;
  exclude_target_nodes : list string
}.

(** [','.join(items)] *)
Fixpoint join_comma (items : list string) : string :=
  match items with
  | [] => EmptyString
  | [item] => item
  | item :: rest => (item ++ String "," (join_comma rest))%string
  end.

(** [[x.strip() for x in text.split(',') if x.strip()]] *)
Definition split_names (text : string) : list string :=
  map strip
    (List.filter (λ item, negb (String.eqb (strip item) ""))
       (split_on "," text)).

Definition configure_exclusions (ask : string → string → string)
    (self : settings) : settings :=
  let exclude_sources :=
    ask "Exclude source nodes (comma-separated)"
      (join_comma (exclude_source_nodes self)) in
  let exclude_targets :=
    ask "Exclude target nodes (comma-separated)"
      (join_comma (exclude_target_nodes self)) in
  mkSettings (max_migrations_per_cycle self) (balance_interval self)
    (cluster_ids self) (split_names exclude_sources) (split_names exclude_targets).

(** [int(Prompt.ask(prompt, default=str(n)))] *)
Definition ask_int (ask : string → string → string) (prompt : string) (n : Z)
    : result Z :=
  match py_str n with
  | Raise e => Raise e
  | Ok text => py_int (ask prompt text)
  end.

(** The three questions are asked in turn; a [ValueError] from [str()] or
    [int()] ends the dialog before any entry is assigned. *)
Definition configure_other (ask : string → string → string)
    (self : settings) : result settings :=
  match ask_int ask "Max migrations per cycle" (max_migrations_per_cycle self) with
  | Raise ValueError => Ok self
  | Raise e => Raise e
  | Ok max_migrations =>
      match ask_int ask "Balance interval (seconds)" (balance_interval self) with
      | Raise ValueError => Ok self
      | Raise e => Raise e
      | Ok interval =>
          let ids :=
            ask "Cluster IDs (comma-separated, empty for all)"
              (join_comma (cluster_ids self)) in
          Ok (mkSettings max_migrations interval (split_names ids)
                (exclude_source_nodes self) (exclude_target_nodes self))
      end
  end.
End InteractiveBalancer.

(** ** Notions used in the statements below *)

(** The [k]-th test of the loop condition of [wait_for_job_completion]
    passes. *)
Definition in_time (self : VMManagerSession.t) (timeout : Z) (k : nat) : Prop :=
  (VMManagerSession.time self (S k) - VMManagerSession.time self 0
   < inject_Z timeout)%Q.

(** The [k]-th answer about a job is neither its success, nor its failure,
    nor an exception. *)
Definition still_running (self : VMManagerSession.t) (job_id : json) (k : nat)
    : Prop :=
  ∃ status, VMManagerSession.poll_status self job_id k = Ok status
            ∧ status ≠ "success" ∧ status ≠ "error".

(** The job is seen to succeed in pass [n]: the loop condition holds in
    every pass up to [n], every answer before the [n]-th says the job is
    still running, and the [n]-th says [success]. *)
Definition succeeds_in_pass (self : VMManagerSession.t) (job_id : json)
    (timeout : Z) (n : nat) : Prop :=
  VMManagerSession.poll_status self job_id n = Ok "success"
  ∧ in_time self timeout n
  ∧ ∀ j, (j < n)%nat → in_time self timeout j ∧ still_running self job_id j.

(** [time.sleep(5)] between two passes: the clock advances by five seconds
    or more from one test of the loop condition to the next, and does not
    run backwards before the first. *)
Definition clock_advances (self : VMManagerSession.t) : Prop :=
  (VMManagerSession.time self 0 <= VMManagerSession.time self 1)%Q
  ∧ ∀ k, (VMManagerSession.time self (S k) + 5
          <= VMManagerSession.time self (S (S k)))%Q.

(** The number of passes a timeout leaves room for: [timeout / 5], rounded
    up. *)
Definition passes_within (timeout : Z) : nat := Z.to_nat ((timeout + 4) / 5).

(** A server for the examples: it answers a request with job 7, the polls
    with the listed bodies and then with bodies that do not decode; reading
    [k] of the clock is [5 * k] seconds. *)
Definition session_with (answers : list json) : VMManagerSession.t :=
  VMManagerSession.mk
    (λ _ _, Ok (JObj [("id", JNum 7)]))
    (λ _ k, from_option Ok (Raise ValueError) (answers !! k))
    (λ k, inject_Z (5 * Z.of_nat k)).


(** A name as the lists of the settings hold them: not empty, without
    surrounding whitespace, without a comma. *)
Definition clean_name (item : string) : Prop :=
  item ≠ "" ∧ strip item = item ∧ contains_char "," item = false.

(** The user who accepts every default. *)
Definition accept_default (prompt default : string) : string := default.

(** [c * n]: the character [c] repeated [n] times. *)
Fixpoint repeat_char (n : nat) (c : ascii) : string :=
  match n with
  | O => EmptyString
  | S n' => String c (repeat_char n' c)
  end.


(** The number of VMs the snapshots of a cluster account for. *)
Definition total_vm_count (heap : list NodeInfo.t) : Z :=
  foldr (λ n acc, NodeInfo.vm_count n + acc) 0 heap.


(** A VM the script may pick on a source at a given time. *)
Definition script_eligible (self : VMBalancer.t) (current_time : Z)
    (source_node : NodeInfo.t) (vm : VMInfo.t) : Prop :=
  VMInfo.node_id vm = NodeInfo.id source_node
  ∧ VMInfo.can_migrate vm = true
  ∧ default datetime_min (VMBalancer.migration_history self !! VMInfo.id vm)
    < current_time - timedelta_hours 1.

(** A VM the package may pick on a source at a given time. *)
Definition package_eligible (H_fail H_success : Z) (self : MigrationStrategy.t)
    (current_time : Z) (source_node : NodeInfo.t) (vm : VMInfo.t) : Prop :=
  VMInfo.node_id vm = NodeInfo.id source_node
  ∧ VMInfo.can_migrate vm = true
  ∧ default datetime_min (MigrationStrategy.migration_history self !! VMInfo.id vm)
    < current_time - timedelta_hours H_success
  ∧ default datetime_min (MigrationStrategy.migration_blacklist self !! VMInfo.id vm)
    < current_time - timedelta_hours H_fail.

(** The same two notions as boolean tests. *)
Definition script_eligibleb (self : VMBalancer.t) (current_time : Z)
    (source_node : NodeInfo.t) (vm : VMInfo.t) : bool :=
  String.eqb (VMInfo.node_id vm) (NodeInfo.id source_node)
  && VMInfo.can_migrate vm
  && (default datetime_min (VMBalancer.migration_history self !! VMInfo.id vm)
      <? current_time - timedelta_hours 1).

Definition package_eligibleb (H_fail H_success : Z) (self : MigrationStrategy.t)
    (current_time : Z) (source_node : NodeInfo.t) (vm : VMInfo.t) : bool :=
  String.eqb (VMInfo.node_id vm) (NodeInfo.id source_node)
  && VMInfo.can_migrate vm
  && (default datetime_min (MigrationStrategy.migration_history self !! VMInfo.id vm)
      <? current_time - timedelta_hours H_success)
  && (default datetime_min (MigrationStrategy.migration_blacklist self !! VMInfo.id vm)
      <? current_time - timedelta_hours H_fail).

(** A request [(vm id, target id)] that fits a cycle over the snapshots
    [nodes] and the VMs [vms], with [sources] and [targets] the positions of
    the source and target nodes: the VM is one of [vms], is migratable and
    lives on one of the sources; the target is one of the targets and
    passes the acceptance check for the VM on the snapshots. *)
Definition admissible_between (self : VMBalancer.t) (nodes : list NodeInfo.t)
    (sources targets : list nat) (vms : list VMInfo.t)
    (call : string * string) : Prop :=
  ∃ vm source target,
    vm ∈ vms
    ∧ VMInfo.id vm = call.1
    ∧ VMInfo.can_migrate vm = true
    ∧ source ∈ sources
    ∧ VMInfo.node_id vm = NodeInfo.id (VMBalancer.node_at nodes source)
    ∧ target ∈ targets
    ∧ NodeInfo.id (VMBalancer.node_at nodes target) = call.2
    ∧ VMBalancer.can_node_accept_vm (VMBalancer.node_at nodes) self
        (Value (seq 0 (length nodes))) target vm = Ok true.

Definition admissible_request (self : VMBalancer.t) (nodes : list NodeInfo.t)
    (vms : list VMInfo.t) (call : string * string) : Prop :=
  admissible_between self nodes
    (VMBalancer.find_overloaded_nodes (VMBalancer.node_at nodes) self
       (seq 0 (length nodes)))
    (VMBalancer.find_underloaded_nodes (VMBalancer.node_at nodes) self
       (seq 0 (length nodes)))
    vms call.

(** A loop state that differs from the start of the cycle only in
    [vm_count] fields, the history, the counter and the world. *)
Definition cycle_within (self0 : VMBalancer.t) (nodes0 : list NodeInfo.t)
    (targets0 : list nat) (st : VMBalancer.cycle) : Prop :=
  map without_vm_count (VMBalancer.heap st) = map without_vm_count nodes0
  ∧ VMBalancer.underloaded_nodes st = targets0
  ∧ VMBalancer.self_ st
    = VMBalancer.set_migration_history
        (VMBalancer.migration_history (VMBalancer.self_ st)) self0.

(** Text made of digits and dots only. *)
Fixpoint digits_and_dots (s : string) : bool :=
  match s with
  | EmptyString => true
  | String c s' => (is_digit c || Ascii.eqb c ".") && digits_and_dots s'
  end.

(** * Facts about the rational comparisons *)

Lemma Qlt_bool_iff (x y : Q) : Qlt_bool x y = true ↔ (x < y)%Q.
Proof.
  unfold Qlt_bool. rewrite negb_true_iff.
  split.
  - intros H. apply Qnot_le_lt. intros Hle.
    apply Qle_bool_iff in Hle. congruence.
  - intros H. destruct (Qle_bool y x) eqn:E; [|done].
    apply Qle_bool_iff in E. exfalso. by apply (Qlt_not_le x y).
Qed.

Lemma Qlt_bool_false (x y : Q) : Qlt_bool x y = false ↔ (y <= x)%Q.
Proof.
  unfold Qlt_bool. rewrite negb_false_iff. apply Qle_bool_iff.
Qed.

Lemma truediv_nonzero (a b : Z) :
  b ≠ 0 → truediv a b = Ok (inject_Z a / inject_Z b)%Q.
Proof.
  intros Hb. unfold truediv.
  destruct (Z.eqb_spec b 0) as [->|_]; [done|reflexivity].
Qed.

Lemma truediv_zero (a : Z) : truediv a 0 = Raise ZeroDivisionError.
Proof. reflexivity. Qed.

(** * Facts about the stable sort *)

Section SortByKeyFacts.
Context {A K : Type} (ltb : K → K → bool) (key : A → K).

Lemma insert_desc_perm x l : insert_desc ltb key x l ≡ₚ x :: l.
Proof.
  induction l as [|y l IH]; simpl; [done|].
  destruct (ltb (key x) (key y)); [|done].
  rewrite IH. apply Permutation_swap.
Qed.

Lemma insert_asc_perm x l : insert_asc ltb key x l ≡ₚ x :: l.
Proof.
  induction l as [|y l IH]; simpl; [done|].
  destruct (ltb (key y) (key x)); [|done].
  rewrite IH. apply Permutation_swap.
Qed.

Lemma sort_by_key_perm reverse l : sort_by_key ltb key reverse l ≡ₚ l.
Proof.
  unfold sort_by_key.
  induction l as [|x l IH]; simpl; [done|].
  destruct reverse.
  - by rewrite insert_desc_perm, IH.
  - by rewrite insert_asc_perm, IH.
Qed.

Lemma sort_by_key_nil_inv reverse l : sort_by_key ltb key reverse l = [] → l = [].
Proof.
  intros H. apply Permutation_nil_r. by rewrite <- H, sort_by_key_perm.
Qed.
End SortByKeyFacts.

Section SortByRationalKey.
Context {A : Type} (key : A → Q).

Lemma insert_desc_sorted x l :
  StronglySorted (key_ge key) l →
  StronglySorted (key_ge key) (insert_desc Qlt_bool key x l).
Proof.
  induction 1 as [|y l Hs IH Hy]; simpl.
  - repeat constructor.
  - destruct (Qlt_bool (key x) (key y)) eqn:E.
    + apply Qlt_bool_iff in E.
      constructor; [done|].
      rewrite insert_desc_perm. constructor; [|done].
      unfold key_ge. by apply Qlt_le_weak.
    + apply Qlt_bool_false in E.
      constructor; [by constructor|].
      constructor; [done|].
      eapply Forall_impl; [exact Hy|].
      intros z Hz. unfold key_ge in *. by apply Qle_trans with (key y).
Qed.

Lemma insert_asc_sorted x l :
  StronglySorted (key_le key) l →
  StronglySorted (key_le key) (insert_asc Qlt_bool key x l).
Proof.
  induction 1 as [|y l Hs IH Hy]; simpl.
  - repeat constructor.
  - destruct (Qlt_bool (key y) (key x)) eqn:E.
    + apply Qlt_bool_iff in E.
      constructor; [done|].
      rewrite insert_asc_perm. constructor; [|done].
      unfold key_le. by apply Qlt_le_weak.
    + apply Qlt_bool_false in E.
      constructor; [by constructor|].
      constructor; [done|].
      eapply Forall_impl; [exact Hy|].
      intros z Hz. unfold key_le in *. by apply Qle_trans with (key y).
Qed.

Lemma sort_by_key_desc_sorted l :
  StronglySorted (key_ge key) (sort_by_key Qlt_bool key true l).
Proof.
  unfold sort_by_key. induction l as [|x l IH]; simpl.
  - constructor.
  - by apply insert_desc_sorted.
Qed.

Lemma sort_by_key_asc_sorted l :
  StronglySorted (key_le key) (sort_by_key Qlt_bool key false l).
Proof.
  unfold sort_by_key. induction l as [|x l IH]; simpl.
  - constructor.
  - by apply insert_asc_sorted.
Qed.
End SortByRationalKey.

(** The first element of a sorted list is one of the elements. *)
Lemma head_sort_by_key_elem {A K} (ltb : K → K → bool) (key : A → K) reverse l x :
  head (sort_by_key ltb key reverse l) = Some x → x ∈ l.
Proof.
  intros H. rewrite <- (sort_by_key_perm ltb key reverse l).
  destruct (sort_by_key ltb key reverse l); simplify_eq/=. left.
Qed.

(** * The order of the overloaded sources *)

(** The script orders the sources by the larger of ratio and percentage. *)
Lemma legacy_find_overloaded_nodes_sorted {Ref} (deref : Ref → NodeInfo.t)
    (self : VMBalancer.t) (nodes : list Ref) :
  StronglySorted (key_ge (VMBalancer.overload_key deref))
    (VMBalancer.find_overloaded_nodes deref self nodes).
Proof. apply sort_by_key_desc_sorted. Qed.

Lemma legacy_find_overloaded_nodes_perm {Ref} (deref : Ref → NodeInfo.t)
    (self : VMBalancer.t) (nodes : list Ref) :
  VMBalancer.find_overloaded_nodes deref self nodes
  ≡ₚ List.filter (VMBalancer.is_overloaded_source deref self) nodes.
Proof. apply sort_by_key_perm. Qed.

(** C4, as the code has it: the script [VMBalancer.find_overloaded_nodes]
    returns the qualifying nodes in descending order of
    max(cpu_allocation_ratio, memory_usage_percent); the package's
    [NodeAnalyzer.find_overloaded_nodes] returns them in descending order of
    cpu_load_score + memory_usage_percent / 100.  In both, every node is at
    least as high as each node after it. *)
Theorem find_overloaded_nodes_sorted_by_their_keys :
  (∀ (Ref : Type) (deref : Ref → NodeInfo.t) (self : VMBalancer.t) (nodes : list Ref),
     StronglySorted
       (λ a b,
          (Qmax (NodeInfo.cpu_allocation_ratio (deref b))
                (NodeInfo.memory_usage_percent (deref b))
           <= Qmax (NodeInfo.cpu_allocation_ratio (deref a))
                   (NodeInfo.memory_usage_percent (deref a)))%Q)
       (VMBalancer.find_overloaded_nodes deref self nodes))
  ∧ (∀ (effective_cpu_load cpu_load_score : NodeInfo.t → Q)
       (self : NodeAnalyzer.t) (nodes : list NodeInfo.t),
       StronglySorted
         (λ a b,
            (cpu_load_score b + NodeInfo.memory_usage_percent b / 100
             <= cpu_load_score a + NodeInfo.memory_usage_percent a / 100)%Q)
         (NodeAnalyzer.find_overloaded_nodes effective_cpu_load cpu_load_score
            self nodes)).
Proof.
  split.
  - intros. apply legacy_find_overloaded_nodes_sorted.
  - intros. apply (sort_by_key_desc_sorted (NodeAnalyzer.combined_load_score cpu_load_score)).
Qed.

(** C4, as stated, fails on the script: with [hot_cpu] (ratio 8, memory 10%)
    and [hot_mem] (ratio 1/2, memory 71%) the script puts [hot_mem] first,
    though its combined score 1.21 is below the 8.1 of [hot_cpu]. *)
Lemma find_overloaded_nodes_not_by_combined_score :
  let self := Scenario.balancer (Scenario.remote [] true) false ∅ 1 in
  let combined n :=
    (NodeInfo.cpu_allocation_ratio n + NodeInfo.memory_usage_percent n / 100)%Q in
  VMBalancer.find_overloaded_nodes id self [Scenario.hot_cpu; Scenario.hot_mem]
    = [Scenario.hot_mem; Scenario.hot_cpu]
  ∧ ¬ StronglySorted (λ a b, (combined b <= combined a)%Q)
        (VMBalancer.find_overloaded_nodes id self [Scenario.hot_cpu; Scenario.hot_mem]).
Proof.
  split; [by vm_compute|].
  intros Hs.
  replace (VMBalancer.find_overloaded_nodes _ _ _)
    with [Scenario.hot_mem; Scenario.hot_cpu] in Hs by (by vm_compute).
  apply StronglySorted_inv in Hs as [_ Hall].
  apply Forall_cons in Hall as [Hle _].
  vm_compute in Hle. by apply Hle.
Qed.

(** * QEMU versions *)

Lemma is_digit_not_special (c : ascii) :
  is_digit c = true →
  is_space c = false ∧ Ascii.eqb c "." = false ∧ Ascii.eqb c "_" = false
  ∧ c ≠ "-"%char ∧ c ≠ "+"%char.
Proof.
  destruct c as [[] [] [] [] [] [] [] []]; vm_compute; intros H;
    try discriminate H; repeat split; discriminate.
Qed.

Lemma rstrip_all_digits (s : string) : all_digits s = true → rstrip s = s.
Proof.
  induction s as [|c s IH]; simpl; [done|].
  intros [Hc Hs]%andb_true_iff. rewrite (IH Hs).
  destruct (is_digit_not_special c Hc) as (-> & _).
  by destruct s.
Qed.

Lemma strip_all_digits (s : string) : all_digits s = true → strip s = s.
Proof.
  intros H. unfold strip.
  destruct s as [|c s]; [done|]. simpl in H |- *.
  apply andb_true_iff in H as [Hc Hs].
  destruct (is_digit_not_special c Hc) as (-> & _).
  apply rstrip_all_digits. simpl. by rewrite Hc, Hs.
Qed.

Lemma int_digits_all_digits (s : string) (acc : Z) (c : ascii) (b : bool) :
  is_digit c = true → all_digits s = true →
  int_digits acc b (String c s) = Some (decimal acc (String c s)).
Proof.
  revert acc c b. induction s as [|d s IH]; intros acc c b Hc Hs.
  - simpl. by rewrite Hc.
  - simpl in Hs. apply andb_true_iff in Hs as [Hd Hs].
    change (int_digits acc b (String c (String d s)))
      with (if is_digit c
            then int_digits (10 * acc + digit_value c) true (String d s)
            else if Ascii.eqb c "_" && b then int_digits acc false (String d s)
                 else None).
    rewrite Hc. by rewrite IH.
Qed.

Lemma is_digit_not_int_space (c : ascii) :
  is_digit c = true → is_int_space c = false.
Proof.
  destruct c as [[] [] [] [] [] [] [] []]; vm_compute; intros H;
    try discriminate H; reflexivity.
Qed.

Lemma int_rstrip_all_digits (s : string) : all_digits s = true → int_rstrip s = s.
Proof.
  induction s as [|c s IH]; simpl; [done|].
  intros [Hc Hs]%andb_true_iff. rewrite (IH Hs).
  rewrite (is_digit_not_int_space c Hc). by destruct s.
Qed.

Lemma int_strip_all_digits (s : string) :
  all_digits s = true → int_rstrip (int_lstrip s) = s.
Proof.
  intros H. destruct s as [|c s]; [done|]. simpl in H.
  apply andb_true_iff in H as [Hc Hs].
  cbn [int_lstrip]. rewrite (is_digit_not_int_space c Hc).
  apply int_rstrip_all_digits. simpl. by rewrite Hc, Hs.
Qed.

Lemma count_digits_all_digits (s : string) :
  all_digits s = true → count_digits s = Z.of_nat (String.length s).
Proof.
  induction s as [|c s IH]; [done|]. cbn [all_digits count_digits String.length].
  intros [Hc Hs]%andb_true_iff. rewrite Hc, (IH Hs). lia.
Qed.

Lemma count_digits_le_length (s : string) :
  0 ≤ count_digits s ≤ Z.of_nat (String.length s).
Proof.
  induction s as [|c s IH]; [done|]. cbn [count_digits String.length].
  destruct (is_digit c); lia.
Qed.

(** [int()] of a non-empty string of digits is its decimal value, up to
    [int_max_str_digits] digits; of more digits it raises. *)
Lemma py_int_all_digits (c : ascii) (s : string) :
  is_digit c = true → all_digits s = true →
  py_int (String c s)
  = if int_max_str_digits <? Z.of_nat (String.length (String c s))
    then Raise ValueError
    else Ok (decimal 0 (String c s)).
Proof.
  intros Hc Hs. unfold py_int.
  assert (all_digits (String c s) = true) as Hall by (simpl; by rewrite Hc, Hs).
  rewrite (int_strip_all_digits _ Hall).
  destruct (is_digit_not_special c Hc) as (_ & _ & _ & Hm & Hp).
  assert (int_digits 0 false (String c s) = Some (decimal 0 (String c s))) as Hd
    by by apply int_digits_all_digits.
  rewrite <- (count_digits_all_digits _ Hall).
  destruct c as [[] [] [] [] [] [] [] []]; try done;
    rewrite Hd; destruct (_ <? _); first [done|f_equal; lia].
Qed.

Lemma py_int_digits (c : ascii) (s : string) :
  is_digit c = true → all_digits s = true →
  Z.of_nat (String.length (String c s)) ≤ int_max_str_digits →
  py_int (String c s) = Ok (decimal 0 (String c s)).
Proof.
  intros Hc Hs Hlen. rewrite (py_int_all_digits c s Hc Hs).
  destruct (Z.ltb_spec int_max_str_digits (Z.of_nat (String.length (String c s))));
    [lia|done].
Qed.

Definition digit_group (p : string) : Prop :=
  ∃ c s, p = String c s ∧ is_digit c = true ∧ all_digits s = true.

Lemma mapM_py_int_groups (l : list string) :
  Forall digit_group l →
  Forall (λ p, Z.of_nat (String.length p) ≤ int_max_str_digits) l →
  mapM py_int l = Ok (map (decimal 0) l).
Proof.
  induction 1 as [|p l (c & s & -> & Hc & Hs) _ IH]; [done|].
  intros [Hlen Hrest]%Forall_cons.
  cbn [mapM map]. rewrite (py_int_digits c s Hc Hs Hlen), (IH Hrest). done.
Qed.

(** The text the pattern takes after its first digit, cut at the dots, and
    the tuple read directly from the string agree. *)
Lemma split_match_more (s : string) :
  ∀ cur : Z, ∃ h t,
    split_on "." (VMManagerAPI.match_more s) = h :: t
    ∧ all_digits h = true
    ∧ Forall digit_group t
    ∧ (∀ d s', s = String d s' → is_digit d = true → h ≠ EmptyString)
    ∧ dotted_tuple cur s = decimal cur h :: map (decimal 0) t.
Proof.
  induction s as [|c s IH]; intros cur.
  - exists EmptyString, []. repeat split; try done.
  - cbn [VMManagerAPI.match_more dotted_tuple].
    destruct (is_digit c) eqn:Hc.
    + destruct (IH (10 * cur + digit_value c)) as (h & t & Hsplit & Hh & Ht & _ & Hd).
      exists (String c h), t.
      destruct (is_digit_not_special c Hc) as (_ & Hdot & _).
      cbn [split_on]. rewrite Hdot, Hsplit.
      repeat split; try done.
      * simpl. by rewrite Hc, Hh.
    + destruct (Ascii.eqb c ".") eqn:Hdot; cycle 1.
      { exists EmptyString, []. repeat split; try done. intros d0 s0 ? ?; congruence. }
      destruct s as [|d s'].
      { exists EmptyString, []. repeat split; try done. intros d0 s0 ? ?; congruence. }
      destruct (is_digit d) eqn:Hd; cycle 1.
      { exists EmptyString, []. repeat split; try done. intros d0 s0 ? ?; congruence. }
      destruct (IH 0) as (h & t & Hsplit & Hh & Ht & Hne & Htuple).
      exists EmptyString, (h :: t).
      cbn [split_on]. rewrite Hdot, Hsplit.
      repeat split; try done.
      * constructor; [|done].
        specialize (Hne d s' eq_refl Hd).
        destruct h as [|hc hs]; [done|].
        simpl in Hh. apply andb_true_iff in Hh as [? ?]. by exists hc, hs.
      * intros d0 s0 ? ?; congruence.
      * by rewrite Htuple.
Qed.

Lemma lstrip_length (s : string) : (String.length (lstrip s) ≤ String.length s)%nat.
Proof.
  induction s as [|c s IH]; simpl; [done|]. destruct (is_space c); simpl; lia.
Qed.

Lemma rstrip_length (s : string) : (String.length (rstrip s) ≤ String.length s)%nat.
Proof.
  induction s as [|c s IH]; simpl; [done|].
  destruct (rstrip s); [destruct (is_space c)|]; simpl in *; lia.
Qed.

Lemma strip_length (s : string) : (String.length (strip s) ≤ String.length s)%nat.
Proof.
  unfold strip. pose proof (rstrip_length (lstrip s)). pose proof (lstrip_length s). lia.
Qed.

Lemma match_more_length (s : string) :
  (String.length (VMManagerAPI.match_more s) ≤ String.length s)%nat.
Proof.
  induction s as [|c s IH]; [done|]. cbn [VMManagerAPI.match_more].
  destruct (is_digit c); [simpl; lia|].
  destruct (Ascii.eqb c "."); [|simpl; lia].
  destruct s as [|d s']; [simpl; lia|].
  destruct (is_digit d); simpl in *; lia.
Qed.

Lemma split_on_length (c : ascii) (s piece : string) :
  piece ∈ split_on c s → (String.length piece ≤ String.length s)%nat.
Proof.
  revert piece. induction s as [|a s IH]; intros piece; simpl.
  { by intros ->%list_elem_of_singleton. }
  destruct (Ascii.eqb a c).
  - intros [->|Hp]%elem_of_cons; [simpl; lia|]. specialize (IH piece Hp). lia.
  - destruct (split_on c s) as [|h t].
    + intros ->%list_elem_of_singleton. simpl. lia.
    + intros [->|Hp]%elem_of_cons.
      * assert (h ∈ h :: t) as Hh by left. specialize (IH h Hh). simpl. lia.
      * assert (piece ∈ h :: t) as Hin by (by right). specialize (IH piece Hin). lia.
Qed.

(** [parse_version] reads the leading dotted integer tuple of the stripped
    string; it does not raise on a string of at most [int_max_str_digits]
    characters. *)
Lemma parse_version_spec (version_str : string) :
  Z.of_nat (String.length version_str) ≤ int_max_str_digits →
  VMManagerAPI.parse_version version_str
  = Ok (spec_leading_tuple (strip version_str)).
Proof.
  intros Hlen. pose proof (strip_length version_str) as Hstrip.
  unfold VMManagerAPI.parse_version, VMManagerAPI.re_match_numeric, spec_leading_tuple.
  destruct (strip version_str) as [|c s]; [done|].
  destruct (is_digit c) eqn:Hc; [|done].
  destruct (split_match_more s (10 * 0 + digit_value c))
    as (h & t & Hsplit & Hh & Ht & _ & Htuple).
  destruct (is_digit_not_special c Hc) as (_ & Hdot & _).
  assert (split_on "." (String c (VMManagerAPI.match_more s)) = String c h :: t)
    as Hparts by (cbn [split_on]; by rewrite Hdot, Hsplit).
  cbn [dotted_tuple]. rewrite Hparts, Hc, Htuple.
  rewrite mapM_py_int_groups; [done| |].
  - constructor; [by exists c, h|done].
  - apply Forall_forall. intros piece Hpiece. rewrite <- Hparts in Hpiece.
    apply split_on_length in Hpiece.
    pose proof (match_more_length s). simpl in *. lia.
Qed.

Lemma compare_qemu_versions_spec (source_version target_version : string) :
  Z.of_nat (String.length source_version) ≤ int_max_str_digits →
  Z.of_nat (String.length target_version) ≤ int_max_str_digits →
  VMManagerAPI.compare_qemu_versions source_version target_version
  = if String.eqb source_version "" || String.eqb target_version "" then true
    else tuple_le (spec_leading_tuple (strip source_version))
                  (spec_leading_tuple (strip target_version)).
Proof.
  intros Hs Ht. unfold VMManagerAPI.compare_qemu_versions.
  by rewrite !parse_version_spec.
Qed.

(** The handler of [compare_qemu_versions]: when reading either version
    raises, the answer is [True]. *)
Lemma compare_qemu_versions_raises (source_version target_version : string) :
  (∃ e, VMManagerAPI.parse_version source_version = Raise e)
  ∨ (∃ e, VMManagerAPI.parse_version target_version = Raise e) →
  VMManagerAPI.compare_qemu_versions source_version target_version = true.
Proof.
  unfold VMManagerAPI.compare_qemu_versions.
  destruct (_ || _); [done|].
  intros [[e ->]|[e ->]]; [done|]. by destruct (VMManagerAPI.parse_version _).
Qed.

Lemma py_int_raises (s : string) (e : exn) : py_int s = Raise e → e = ValueError.
Proof.
  unfold py_int. intros H.
  destruct (match int_rstrip (int_lstrip s) return Z * string with
            | EmptyString => _ | String _ _ => _ end)
    as [sign digits].
  destruct (int_digits 0 false digits); [|congruence].
  destruct (_ <? _); congruence.
Qed.

Lemma mapM_py_int_raises (l : list string) (e : exn) :
  mapM py_int l = Raise e → e = ValueError.
Proof.
  induction l as [|x l IH]; simpl; [done|].
  destruct (py_int x) eqn:Hx.
  - destruct (mapM py_int l); [done|]. intros [= ->]. by apply IH.
  - intros [= ->]. by apply (py_int_raises x).
Qed.

Lemma _parse_qemu_version_total (version_str : string) :
  ResourceEstimator._parse_qemu_version version_str
  = Ok (first_three_parts version_str).
Proof.
  unfold ResourceEstimator._parse_qemu_version, first_three_parts.
  destruct (mapM py_int _) as [parts|e] eqn:E; [done|].
  by rewrite (mapM_py_int_raises _ _ E).
Qed.

(** C6, as the code has it, for ASCII version strings.
    [VMManagerAPI.compare_qemu_versions] returns true when either string is
    empty and otherwise compares, target against source, the leading dotted
    integer tuples of the two strings with their surrounding whitespace
    removed, (0,) standing for a string without a leading number; a suffix
    such as "-1ubuntu1" is ignored.  This holds for strings of at most
    [int_max_str_digits] characters; when [int()] refuses a component of
    either string, which it does beyond that many digits, the handler
    answers true.
    [ResourceEstimator._check_qemu_compatibility] returns true when either
    version is empty and otherwise compares the tuples of
    [_parse_qemu_version]: the first three dot-separated parts read by
    [int()], or (0, 0, 0) when one of them is not an integer literal. *)
Theorem qemu_compatibility_checks :
  (∀ source_version target_version : string,
     isascii source_version = true → isascii target_version = true →
     Z.of_nat (String.length source_version) ≤ int_max_str_digits →
     Z.of_nat (String.length target_version) ≤ int_max_str_digits →
     VMManagerAPI.compare_qemu_versions source_version target_version
     = if String.eqb source_version "" || String.eqb target_version "" then true
       else tuple_le (spec_leading_tuple (strip source_version))
                     (spec_leading_tuple (strip target_version)))
  ∧ (∀ source_version target_version : string,
       isascii source_version = true → isascii target_version = true →
       (∃ e, VMManagerAPI.parse_version source_version = Raise e)
       ∨ (∃ e, VMManagerAPI.parse_version target_version = Raise e) →
       VMManagerAPI.compare_qemu_versions source_version target_version = true)
  ∧ (∀ (self : ResourceEstimator.t) (target_node source_node : NodeInfo.t),
       isascii (NodeInfo.qemu_version target_node) = true →
       isascii (NodeInfo.qemu_version source_node) = true →
       ResourceEstimator._check_qemu_compatibility self target_node (Some source_node)
       = if String.eqb (NodeInfo.qemu_version target_node) ""
            || String.eqb (NodeInfo.qemu_version source_node) ""
         then true
         else tuple_le (first_three_parts (NodeInfo.qemu_version source_node))
                       (first_three_parts (NodeInfo.qemu_version target_node)))
  ∧ spec_leading_tuple "7.1.0-1ubuntu1" = [7; 1; 0]
  ∧ first_three_parts "7.1.0-1ubuntu1" = [0; 0; 0].
Proof.
  split_and!; [| | |by vm_compute..].
  - intros source_version target_version _ _. apply compare_qemu_versions_spec.
  - intros source_version target_version _ _. apply compare_qemu_versions_raises.
  - intros self target_node source_node _ _.
    unfold ResourceEstimator._check_qemu_compatibility.
    by rewrite !_parse_qemu_version_total.
Qed.

Lemma qemu_compatibility_checks_witness :
  VMManagerAPI.compare_qemu_versions "7.2.0" " 8.0.1-1ubuntu1" = true
  ∧ VMManagerAPI.compare_qemu_versions "8.0" (repeat_char 4301 "1") = true
  ∧ ResourceEstimator._check_qemu_compatibility (ResourceEstimator.mk 7 70)
      (Scenario.with_qemu "8.0.1" Scenario.node_B)
      (Some (Scenario.with_qemu "7.2.0" Scenario.node_A)) = true.
Proof.
  split_and!.
  - rewrite (proj1 qemu_compatibility_checks "7.2.0" " 8.0.1-1ubuntu1");
      vm_compute; (reflexivity || discriminate).
  - apply (proj1 (proj2 qemu_compatibility_checks) "8.0" (repeat_char 4301 "1"));
      [vm_compute; reflexivity..|].
    right. exists ValueError. vm_compute. reflexivity.
  - rewrite (proj1 (proj2 (proj2 qemu_compatibility_checks))
               (ResourceEstimator.mk 7 70)
               (Scenario.with_qemu "8.0.1" Scenario.node_B)
               (Scenario.with_qemu "7.2.0" Scenario.node_A));
      vm_compute; reflexivity.
Defined.

(** C6, as stated, fails.  The package's check parses "7.1.0-1ubuntu1" as
    (0, 0, 0) and refuses a target with that version for a source at
    "6.2.0", where the rule of the claim accepts it; and the script strips
    whitespace first, so " 8.0" is (8, 0) for it and not (0,). *)
Lemma qemu_check_differs_from_claim :
  let est := ResourceEstimator.mk 7 70 in
  let target := Scenario.with_qemu "7.1.0-1ubuntu1" Scenario.node_B in
  let source := Scenario.with_qemu "6.2.0" Scenario.node_A in
  ResourceEstimator._check_qemu_compatibility est target (Some source) = false
  ∧ spec_qemu_compatible "6.2.0" "7.1.0-1ubuntu1" = true
  ∧ VMManagerAPI.compare_qemu_versions "7.2" " 8.0" = true
  ∧ spec_qemu_compatible "7.2" " 8.0" = false.
Proof. repeat split; by vm_compute. Qed.

(** * Migratability of an inventory record *)

(** C10: a record without [balancer_mode] is never migratable:
    [can_vm_migrate] cannot return true on it, and it returns false whenever
    it returns at all, that is whenever [state] is absent or a string and
    [snapshot_count] is absent, a number or a boolean, also for an active
    VM without ISO and without snapshots. *)
Theorem can_vm_migrate_without_balancer_mode (vm_data : gmap string json)
    (Habsent : vm_data !! "balancer_mode" = None) :
  VMManagerAPI.can_vm_migrate vm_data ≠ Ok true
  ∧ ((∀ v, vm_data !! "state" = Some v → ∃ s, v = JStr s) →
     (∀ v, vm_data !! "snapshot_count" = Some v →
           (∃ q, v = JNum q) ∨ (∃ b, v = JBool b)) →
     VMManagerAPI.can_vm_migrate vm_data = Ok false).
Proof.
  unfold VMManagerAPI.can_vm_migrate. rewrite Habsent. simpl.
  split.
  - repeat case_match; congruence.
  - intros Hstate Hsnap.
    assert (∃ s, default (JStr "") (vm_data !! "state") = JStr s) as [s ->].
    { destruct (vm_data !! "state") as [v|] eqn:E; [|by eexists].
      destruct (Hstate v eq_refl) as [s ->]. by eexists. }
    assert (∃ b, py_gt_zero (default (JNum 0) (vm_data !! "snapshot_count")) = Ok b)
      as [b ->].
    { destruct (vm_data !! "snapshot_count") as [v|] eqn:E; [|by eexists].
      destruct (Hsnap v eq_refl) as [[q ->]|[b ->]]; by eexists. }
    simpl. repeat case_match; congruence.
Qed.

Lemma can_vm_migrate_without_balancer_mode_witness :
  Scenario.vm_record !! "balancer_mode" = None
  ∧ VMManagerAPI.can_vm_migrate Scenario.vm_record = Ok false.
Proof.
  assert (Scenario.vm_record !! "balancer_mode" = None) as Habsent
    by (vm_compute; reflexivity).
  split; [exact Habsent|].
  apply (can_vm_migrate_without_balancer_mode Scenario.vm_record Habsent).
  - intros v Hv. vm_compute in Hv. injection Hv as <-. by eexists.
  - intros v Hv. vm_compute in Hv. injection Hv as <-. left. by eexists.
Defined.

(** With the mode set to anything but "off" the same record is migratable. *)
Example can_vm_migrate_with_balancer_mode :
  VMManagerAPI.can_vm_migrate (<["balancer_mode" := JStr "cluster"]> Scenario.vm_record)
  = Ok true.
Proof. by vm_compute. Qed.

(** * The acceptance check *)

Lemma compare_qemu_versions_empty (source_version target_version : string) :
  source_version = "" ∨ target_version = "" →
  VMManagerAPI.compare_qemu_versions source_version target_version = true.
Proof.
  unfold VMManagerAPI.compare_qemu_versions.
  intros [-> | ->]; [done|]. by rewrite orb_true_r.
Qed.

Lemma doubles_truediv_nonzero (a b : Z) :
  b ≠ 0 → Doubles.truediv a b = Ok (PrimFloat.div (Doubles.of_int a) (Doubles.of_int b)).
Proof.
  intros H. unfold Doubles.truediv.
  by destruct (Z.eqb_spec b 0).
Qed.

(** C5, as the code has it.  For a target with cores and memory, both
    acceptance checks return a boolean, and it is true exactly when the
    estimated ratio is below the CPU overload threshold, the estimated
    percentage is below the memory overload threshold, and the QEMU check
    passes; the target thresholds play no part.  The estimates are the
    doubles the code computes, in its order of operations:
    [(cpu_used + cpu_cores) / cpu_total] and
    [memory_usage_percent + memory_mb / memory_total_mb * 100], each
    division, product and sum rounded to nearest.  In the script the source
    node is the cluster node whose id is the VM's [node_id]. *)
Theorem can_node_accept_vm_in_doubles
    (estimator : Doubles.estimator) (balancer : Doubles.balancer)
    (Ref : Type) (deref : Ref → NodeInfo.t) (cluster_nodes : list Ref)
    (target : Ref) (vm : VMInfo.t) (source : NodeInfo.t)
    (Hcpu : NodeInfo.cpu_total (deref target) ≠ 0)
    (Hmem : NodeInfo.memory_total_mb (deref target) ≠ 0)
    (Hfits : Doubles.fits (NodeInfo.cpu_used (deref target) + VMInfo.cpu_cores vm)
             ∧ Doubles.fits (NodeInfo.cpu_total (deref target))
             ∧ Doubles.fits (NodeInfo.memory_used_mb (deref target))
             ∧ Doubles.fits (NodeInfo.memory_total_mb (deref target))
             ∧ Doubles.fits (VMInfo.memory_mb vm)) :
  let t := deref target in
  let cpu_after :=
    PrimFloat.div (Doubles.of_int (NodeInfo.cpu_used t + VMInfo.cpu_cores vm))
      (Doubles.of_int (NodeInfo.cpu_total t)) in
  let mem_after :=
    PrimFloat.add (Doubles.memory_usage_percent t)
      (PrimFloat.mul
         (PrimFloat.div (Doubles.of_int (VMInfo.memory_mb vm))
            (Doubles.of_int (NodeInfo.memory_total_mb t)))
         (Doubles.of_int 100)) in
  (∃ b, Doubles.estimator_can_node_accept_vm estimator t vm (Some source) = Ok b
        ∧ (b = true ↔
           PrimFloat.ltb cpu_after (Doubles.estimator_cpu_overload_threshold estimator)
           = true
           ∧ PrimFloat.ltb mem_after
               (Doubles.estimator_memory_overload_threshold estimator) = true
           ∧ ∀ any, ResourceEstimator._check_qemu_compatibility any t (Some source)
                    = true))
  ∧ (∃ b, Doubles.can_node_accept_vm deref balancer (Value cluster_nodes) target vm
          = Ok b
        ∧ (b = true ↔
           PrimFloat.ltb cpu_after (Doubles.cpu_overload_threshold balancer) = true
           ∧ PrimFloat.ltb mem_after (Doubles.memory_overload_threshold balancer) = true
           ∧ ∀ src,
               List.find
                 (λ r, String.eqb (NodeInfo.id (deref r)) (VMInfo.node_id vm))
                 cluster_nodes = Some src →
               VMManagerAPI.compare_qemu_versions
                 (NodeInfo.qemu_version (deref src)) (NodeInfo.qemu_version t)
               = true)).
Proof.
  intros t cpu_after mem_after. split.
  - unfold Doubles.estimator_can_node_accept_vm,
      Doubles.estimate_post_migration_resources.
    fold t. rewrite !doubles_truediv_nonzero by done.
    eexists; split; [reflexivity|].
    rewrite !andb_true_iff. fold cpu_after mem_after. split.
    + intros [[? ?] ?]. by split_and!.
    + intros (? & ? & Hq). split_and!; [done..|apply Hq].
  - unfold Doubles.can_node_accept_vm, VMBalancer.get_source_node_for_vm.
    fold t. rewrite !doubles_truediv_nonzero by done.
    eexists; split; [reflexivity|].
    rewrite !andb_true_iff. fold cpu_after mem_after.
    destruct (List.find _ cluster_nodes) as [src|].
    + destruct (String.eqb_spec (NodeInfo.qemu_version t) "") as [Et|Et];
        [|destruct (String.eqb_spec (NodeInfo.qemu_version (deref src)) "") as [Es|Es]];
        simpl.
      * split; [|tauto]. intros ((? & ?) & _). repeat split; try done.
        intros ? [= <-]. apply compare_qemu_versions_empty. by right.
      * split; [|tauto]. intros ((? & ?) & _). repeat split; try done.
        intros ? [= <-]. apply compare_qemu_versions_empty. by left.
      * split.
        -- intros ((? & ?) & ?). repeat split; try done. by intros ? [= <-].
        -- intros (? & ? & Hq). repeat split; try done. by apply Hq.
    + split; [|tauto]. intros ((? & ?) & _). repeat split; done.
Qed.

Lemma can_node_accept_vm_in_doubles_witness :
  Doubles.estimator_can_node_accept_vm
    (Doubles.mkEstimator (Doubles.of_int 7) (Doubles.of_int 70))
    Scenario.node_B Scenario.vm_x (Some Scenario.node_A) = Ok true.
Proof.
  assert (NodeInfo.cpu_total Scenario.node_B ≠ 0) as Hcpu by (vm_compute; discriminate).
  assert (NodeInfo.memory_total_mb Scenario.node_B ≠ 0) as Hmem
    by (vm_compute; discriminate).
  destruct (can_node_accept_vm_in_doubles
              (Doubles.mkEstimator (Doubles.of_int 7) (Doubles.of_int 70))
              (Doubles.mkBalancer (Doubles.of_int 7) (Doubles.of_int 70)
                 (Doubles.of_int 6) (Doubles.of_int 80))
              NodeInfo.t id [Scenario.node_A; Scenario.node_B]
              Scenario.node_B Scenario.vm_x Scenario.node_A Hcpu Hmem)
    as [(b & Heq & Hb) _].
  { unfold Doubles.fits. split_and!; vm_compute; discriminate. }
  unfold id in Heq. rewrite Heq.
  f_equal. apply Hb. split_and!; [by vm_compute..|]. intros any. by vm_compute.
Defined.

(** C5, as stated, fails at the threshold.  A node with 708608 of 1024000
    MiB in use and a VM of 8192 MiB give an estimate of exactly 70 percent,
    which the rule of the claim refuses at the threshold 70; the sum the
    code computes from the two rounded percentages is 69.99999999999999,
    and it accepts. *)
Lemma acceptance_check_rounds_below_threshold :
  let node := NodeInfo.mk "5" "E" 64 0 1024000 708608 10 false true 0 "" in
  let vm := VMInfo.mk "9" "large" "1" 4 8192 "active" true in
  let seven := Doubles.of_int 7 in
  let seventy := Doubles.of_int 70 in
  Doubles.estimator_can_node_accept_vm (Doubles.mkEstimator seven seventy) node vm None
  = Ok true
  ∧ Doubles.can_node_accept_vm id
      (Doubles.mkBalancer seven seventy (Doubles.of_int 6) (Doubles.of_int 80))
      Missing node vm
    = Ok true
  ∧ spec_accepts 7 70 node vm true = false
  ∧ (NodeInfo.memory_usage_percent node
     + 100 * inject_Z (VMInfo.memory_mb vm) / inject_Z (NodeInfo.memory_total_mb node)
     == 70)%Q.
Proof. repeat split; by vm_compute. Qed.

(** A placement that ends between the target and the overload threshold is
    accepted: 5 + 1 vCPUs on one core give ratio 6, not below the target
    threshold 6 but below the overload threshold 7. *)
Example accepts_between_thresholds :
  let node := NodeInfo.mk "4" "D" 1 5 40960 4096 3 false true 0 "" in
  let vm := VMInfo.mk "7" "small" "1" 1 1024 "active" true in
  ResourceEstimator.can_node_accept_vm (ResourceEstimator.mk 7 70) node vm None
  = Ok true
  ∧ VMBalancer.can_node_accept_vm id
      (Scenario.balancer (Scenario.remote [] true) false ∅ 1) Missing node vm
    = Ok true.
Proof. split; by vm_compute. Qed.

(** C9: on a target without cores the estimate divides by zero.  Such a node
    has allocation ratio 0, so it passes the CPU part of target eligibility
    under any positive target threshold, and then both acceptance checks
    raise [ZeroDivisionError] for every VM instead of returning a boolean. *)
Theorem can_node_accept_vm_zero_cores
    (estimator : ResourceEstimator.t) (balancer : VMBalancer.t)
    (Ref : Type) (deref : Ref → NodeInfo.t)
    (current_cluster_nodes : attr (list Ref))
    (target : Ref) (vm : VMInfo.t) (source : option NodeInfo.t)
    (Hzero : NodeInfo.cpu_total (deref target) = 0) :
  NodeInfo.cpu_allocation_ratio (deref target) = 0%Q
  ∧ ((0 < VMBalancer.cpu_target_threshold balancer)%Q →
     Qlt_bool (NodeInfo.cpu_allocation_ratio (deref target))
       (VMBalancer.cpu_target_threshold balancer) = true)
  ∧ VMBalancer.can_node_accept_vm deref balancer current_cluster_nodes target vm
    = Raise ZeroDivisionError
  ∧ ResourceEstimator.estimate_post_migration_resources estimator (deref target) vm
    = Raise ZeroDivisionError
  ∧ ResourceEstimator.can_node_accept_vm estimator (deref target) vm source
    = Raise ZeroDivisionError.
Proof.
  assert (NodeInfo.cpu_allocation_ratio (deref target) = 0%Q) as Hratio
    by (unfold NodeInfo.cpu_allocation_ratio; by rewrite Hzero).
  split; [done|]. split.
  { rewrite Hratio. by intros ?%Qlt_bool_iff. }
  unfold VMBalancer.can_node_accept_vm, ResourceEstimator.can_node_accept_vm,
    ResourceEstimator.estimate_post_migration_resources.
  by rewrite Hzero, !truediv_zero.
Qed.

(** In the cluster of [node_A] and the coreless [node_C], [node_C] is the
    only target, and the cycle ends in the exception. *)
Lemma can_node_accept_vm_zero_cores_witness :
  let balancer := Scenario.balancer (Scenario.remote [Scenario.vm_x] true) false ∅ 1 in
  NodeInfo.cpu_total Scenario.node_C = 0
  ∧ VMBalancer.find_underloaded_nodes id balancer (ClusterInfo.nodes Scenario.cluster_AC)
    = [Scenario.node_C]
  ∧ VMBalancer.can_node_accept_vm id balancer Missing Scenario.node_C Scenario.vm_x
    = Raise ZeroDivisionError
  ∧ VMBalancer.returned (VMBalancer.balance_cluster balancer Scenario.cluster_AC Scenario.world0)
    = Raise ZeroDivisionError.
Proof.
  intros balancer.
  assert (NodeInfo.cpu_total Scenario.node_C = 0) as Hzero by reflexivity.
  split; [exact Hzero|]. split; [by vm_compute|]. split; [|by vm_compute].
  exact (proj1 (proj2 (proj2
    (can_node_accept_vm_zero_cores (ResourceEstimator.mk 7 70) balancer
       NodeInfo.t id Missing Scenario.node_C Scenario.vm_x None Hzero)))).
Defined.

(** * Selection of the VM to migrate *)

Lemma elem_of_List_filter {A} (f : A → bool) (l : list A) (x : A) :
  x ∈ List.filter f l ↔ x ∈ l ∧ f x = true.
Proof. rewrite !list_elem_of_In. apply filter_In. Qed.

Lemma List_filter_nil {A} (f : A → bool) (l : list A) :
  (∀ x, x ∈ l → f x = false) → List.filter f l = [].
Proof.
  induction l as [|x l IH]; intros H; simpl; [done|].
  rewrite (H x) by left. apply IH. intros y Hy. apply H. by right.
Qed.

(** What the script's selection returns is on the source node, migratable,
    and has no history entry at or after the cutoff of one hour. *)
Lemma legacy_select_vm_sound (self : VMBalancer.t) (current_time : Z)
    (vms : list VMInfo.t) (source_node : NodeInfo.t) (v : VMInfo.t) :
  VMBalancer.select_vm_for_migration self current_time vms source_node = Some v →
  v ∈ vms
  ∧ VMInfo.node_id v = NodeInfo.id source_node
  ∧ VMInfo.can_migrate v = true
  ∧ default datetime_min (VMBalancer.migration_history self !! VMInfo.id v)
    < current_time - timedelta_hours 1.
Proof.
  unfold VMBalancer.select_vm_for_migration. cbv zeta.
  remember (List.filter VMInfo.can_migrate _) as candidates eqn:Ec.
  remember (List.filter _ candidates) as recent eqn:Er.
  intros H.
  assert (v ∈ recent) as Hv.
  { destruct candidates; [done|]. destruct recent; [done|].
    by eapply head_sort_by_key_elem. }
  subst recent candidates.
  apply elem_of_List_filter in Hv as [Hv Hrecent].
  apply elem_of_List_filter in Hv as [Hv Hcan].
  apply elem_of_List_filter in Hv as [Hv Hnode].
  apply Z.ltb_lt in Hrecent. by apply String.eqb_eq in Hnode.
Qed.

Lemma legacy_select_vm_none (self : VMBalancer.t) (current_time : Z)
    (vms : list VMInfo.t) (source_node : NodeInfo.t) :
  (∀ v, v ∈ vms → VMInfo.node_id v = NodeInfo.id source_node →
        VMInfo.can_migrate v = true →
        current_time - timedelta_hours 1
        ≤ default datetime_min (VMBalancer.migration_history self !! VMInfo.id v)) →
  VMBalancer.select_vm_for_migration self current_time vms source_node = None.
Proof.
  intros Hall. unfold VMBalancer.select_vm_for_migration. cbv zeta.
  remember (List.filter VMInfo.can_migrate _) as candidates eqn:Ec.
  rewrite List_filter_nil; [by destruct candidates|].
  intros x Hx. apply Z.ltb_ge. subst candidates.
  apply elem_of_List_filter in Hx as [Hx Hcan].
  apply elem_of_List_filter in Hx as [Hx Hnode].
  apply String.eqb_eq in Hnode. by apply Hall.
Qed.

Section StrategyFacts.
Context (H_fail H_success : Z).

Lemma _filter_recently_migrated_vms_eq self current_time candidates :
  MigrationStrategy._filter_recently_migrated_vms H_success self current_time candidates
  = List.filter
      (λ vm, default datetime_min
               (MigrationStrategy.migration_history self !! VMInfo.id vm)
             <? current_time - timedelta_hours H_success)
      candidates.
Proof.
  unfold MigrationStrategy._filter_recently_migrated_vms. by destruct (List.filter _ _).
Qed.

Lemma _filter_blacklisted_vms_eq self current_time candidates :
  MigrationStrategy._filter_blacklisted_vms H_fail self current_time candidates
  = List.filter
      (λ vm, default datetime_min
               (MigrationStrategy.migration_blacklist self !! VMInfo.id vm)
             <? current_time - timedelta_hours H_fail)
      candidates.
Proof.
  unfold MigrationStrategy._filter_blacklisted_vms. by destruct (List.filter _ _).
Qed.

(** What the package's selection returns has passed both filters. *)
Lemma strategy_select_vm_sound (self : MigrationStrategy.t) (current_time : Z)
    (vms : list VMInfo.t) (source_node : NodeInfo.t) (v : VMInfo.t) :
  MigrationStrategy.select_vm_for_migration H_fail H_success self current_time
    vms source_node = Some v →
  v ∈ vms
  ∧ VMInfo.node_id v = NodeInfo.id source_node
  ∧ VMInfo.can_migrate v = true
  ∧ default datetime_min (MigrationStrategy.migration_history self !! VMInfo.id v)
    < current_time - timedelta_hours H_success
  ∧ default datetime_min (MigrationStrategy.migration_blacklist self !! VMInfo.id v)
    < current_time - timedelta_hours H_fail.
Proof.
  unfold MigrationStrategy.select_vm_for_migration. cbv zeta.
  rewrite _filter_recently_migrated_vms_eq.
  remember (List.filter VMInfo.can_migrate _) as candidates eqn:Ec.
  remember (List.filter _ candidates) as recent eqn:Er.
  intros H.
  assert (v ∈ recent
          ∧ (default datetime_min
               (MigrationStrategy.migration_blacklist self !! VMInfo.id v)
             <? current_time - timedelta_hours H_fail) = true) as [Hv Hblack].
  { destruct candidates; [done|]. destruct recent as [|r0 rs]; [done|].
    rewrite _filter_blacklisted_vms_eq in H.
    destruct (List.filter _ (r0 :: rs)) eqn:Ef; [done|].
    apply head_sort_by_key_elem in H. rewrite <- Ef in H.
    by apply elem_of_List_filter in H. }
  subst recent candidates.
  apply elem_of_List_filter in Hv as [Hv Hrecent].
  apply elem_of_List_filter in Hv as [Hv Hcan].
  apply elem_of_List_filter in Hv as [Hv Hnode].
  apply Z.ltb_lt in Hrecent, Hblack. by apply String.eqb_eq in Hnode.
Qed.

Lemma strategy_select_vm_none_recent (self : MigrationStrategy.t) (current_time : Z)
    (vms : list VMInfo.t) (source_node : NodeInfo.t) :
  (∀ v, v ∈ vms → VMInfo.node_id v = NodeInfo.id source_node →
        VMInfo.can_migrate v = true →
        current_time - timedelta_hours H_success
        ≤ default datetime_min
            (MigrationStrategy.migration_history self !! VMInfo.id v)) →
  MigrationStrategy.select_vm_for_migration H_fail H_success self current_time
    vms source_node = None.
Proof.
  intros Hall. unfold MigrationStrategy.select_vm_for_migration. cbv zeta.
  rewrite _filter_recently_migrated_vms_eq.
  remember (List.filter VMInfo.can_migrate _) as candidates eqn:Ec.
  rewrite List_filter_nil; [by destruct candidates|].
  intros x Hx. apply Z.ltb_ge. subst candidates.
  apply elem_of_List_filter in Hx as [Hx Hcan].
  apply elem_of_List_filter in Hx as [Hx Hnode].
  apply String.eqb_eq in Hnode. by apply Hall.
Qed.
End StrategyFacts.

(** C7: a VM with a history entry at time [t] is not selected at any time
    up to [t] plus the retention, one hour in the script and
    [MIGRATION_HISTORY_RETENTION_HOURS] in the package: the selection drops
    every candidate whose history timestamp is at or after the current time
    minus the retention, and returns none when that drops all candidates. *)
Theorem recently_migrated_vm_not_selected
    (balancer : VMBalancer.t) (strategy : MigrationStrategy.t)
    (H_fail H_success : Z) (history : gmap string Z)
    (vms : list VMInfo.t) (source_node : NodeInfo.t) (vm_id : string) (t : Z)
    (Hbalancer : VMBalancer.migration_history balancer = history)
    (Hstrategy : MigrationStrategy.migration_history strategy = history)
    (Hentry : history !! vm_id = Some t) :
  (∀ current_time v,
     current_time ≤ t + timedelta_hours 1 →
     VMBalancer.select_vm_for_migration balancer current_time vms source_node = Some v →
     VMInfo.id v ≠ vm_id)
  ∧ (∀ current_time v,
       current_time ≤ t + timedelta_hours H_success →
       MigrationStrategy.select_vm_for_migration H_fail H_success strategy
         current_time vms source_node = Some v →
       VMInfo.id v ≠ vm_id)
  ∧ (∀ current_time,
       (∀ v, v ∈ vms → VMInfo.node_id v = NodeInfo.id source_node →
             VMInfo.can_migrate v = true →
             current_time - timedelta_hours 1
             ≤ default datetime_min (history !! VMInfo.id v)) →
       VMBalancer.select_vm_for_migration balancer current_time vms source_node = None)
  ∧ (∀ current_time,
       (∀ v, v ∈ vms → VMInfo.node_id v = NodeInfo.id source_node →
             VMInfo.can_migrate v = true →
             current_time - timedelta_hours H_success
             ≤ default datetime_min (history !! VMInfo.id v)) →
       MigrationStrategy.select_vm_for_migration H_fail H_success strategy
         current_time vms source_node = None).
Proof.
  subst history. repeat split.
  - intros current_time v Hnow Hsel Hid.
    apply legacy_select_vm_sound in Hsel as (_ & _ & _ & Hlt).
    rewrite Hid, Hentry in Hlt. simpl in Hlt. lia.
  - intros current_time v Hnow Hsel Hid.
    apply strategy_select_vm_sound in Hsel as (_ & _ & _ & Hlt & _).
    rewrite Hid, Hstrategy, Hentry in Hlt. simpl in Hlt. lia.
  - intros current_time Hall. by apply legacy_select_vm_none.
  - intros current_time Hall. apply strategy_select_vm_none_recent.
    by rewrite Hstrategy.
Qed.

Lemma recently_migrated_vm_not_selected_witness :
  let balancer := Scenario.balancer (Scenario.remote [] true) false Scenario.history_y 1 in
  let strategy := MigrationStrategy.mk (ResourceEstimator.mk 7 70) Scenario.history_y ∅ in
  Scenario.history_y !! "200" = Some (Scenario.t0 - Scenario.minutes 10)
  ∧ VMBalancer.select_vm_for_migration balancer Scenario.t0 [Scenario.vm_y] Scenario.node_A
    = None
  ∧ MigrationStrategy.select_vm_for_migration 1 1 strategy Scenario.t0 [Scenario.vm_y]
      Scenario.node_A
    = None.
Proof.
  intros balancer strategy.
  assert (Scenario.history_y !! "200" = Some (Scenario.t0 - Scenario.minutes 10))
    as Hentry by (vm_compute; reflexivity).
  destruct (recently_migrated_vm_not_selected balancer strategy 1 1 Scenario.history_y
              [Scenario.vm_y] Scenario.node_A "200" (Scenario.t0 - Scenario.minutes 10)
              eq_refl eq_refl Hentry) as (_ & _ & Hscript & Hpackage).
  split; [exact Hentry|].
  split; [apply Hscript | apply Hpackage];
    intros v ->%list_elem_of_singleton _ _; vm_compute; discriminate.
Defined.

(** * The orchestrator *)

Lemma map_without_add_vm_count (d : Z) (r : nat) (heap : list NodeInfo.t) :
  map without_vm_count (VMBalancer.add_vm_count d r heap) = map without_vm_count heap.
Proof.
  unfold VMBalancer.add_vm_count. apply list_eq. intros i.
  rewrite !list_lookup_fmap, list_lookup_alter.
  case_decide; [subst i|done]. by destruct (heap !! r).
Qed.

Lemma node_at_add_vm_count (d : Z) (i r : nat) (heap : list NodeInfo.t) :
  without_vm_count (VMBalancer.node_at (VMBalancer.add_vm_count d i heap) r)
  = without_vm_count (VMBalancer.node_at heap r).
Proof.
  unfold VMBalancer.node_at, VMBalancer.add_vm_count.
  rewrite list_lookup_total_alter. case_decide as H; [|done].
  by destruct H as [-> _].
Qed.

Lemma find_ext_eq {A} (f g : A → bool) (l : list A) :
  (∀ x, f x = g x) → List.find f l = List.find g l.
Proof.
  intros H. induction l as [|x l IH]; simpl; [done|]. by rewrite H, IH.
Qed.

(** The acceptance check reads nothing that an update of [vm_count] or of
    the history changes. *)
Lemma can_node_accept_vm_frame {Ref} (d1 d2 : Ref → NodeInfo.t)
    (s1 s2 : VMBalancer.t) (current : attr (list Ref)) (node : Ref) (vm : VMInfo.t) :
  (∀ r, without_vm_count (d1 r) = without_vm_count (d2 r)) →
  VMBalancer.cpu_overload_threshold s1 = VMBalancer.cpu_overload_threshold s2 →
  VMBalancer.memory_overload_threshold s1 = VMBalancer.memory_overload_threshold s2 →
  VMBalancer.can_node_accept_vm d1 s1 current node vm
  = VMBalancer.can_node_accept_vm d2 s2 current node vm.
Proof.
  intros Hframe Hcpu Hmem.
  assert (∀ {B} (f : NodeInfo.t → B),
            (∀ n, f n = f (without_vm_count n)) → ∀ r, f (d1 r) = f (d2 r)) as Hfield.
  { intros B f Hf r. by rewrite (Hf (d1 r)), (Hf (d2 r)), Hframe. }
  unfold VMBalancer.can_node_accept_vm, VMBalancer.get_source_node_for_vm. cbv zeta.
  rewrite Hcpu, Hmem.
  rewrite (Hfield _ NodeInfo.cpu_used), (Hfield _ NodeInfo.cpu_total),
    (Hfield _ NodeInfo.memory_total_mb), (Hfield _ NodeInfo.memory_usage_percent),
    (Hfield _ NodeInfo.qemu_version) by done.
  destruct (truediv _ _); [|done]. destruct (truediv _ _); [|done].
  destruct current as [| |nodes]; try done.
  rewrite (find_ext_eq _
             (λ r, String.eqb (NodeInfo.id (d2 r)) (VMInfo.node_id vm)))
    by (intros x; by rewrite (Hfield _ NodeInfo.id)).
  destruct (List.find _ nodes) as [src|]; [|done].
  by rewrite (Hfield _ NodeInfo.qemu_version (λ _, eq_refl) src).
Qed.

Lemma find_target_node_accepts {Ref} (deref : Ref → NodeInfo.t) (self : VMBalancer.t)
    (current : attr (list Ref)) (vm : VMInfo.t) (nodes : list Ref) (target : Ref) :
  VMBalancer.find_target_node deref self current vm nodes = Ok (Some target) →
  target ∈ nodes
  ∧ VMBalancer.can_node_accept_vm deref self current target vm = Ok true.
Proof.
  induction nodes as [|n nodes IH]; simpl; [done|].
  destruct (VMBalancer.can_node_accept_vm deref self current n vm) as [[]|] eqn:E;
    [|intros [? ?]%IH; split; [by right|done]|done].
  intros [= <-]. split; [left|done].
Qed.

(** After a migration that succeeded the target is checked again, but the
    check sees the values it saw when the target was chosen: it passes
    again, and the target is never taken off the list. *)
Lemma recheck_after_migration_passes (self self' : VMBalancer.t)
    (heap : list NodeInfo.t) (current : attr (list nat)) (vm : VMInfo.t)
    (underloaded : list nat) (source target : nat) (history : gmap string Z) :
  self' = VMBalancer.set_migration_history history self →
  VMBalancer.find_target_node (VMBalancer.node_at heap) self current vm underloaded
  = Ok (Some target) →
  VMBalancer.can_node_accept_vm
    (VMBalancer.node_at
       (VMBalancer.add_vm_count 1 target (VMBalancer.add_vm_count (-1) source heap)))
    self' current target vm = Ok true.
Proof.
  intros -> [_ <-]%find_target_node_accepts.
  apply can_node_accept_vm_frame; [|done..].
  intros r. by rewrite !node_at_add_vm_count.
Qed.

(** What one loop body can change: the counter by at most one, the fields
    of the nodes only in [vm_count], the balancer only in its history; and
    in a dry run neither the balancer nor the world. *)
Lemma attempt_invariants (cluster_nodes : list nat) (cluster_vms : list VMInfo.t)
    (source_node : nat) (st : VMBalancer.cycle) :
  let st' := outcome_state (VMBalancer.attempt cluster_nodes cluster_vms source_node st) in
  VMBalancer.max_migrations_per_cycle (VMBalancer.self_ st')
  = VMBalancer.max_migrations_per_cycle (VMBalancer.self_ st)
  ∧ VMBalancer.dry_run (VMBalancer.self_ st') = VMBalancer.dry_run (VMBalancer.self_ st)
  ∧ VMBalancer.migrations_performed st ≤ VMBalancer.migrations_performed st'
    ≤ VMBalancer.migrations_performed st + 1
  ∧ map without_vm_count (VMBalancer.heap st') = map without_vm_count (VMBalancer.heap st)
  ∧ (VMBalancer.dry_run (VMBalancer.self_ st) = true →
     VMBalancer.self_ st' = VMBalancer.self_ st
     ∧ VMBalancer.world st' = VMBalancer.world st).
Proof.
  unfold VMBalancer.attempt. cbv zeta.
  destruct st as [self heap underloaded performed w]. simpl.
  repeat case_match; simpl; rewrite ?map_without_add_vm_count;
    split_and!; try done; try lia; congruence.
Qed.

Lemma attempt_dry_run (cluster_nodes : list nat) (cluster_vms : list VMInfo.t)
    (source_node : nat) (st : VMBalancer.cycle) (vm : VMInfo.t) (target_node : nat) :
  VMBalancer.dry_run (VMBalancer.self_ st) = true →
  VMBalancer.select_vm_for_migration (VMBalancer.self_ st) (now (VMBalancer.world st))
    cluster_vms (VMBalancer.node_at (VMBalancer.heap st) source_node) = Some vm →
  VMBalancer.find_target_node (VMBalancer.node_at (VMBalancer.heap st))
    (VMBalancer.self_ st) (Value cluster_nodes) vm (VMBalancer.underloaded_nodes st)
  = Ok (Some target_node) →
  VMBalancer.attempt cluster_nodes cluster_vms source_node st
  = VMBalancer.Next
      (VMBalancer.mkCycle (VMBalancer.self_ st)
         (VMBalancer.add_vm_count 1 target_node
            (VMBalancer.add_vm_count (-1) source_node (VMBalancer.heap st)))
         (VMBalancer.underloaded_nodes st)
         (VMBalancer.migrations_performed st + 1)
         (VMBalancer.world st)).
Proof.
  intros Hdry Hsel Htgt. unfold VMBalancer.attempt. cbv zeta.
  by rewrite Hsel, Htgt, Hdry.
Qed.

Lemma attempt_migration_succeeds (cluster_nodes : list nat) (cluster_vms : list VMInfo.t)
    (source_node : nat) (st : VMBalancer.cycle) (vm : VMInfo.t) (target_node : nat)
    (finished : Z) :
  let self := VMBalancer.self_ st in
  let target_id := NodeInfo.id (VMBalancer.node_at (VMBalancer.heap st) target_node) in
  VMBalancer.dry_run self = false →
  VMBalancer.select_vm_for_migration self (now (VMBalancer.world st))
    cluster_vms (VMBalancer.node_at (VMBalancer.heap st) source_node) = Some vm →
  VMBalancer.find_target_node (VMBalancer.node_at (VMBalancer.heap st))
    self (Value cluster_nodes) vm (VMBalancer.underloaded_nodes st)
  = Ok (Some target_node) →
  VMManagerAPI.migrate_vm (VMBalancer.api self) (VMBalancer.world st) (VMInfo.id vm)
    target_id (VMBalancer.migration_timeout self) = (true, finished) →
  VMBalancer.attempt cluster_nodes cluster_vms source_node st
  = VMBalancer.Next
      (VMBalancer.mkCycle
         (VMBalancer.set_migration_history
            (<[VMInfo.id vm := finished]> (VMBalancer.migration_history self)) self)
         (VMBalancer.add_vm_count 1 target_node
            (VMBalancer.add_vm_count (-1) source_node (VMBalancer.heap st)))
         (VMBalancer.underloaded_nodes st)
         (VMBalancer.migrations_performed st + 1)
         (mkWorld finished
            (migrate_calls (VMBalancer.world st) ++ [(VMInfo.id vm, target_id)]))).
Proof.
  intros self target_id Hdry Hsel Htgt Hcall. unfold VMBalancer.attempt. cbv zeta.
  fold self. rewrite Hsel, Htgt, Hdry. fold target_id. rewrite Hcall.
  by erewrite recheck_after_migration_passes.
Qed.

Lemma attempt_migration_fails (cluster_nodes : list nat) (cluster_vms : list VMInfo.t)
    (source_node : nat) (st : VMBalancer.cycle) (vm : VMInfo.t) (target_node : nat)
    (finished : Z) :
  let self := VMBalancer.self_ st in
  let target_id := NodeInfo.id (VMBalancer.node_at (VMBalancer.heap st) target_node) in
  VMBalancer.dry_run self = false →
  VMBalancer.select_vm_for_migration self (now (VMBalancer.world st))
    cluster_vms (VMBalancer.node_at (VMBalancer.heap st) source_node) = Some vm →
  VMBalancer.find_target_node (VMBalancer.node_at (VMBalancer.heap st))
    self (Value cluster_nodes) vm (VMBalancer.underloaded_nodes st)
  = Ok (Some target_node) →
  VMManagerAPI.migrate_vm (VMBalancer.api self) (VMBalancer.world st) (VMInfo.id vm)
    target_id (VMBalancer.migration_timeout self) = (false, finished) →
  VMBalancer.attempt cluster_nodes cluster_vms source_node st
  = VMBalancer.Next
      (VMBalancer.mkCycle self (VMBalancer.heap st) (VMBalancer.underloaded_nodes st)
         (VMBalancer.migrations_performed st)
         (mkWorld finished
            (migrate_calls (VMBalancer.world st) ++ [(VMInfo.id vm, target_id)]))).
Proof.
  intros self target_id Hdry Hsel Htgt Hcall. unfold VMBalancer.attempt. cbv zeta.
  fold self. rewrite Hsel, Htgt, Hdry. fold target_id. by rewrite Hcall.
Qed.

(** The list of targets never changes during a cycle. *)
Lemma attempt_keeps_targets (cluster_nodes : list nat) (cluster_vms : list VMInfo.t)
    (source_node : nat) (st : VMBalancer.cycle) :
  VMBalancer.underloaded_nodes
    (outcome_state (VMBalancer.attempt cluster_nodes cluster_vms source_node st))
  = VMBalancer.underloaded_nodes st.
Proof.
  destruct (VMBalancer.select_vm_for_migration (VMBalancer.self_ st)
              (now (VMBalancer.world st)) cluster_vms
              (VMBalancer.node_at (VMBalancer.heap st) source_node)) as [vm|] eqn:Hsel;
    cycle 1.
  { unfold VMBalancer.attempt. cbv zeta. by rewrite Hsel. }
  destruct (VMBalancer.find_target_node (VMBalancer.node_at (VMBalancer.heap st))
              (VMBalancer.self_ st) (Value cluster_nodes) vm
              (VMBalancer.underloaded_nodes st)) as [[target|]|e] eqn:Htgt;
    [|unfold VMBalancer.attempt; cbv zeta; by rewrite Hsel, Htgt..].
  destruct (VMBalancer.dry_run (VMBalancer.self_ st)) eqn:Hdry.
  { by rewrite (attempt_dry_run _ _ _ _ vm target). }
  destruct (VMManagerAPI.migrate_vm (VMBalancer.api (VMBalancer.self_ st))
              (VMBalancer.world st) (VMInfo.id vm)
              (NodeInfo.id (VMBalancer.node_at (VMBalancer.heap st) target))
              (VMBalancer.migration_timeout (VMBalancer.self_ st)))
    as [[] finished] eqn:Hcall.
  - by rewrite (attempt_migration_succeeds _ _ _ _ vm target finished).
  - by rewrite (attempt_migration_fails _ _ _ _ vm target finished).
Qed.

(** The loop keeps the counter under the cap, whatever the cap. *)
Lemma for_each_source_invariants (cluster_nodes : list nat) (cluster_vms : list VMInfo.t)
    (overloaded_nodes : list nat) (st : VMBalancer.cycle) :
  let st' := outcome_state
               (VMBalancer.for_each_source cluster_nodes cluster_vms overloaded_nodes st) in
  let cap := VMBalancer.max_migrations_per_cycle (VMBalancer.self_ st) in
  VMBalancer.max_migrations_per_cycle (VMBalancer.self_ st') = cap
  ∧ VMBalancer.dry_run (VMBalancer.self_ st') = VMBalancer.dry_run (VMBalancer.self_ st)
  ∧ VMBalancer.migrations_performed st ≤ VMBalancer.migrations_performed st'
  ∧ (VMBalancer.migrations_performed st ≤ Z.max 0 cap →
     VMBalancer.migrations_performed st' ≤ Z.max 0 cap)
  ∧ map without_vm_count (VMBalancer.heap st') = map without_vm_count (VMBalancer.heap st)
  ∧ VMBalancer.underloaded_nodes st' = VMBalancer.underloaded_nodes st
  ∧ (VMBalancer.dry_run (VMBalancer.self_ st) = true →
     VMBalancer.self_ st' = VMBalancer.self_ st
     ∧ VMBalancer.world st' = VMBalancer.world st).
Proof.
  revert st. induction overloaded_nodes as [|source_node rest IH]; intros st; simpl.
  { split_and!; try done; lia. }
  destruct (Z.leb_spec (VMBalancer.max_migrations_per_cycle (VMBalancer.self_ st))
              (VMBalancer.migrations_performed st)) as [Hstop|Hgo]; simpl.
  { split_and!; try done; lia. }
  pose proof (attempt_invariants cluster_nodes cluster_vms source_node st)
    as (Hcap & Hdry & Hcount & Hheap & Hpure).
  pose proof (attempt_keeps_targets cluster_nodes cluster_vms source_node st) as Htargets.
  destruct (VMBalancer.attempt cluster_nodes cluster_vms source_node st) as [st1|e st1];
    simpl in *.
  - specialize (IH st1) as (IHcap & IHdry & IHcount & IHbound & IHheap & IHtargets & IHpure).
    rewrite Hcap in IHcap, IHbound. rewrite Hdry in IHdry, IHpure.
    split_and!; try congruence; try lia.
    intros Hd. destruct (Hpure Hd) as [<- <-]. by apply IHpure.
  - split_and!; try done; lia.
Qed.

(** What a whole call of [balance_cluster] can change. *)
Lemma balance_cluster_invariants (self : VMBalancer.t) (cluster : ClusterInfo.t)
    (w : World) :
  let r := VMBalancer.balance_cluster self cluster w in
  let st := VMBalancer.final r in
  let cap := VMBalancer.max_migrations_per_cycle self in
  0 ≤ VMBalancer.migrations_performed st ≤ Z.max 0 cap
  ∧ (∀ n, VMBalancer.returned r = Ok n → n = VMBalancer.migrations_performed st)
  ∧ map without_vm_count (VMBalancer.heap st)
    = map without_vm_count (ClusterInfo.nodes cluster)
  ∧ (VMBalancer.dry_run self = true →
     VMBalancer.self_ st = self ∧ VMBalancer.world st = w).
Proof.
  unfold VMBalancer.balance_cluster. cbv zeta.
  destruct (VMBalancer.find_overloaded_nodes _ _ _) as [|o os].
  { simpl. split_and!; try done; try lia. by intros n [= <-]. }
  destruct (VMBalancer.find_underloaded_nodes _ _ _) as [|u us].
  { simpl. split_and!; try done; try lia. by intros n [= <-]. }
  match goal with
  | |- context [VMBalancer.for_each_source ?ns ?vms ?srcs ?st0] =>
      pose proof (for_each_source_invariants ns vms srcs st0)
        as (_ & _ & Hcount & Hbound & Hheap & _ & Hpure);
      destruct (VMBalancer.for_each_source ns vms srcs st0) as [st|e st]
  end; simpl in *.
  - split_and!; try done; try lia. by intros n [= <-].
  - split_and!; try done; lia.
Qed.

(** C1: with a cap that is not negative, the number of migrations a call of
    [balance_cluster] performs, real or simulated, is at most
    [max_migrations_per_cycle], and it is the number the call returns.  The
    loop over the overloaded nodes does nothing more once the count has
    reached the cap, and one loop body raises the count by at most one. *)
Theorem balance_cluster_respects_cap (self : VMBalancer.t) (cluster : ClusterInfo.t)
    (w : World) (Hcap : 0 ≤ VMBalancer.max_migrations_per_cycle self) :
  let r := VMBalancer.balance_cluster self cluster w in
  0 ≤ VMBalancer.migrations_performed (VMBalancer.final r)
    ≤ VMBalancer.max_migrations_per_cycle self
  ∧ (∀ n, VMBalancer.returned r = Ok n →
          n = VMBalancer.migrations_performed (VMBalancer.final r)
          ∧ n ≤ VMBalancer.max_migrations_per_cycle self)
  ∧ (∀ cluster_nodes cluster_vms overloaded_nodes st,
       VMBalancer.max_migrations_per_cycle (VMBalancer.self_ st)
       ≤ VMBalancer.migrations_performed st →
       VMBalancer.for_each_source cluster_nodes cluster_vms overloaded_nodes st
       = VMBalancer.Next st)
  ∧ (∀ cluster_nodes cluster_vms source_node st,
       let st' :=
         outcome_state (VMBalancer.attempt cluster_nodes cluster_vms source_node st) in
       VMBalancer.migrations_performed st ≤ VMBalancer.migrations_performed st'
       ≤ VMBalancer.migrations_performed st + 1).
Proof.
  intros r.
  pose proof (balance_cluster_invariants self cluster w) as ([H0 Hmax] & Hret & _).
  fold r in H0, Hmax, Hret.
  split_and!.
  - done.
  - lia.
  - intros n Hn. specialize (Hret n Hn). lia.
  - intros cluster_nodes cluster_vms [|source_node rest] st Hstop; simpl; [done|].
    by destruct (Z.leb_spec (VMBalancer.max_migrations_per_cycle (VMBalancer.self_ st))
                   (VMBalancer.migrations_performed st)); [|lia].
  - intros cluster_nodes cluster_vms source_node st.
    by pose proof (attempt_invariants cluster_nodes cluster_vms source_node st)
      as (_ & _ & Hcount & _).
Qed.

Lemma balance_cluster_respects_cap_witness :
  let self := Scenario.balancer (Scenario.remote [Scenario.vm_x] true) false ∅ 1 in
  0 ≤ VMBalancer.max_migrations_per_cycle self
  ∧ VMBalancer.returned
      (VMBalancer.balance_cluster self Scenario.cluster_AB Scenario.world0) = Ok 1
  ∧ 0 ≤ VMBalancer.migrations_performed
          (VMBalancer.final
             (VMBalancer.balance_cluster self Scenario.cluster_AB Scenario.world0))
      ≤ 1.
Proof.
  intros self.
  assert (0 ≤ VMBalancer.max_migrations_per_cycle self) as Hcap by (vm_compute; discriminate).
  split; [exact Hcap|]. split; [by vm_compute|].
  exact (proj1 (balance_cluster_respects_cap self Scenario.cluster_AB Scenario.world0 Hcap)).
Defined.

(** With a negative cap the loop stops at once: the call returns 0. *)
Lemma balance_cluster_negative_cap (self : VMBalancer.t) (cluster : ClusterInfo.t)
    (w : World) :
  VMBalancer.max_migrations_per_cycle self < 0 →
  VMBalancer.migrations_performed
    (VMBalancer.final (VMBalancer.balance_cluster self cluster w)) = 0.
Proof.
  intros Hneg.
  pose proof (balance_cluster_invariants self cluster w) as (H & _). simpl in H. lia.
Qed.

(** In a dry run [balance_cluster] sends no migration request and leaves
    the balancer, with its migration history, as it was (the script keeps no
    blacklist); a loop body that finds a VM and a target still raises the
    count by one and moves one unit of [vm_count] from the source to the
    target in the node snapshots. *)
Theorem dry_run_purity (self : VMBalancer.t) (cluster : ClusterInfo.t) (w : World)
    (Hdry : VMBalancer.dry_run self = true) :
  let r := VMBalancer.balance_cluster self cluster w in
  migrate_calls (VMBalancer.world (VMBalancer.final r)) = migrate_calls w
  ∧ VMBalancer.migration_history (VMBalancer.self_ (VMBalancer.final r))
    = VMBalancer.migration_history self
  ∧ VMBalancer.self_ (VMBalancer.final r) = self
  ∧ VMBalancer.world (VMBalancer.final r) = w
  ∧ (∀ cluster_nodes cluster_vms source_node st vm target_node,
       VMBalancer.dry_run (VMBalancer.self_ st) = true →
       VMBalancer.select_vm_for_migration (VMBalancer.self_ st)
         (now (VMBalancer.world st)) cluster_vms
         (VMBalancer.node_at (VMBalancer.heap st) source_node) = Some vm →
       VMBalancer.find_target_node (VMBalancer.node_at (VMBalancer.heap st))
         (VMBalancer.self_ st) (Value cluster_nodes) vm (VMBalancer.underloaded_nodes st)
       = Ok (Some target_node) →
       VMBalancer.attempt cluster_nodes cluster_vms source_node st
       = VMBalancer.Next
           (VMBalancer.mkCycle (VMBalancer.self_ st)
              (VMBalancer.add_vm_count 1 target_node
                 (VMBalancer.add_vm_count (-1) source_node (VMBalancer.heap st)))
              (VMBalancer.underloaded_nodes st)
              (VMBalancer.migrations_performed st + 1)
              (VMBalancer.world st))).
Proof.
  intros r.
  pose proof (balance_cluster_invariants self cluster w) as (_ & _ & _ & Hpure).
  destruct (Hpure Hdry) as [Hself Hworld]. fold r in Hself, Hworld.
  rewrite Hself, Hworld. split_and!; try done.
  intros cluster_nodes cluster_vms source_node st vm target_node ? ? ?.
  by apply (attempt_dry_run _ _ _ _ vm target_node).
Qed.

Lemma dry_run_purity_witness :
  let self := Scenario.balancer (Scenario.remote [Scenario.vm_x] true) true ∅ 1 in
  let r := VMBalancer.balance_cluster self Scenario.cluster_AB Scenario.world0 in
  VMBalancer.dry_run self = true
  ∧ migrate_calls (VMBalancer.world (VMBalancer.final r)) = []
  ∧ VMBalancer.returned r = Ok 1
  ∧ VMBalancer.heap (VMBalancer.final r)
    = [NodeInfo.set_vm_count 0 Scenario.node_A; NodeInfo.set_vm_count 1 Scenario.node_B].
Proof.
  intros self r.
  assert (VMBalancer.dry_run self = true) as Hdry by reflexivity.
  split; [exact Hdry|]. split; [|split; by vm_compute].
  exact (proj1 (dry_run_purity self Scenario.cluster_AB Scenario.world0 Hdry)).
Defined.

(** S3: the source A runs QEMU 7.2.0 and the only target B runs 6.1.0: no
    migration, no request, nothing recorded. *)
Example S3_qemu_block :
  let self := Scenario.balancer (Scenario.remote [Scenario.vm_x] true) false ∅ 1 in
  let cluster :=
    ClusterInfo.mk "c3" "mixed"
      [Scenario.with_qemu "7.2.0" Scenario.node_A;
       Scenario.with_qemu "6.1.0" Scenario.node_B] true in
  let r := VMBalancer.balance_cluster self cluster Scenario.world0 in
  VMBalancer.returned r = Ok 0
  ∧ VMBalancer.world (VMBalancer.final r) = Scenario.world0
  ∧ VMBalancer.self_ (VMBalancer.final r) = self.
Proof. repeat split; by vm_compute. Qed.

(** * The projection *)

(** No call of [balance_cluster] changes [cpu_used] or [memory_used_mb], or
    anything but [vm_count], in a node snapshot. *)
Lemma balance_cluster_changes_only_vm_count (self : VMBalancer.t)
    (cluster : ClusterInfo.t) (w : World) :
  map without_vm_count
    (VMBalancer.heap (VMBalancer.final (VMBalancer.balance_cluster self cluster w)))
  = map without_vm_count (ClusterInfo.nodes cluster).
Proof. by pose proof (balance_cluster_invariants self cluster w) as (_ & _ & H & _). Qed.

(** C2 at scenario S1, migration succeeding for real and in a dry run: one
    migration of x from A to B; the snapshots of A and B change in
    [vm_count] only; A keeps [cpu_used] 8 and allocation ratio 8, where the
    projection of the specification gives [cpu_used] 6 and ratio 6. *)
Theorem S1_projection_changes_only_vm_count :
  ∀ dry_run : bool,
    let self := Scenario.balancer (Scenario.remote [Scenario.vm_x] true) dry_run ∅ 1 in
    let r := VMBalancer.balance_cluster self Scenario.cluster_AB Scenario.world0 in
    let A' := VMBalancer.node_at (VMBalancer.heap (VMBalancer.final r)) 0 in
    let A_spec :=
      VMBalancer.node_at
        (spec_projection Scenario.vm_x 0 1 (ClusterInfo.nodes Scenario.cluster_AB)) 0 in
    VMBalancer.returned r = Ok 1
    ∧ VMBalancer.heap (VMBalancer.final r)
      = [NodeInfo.set_vm_count 0 Scenario.node_A; NodeInfo.set_vm_count 1 Scenario.node_B]
    ∧ NodeInfo.cpu_used A' = 8
    ∧ NodeInfo.memory_used_mb A' = 16384
    ∧ (NodeInfo.cpu_allocation_ratio A' == 8)%Q
    ∧ NodeInfo.cpu_used A_spec = 6
    ∧ (NodeInfo.cpu_allocation_ratio A_spec == 6)%Q.
Proof. intros []; repeat split; by vm_compute. Qed.

(** C8 as the code has it, at scenarios S1 and S6 in a dry run.  No request
    is sent, the history stays empty and the count is raised, but the
    snapshots change in [vm_count] only.  In S1 node A keeps [cpu_used] 8
    and 16384 MiB in use where the projection of the specification gives 6
    and 12288, and B keeps 0 and 4096 where it gives 2 and 8192.  In S6, with
    a cap of 2, the simulation places two VMs of 4 vCPUs on the one-core
    target T, whose [cpu_used] is still 0 when the second is placed; with
    the projection of the specification the acceptance check refuses the
    second placement. *)
Theorem dry_run_projects_vm_count_only :
  let self1 := Scenario.balancer (Scenario.remote [Scenario.vm_x] true) true ∅ 1 in
  let r1 := VMBalancer.balance_cluster self1 Scenario.cluster_AB Scenario.world0 in
  let self6 := Scenario.balancer (Scenario.remote Scenario.vms_S6 true) true ∅ 2 in
  let r6 := VMBalancer.balance_cluster self6 Scenario.cluster_S6 Scenario.world0 in
  VMBalancer.returned r1 = Ok 1
  ∧ migrate_calls (VMBalancer.world (VMBalancer.final r1)) = []
  ∧ VMBalancer.migration_history (VMBalancer.self_ (VMBalancer.final r1)) = ∅
  ∧ VMBalancer.heap (VMBalancer.final r1)
    = [NodeInfo.mk "1" "A" 1 8 40960 16384 0 false true 0 "";
       NodeInfo.mk "2" "B" 1 0 40960 4096 1 false true 0 ""]
  ∧ spec_projection Scenario.vm_x 0 1 (ClusterInfo.nodes Scenario.cluster_AB)
    = [NodeInfo.mk "1" "A" 1 6 40960 12288 0 false true 0 "";
       NodeInfo.mk "2" "B" 1 2 40960 8192 1 false true 0 ""]
  ∧ VMBalancer.returned r6 = Ok 2
  ∧ migrate_calls (VMBalancer.world (VMBalancer.final r6)) = []
  ∧ VMBalancer.migration_history (VMBalancer.self_ (VMBalancer.final r6)) = ∅
  ∧ VMBalancer.heap (VMBalancer.final r6)
    = [NodeInfo.mk "21" "N21" 1 8 40960 4096 0 false true 0 "";
       NodeInfo.mk "22" "N22" 1 8 40960 4096 0 false true 0 "";
       NodeInfo.mk "23" "N23" 1 8 40960 4096 1 false true 0 "";
       NodeInfo.mk "30" "T" 1 0 40960 4096 2 false true 0 ""]
  ∧ VMBalancer.can_node_accept_vm
      (VMBalancer.node_at
         (spec_projection (Scenario.vm_on "21" "301") 0 3
            (ClusterInfo.nodes Scenario.cluster_S6)))
      self6 (Value [0; 1; 2; 3]%nat) 3%nat (Scenario.vm_on "22" "302")
    = Ok false.
Proof. repeat split; by vm_compute. Qed.

(** S6: with three overloaded sources and a cap of 2 the call performs
    two migrations, for the first two sources.  Both go to the one-core
    target T: its [cpu_used] is still 0 when the second VM is placed, so T
    ends with 8 vCPUs on one core, above the overload threshold 7, where the
    projection of the specification would have refused the second
    placement. *)
Example S6_two_migrations_into_one_target :
  let self := Scenario.balancer (Scenario.remote Scenario.vms_S6 true) false ∅ 2 in
  let r := VMBalancer.balance_cluster self Scenario.cluster_S6 Scenario.world0 in
  let nodes := ClusterInfo.nodes Scenario.cluster_S6 in
  VMBalancer.returned r = Ok 2
  ∧ migrate_calls (VMBalancer.world (VMBalancer.final r)) = [("301", "30"); ("302", "30")]
  ∧ VMBalancer.can_node_accept_vm
      (VMBalancer.node_at (spec_projection (Scenario.vm_on "21" "301") 0 3 nodes))
      self (Value [0; 1; 2; 3]%nat) 3%nat (Scenario.vm_on "22" "302")
    = Ok false.
Proof. repeat split; by vm_compute. Qed.

(** * Failed migrations *)

(** C3, as the code has it.  When the request fails or times out, the loop
    body of the script leaves the count, the node snapshots and the balancer
    with its history as they were: it records nothing, the script has no
    blacklist.  In the package, [record_migration_failure] stores the
    current time under the VM's id in the blacklist and leaves the history
    alone, and [select_vm_for_migration] does not return a VM whose
    blacklist entry [t] is not older than
    [MIGRATION_BLACKLIST_RETENTION_HOURS], that is at any time up to [t]
    plus the retention. *)
Theorem failed_migration_bookkeeping :
  (∀ cluster_nodes cluster_vms source_node st vm target_node finished,
     let self := VMBalancer.self_ st in
     let target_id := NodeInfo.id (VMBalancer.node_at (VMBalancer.heap st) target_node) in
     VMBalancer.dry_run self = false →
     VMBalancer.select_vm_for_migration self (now (VMBalancer.world st))
       cluster_vms (VMBalancer.node_at (VMBalancer.heap st) source_node) = Some vm →
     VMBalancer.find_target_node (VMBalancer.node_at (VMBalancer.heap st))
       self (Value cluster_nodes) vm (VMBalancer.underloaded_nodes st)
     = Ok (Some target_node) →
     VMManagerAPI.migrate_vm (VMBalancer.api self) (VMBalancer.world st) (VMInfo.id vm)
       target_id (VMBalancer.migration_timeout self) = (false, finished) →
     VMBalancer.attempt cluster_nodes cluster_vms source_node st
     = VMBalancer.Next
         (VMBalancer.mkCycle self (VMBalancer.heap st) (VMBalancer.underloaded_nodes st)
            (VMBalancer.migrations_performed st)
            (mkWorld finished
               (migrate_calls (VMBalancer.world st) ++ [(VMInfo.id vm, target_id)]))))
  ∧ (∀ (strategy : MigrationStrategy.t) (t : Z) (vm_id : string),
       let strategy' := MigrationStrategy.record_migration_failure strategy t vm_id in
       MigrationStrategy.migration_blacklist strategy' !! vm_id = Some t
       ∧ MigrationStrategy.migration_history strategy'
         = MigrationStrategy.migration_history strategy)
  ∧ (∀ (H_fail H_success : Z) (strategy : MigrationStrategy.t) (t : Z) (vm_id : string)
       (current_time : Z) (vms : list VMInfo.t) (source_node : NodeInfo.t) (v : VMInfo.t),
       current_time ≤ t + timedelta_hours H_fail →
       MigrationStrategy.select_vm_for_migration H_fail H_success
         (MigrationStrategy.record_migration_failure strategy t vm_id)
         current_time vms source_node = Some v →
       VMInfo.id v ≠ vm_id).
Proof.
  split_and!.
  - intros cluster_nodes cluster_vms source_node st vm target_node finished
      self target_id ? ? ? ?.
    by apply (attempt_migration_fails _ _ _ _ vm target_node finished).
  - intros strategy t vm_id. simpl. split; [apply lookup_insert_eq|done].
  - intros H_fail H_success strategy t vm_id current_time vms source_node v Hnow Hsel Hid.
    apply strategy_select_vm_sound in Hsel as (_ & _ & _ & _ & Hlt).
    simpl in Hlt. rewrite Hid, lookup_insert_eq in Hlt. simpl in Hlt. lia.
Qed.

Lemma failed_migration_bookkeeping_witness :
  let strategy := MigrationStrategy.mk (ResourceEstimator.mk 7 70) ∅ ∅ in
  let failed := MigrationStrategy.record_migration_failure strategy Scenario.t0 "100" in
  MigrationStrategy.migration_blacklist failed !! "100" = Some Scenario.t0
  ∧ MigrationStrategy.select_vm_for_migration 1 1 strategy
      (Scenario.t0 + Scenario.minutes 10) [Scenario.vm_x] Scenario.node_A
    = Some Scenario.vm_x
  ∧ MigrationStrategy.select_vm_for_migration 1 1 failed
      (Scenario.t0 + Scenario.minutes 10) [Scenario.vm_x] Scenario.node_A
    = None.
Proof.
  intros strategy failed.
  destruct failed_migration_bookkeeping as (_ & Hrecord & Hselect).
  split; [exact (proj1 (Hrecord strategy Scenario.t0 "100"))|].
  split; [by vm_compute|].
  destruct (MigrationStrategy.select_vm_for_migration 1 1 failed
              (Scenario.t0 + Scenario.minutes 10) [Scenario.vm_x] Scenario.node_A)
    as [v|] eqn:Hsel; [|reflexivity].
  exfalso.
  assert (Scenario.t0 + Scenario.minutes 10 ≤ Scenario.t0 + timedelta_hours 1) as Hnow
    by (vm_compute; discriminate).
  apply (Hselect 1 1 strategy Scenario.t0 "100" _ _ _ v Hnow Hsel).
  apply strategy_select_vm_sound in Hsel as (Hv & _).
  by apply list_elem_of_singleton in Hv as ->.
Defined.

(** C3, as stated, fails on the script.  The migration of VM "100" fails;
    the call returns 0 and the balancer is as before, nothing is recorded;
    the next cycle, ten minutes later, sends the same request again. *)
Lemma failed_migration_is_retried_next_cycle :
  let self := Scenario.balancer (Scenario.remote [Scenario.vm_x] false) false ∅ 1 in
  let r1 := VMBalancer.balance_cluster self Scenario.cluster_AB Scenario.world0 in
  let failed_at := now (VMBalancer.world (VMBalancer.final r1)) in
  let w2 := Scenario.next_cycle (VMBalancer.world (VMBalancer.final r1)) in
  let r2 :=
    VMBalancer.balance_cluster (VMBalancer.self_ (VMBalancer.final r1))
      Scenario.cluster_AB w2 in
  VMBalancer.returned r1 = Ok 0
  ∧ migrate_calls (VMBalancer.world (VMBalancer.final r1)) = [("100", "2")]
  ∧ VMBalancer.self_ (VMBalancer.final r1) = self
  ∧ now w2 < failed_at + timedelta_hours 1
  ∧ migrate_calls (VMBalancer.world (VMBalancer.final r2))
    = [("100", "2"); ("100", "2")].
Proof. repeat split; by vm_compute. Qed.

(** * More about the stable sort *)

Section SortByOrderedKey.
Context {A K : Type} (ltb : K → K → bool) (key : A → K).
Context (ltb_asym : ∀ x y, ltb x y = true → ltb y x = false).
Context (ltb_neg_trans : ∀ x y z, ltb y x = false → ltb z y = false → ltb z x = false).


End SortByOrderedKey.



(** The head of an ascending stable sort is the first of the smallest
    elements of the input. *)
Lemma head_sort_by_key_first_min {A} (key : A → Q) (l : list A) (v : A) :
  head (sort_by_key Qlt_bool key false l) = Some v →
  ∃ before after,
    l = (before ++ v :: after)%list
    ∧ (∀ u, u ∈ before → (key v < key u)%Q)
    ∧ (∀ u, u ∈ after → (key v <= key u)%Q).
Proof.
  revert v. induction l as [|x l IH]; intros v; [done|].
  change (sort_by_key Qlt_bool key false (x :: l))
    with (insert_asc Qlt_bool key x (sort_by_key Qlt_bool key false l)).
  destruct (sort_by_key Qlt_bool key false l) as [|y s] eqn:Hs.
  - apply sort_by_key_nil_inv in Hs as ->. simpl. intros [= <-].
    exists [], []. split_and!; [done|..]; intros u Hu; by apply elem_of_nil in Hu.
  - destruct (IH y eq_refl) as (b & a & -> & Hb & Ha).
    simpl. destruct (Qlt_bool (key y) (key x)) eqn:E; simpl; intros [= <-].
    + apply Qlt_bool_iff in E. exists (x :: b), a. split_and!; [done| |done].
      intros u [->|Hu]%elem_of_cons; [done|by apply Hb].
    + apply Qlt_bool_false in E. exists [], (b ++ y :: a)%list. split_and!; [done|..].
      * intros u Hu. by apply elem_of_nil in Hu.
      * intros u [Hu|[->|Hu]%elem_of_cons]%elem_of_app.
        -- specialize (Hb u Hu). lra.
        -- done.
        -- specialize (Ha u Hu). lra.
Qed.

Lemma List_filter_filter {A} (f g : A → bool) (l : list A) :
  List.filter f (List.filter g l) = List.filter (λ x, g x && f x) l.
Proof.
  induction l as [|x l IH]; simpl; [done|].
  destruct (g x); simpl; [|done]. destruct (f x); by rewrite IH.
Qed.

Lemma List_filter_split {A} (f : A → bool) (l before after : list A) (v : A) :
  List.filter f l = (before ++ v :: after)%list →
  ∃ before' after',
    l = (before' ++ v :: after')%list
    ∧ List.filter f before' = before
    ∧ List.filter f after' = after
    ∧ f v = true.
Proof.
  revert before. induction l as [|x l IH]; intros before; simpl.
  { by destruct before. }
  destruct (f x) eqn:E.
  - destruct before as [|b before]; simpl; intros [= Hx H]; subst x.
    + exists [], l. by rewrite H.
    + destruct (IH _ H) as (b' & a' & -> & <- & <- & Hv).
      exists (b :: b'), a'. simpl. by rewrite E.
  - intros H. destruct (IH _ H) as (b' & a' & -> & <- & <- & Hv).
    exists (x :: b'), a'. simpl. by rewrite E.
Qed.


(** * Which nodes are sources and which are targets *)


Lemma legacy_find_underloaded_nodes_perm {Ref} (deref : Ref → NodeInfo.t)
    (self : VMBalancer.t) (nodes : list Ref) :
  VMBalancer.find_underloaded_nodes deref self nodes
  ≡ₚ List.filter (VMBalancer.is_underloaded_target deref self) nodes.
Proof. apply sort_by_key_perm. Qed.




(** * More about the acceptance check *)

Lemma ratio_mono (a b t : Z) :
  0 < t → a ≤ b → (inject_Z a / inject_Z t <= inject_Z b / inject_Z t)%Q.
Proof.
  intros Ht Hab. unfold Qdiv. apply Qmult_le_compat_r.
  - by rewrite <- Zle_Qle.
  - apply Qlt_le_weak, Qinv_lt_0_compat.
    change 0%Q with (inject_Z 0). by rewrite <- Zlt_Qlt.
Qed.

Lemma share_mono (p : Q) (a b t : Z) :
  0 < t → a ≤ b →
  (p + inject_Z a / inject_Z t * 100 <= p + inject_Z b / inject_Z t * 100)%Q.
Proof.
  intros Ht Hab. pose proof (ratio_mono a b t Ht Hab) as H.
  set (x := (inject_Z a / inject_Z t)%Q) in *.
  set (y := (inject_Z b / inject_Z t)%Q) in *.
  clearbody x y. lra.
Qed.

(** X5: acceptance is monotone in the size of the VM.  On a target with
    cores and memory, a VM that needs no more vCPUs and no more memory than
    an accepted VM of the same source node is accepted too. *)
Theorem smaller_vm_is_accepted_too
    (estimator : ResourceEstimator.t) (balancer : VMBalancer.t)
    (Ref : Type) (deref : Ref → NodeInfo.t) (cluster_nodes : list Ref)
    (target : Ref) (vm vm' : VMInfo.t) (source : option NodeInfo.t)
    (Hcpu : 0 < NodeInfo.cpu_total (deref target))
    (Hmem : 0 < NodeInfo.memory_total_mb (deref target))
    (Hcores : VMInfo.cpu_cores vm' ≤ VMInfo.cpu_cores vm)
    (Hmb : VMInfo.memory_mb vm' ≤ VMInfo.memory_mb vm)
    (Hnode : VMInfo.node_id vm' = VMInfo.node_id vm) :
  (VMBalancer.can_node_accept_vm deref balancer (Value cluster_nodes) target vm
   = Ok true →
   VMBalancer.can_node_accept_vm deref balancer (Value cluster_nodes) target vm'
   = Ok true)
  ∧ (ResourceEstimator.can_node_accept_vm estimator (deref target) vm source
     = Ok true →
     ResourceEstimator.can_node_accept_vm estimator (deref target) vm' source
     = Ok true).
Proof.
  assert (∀ thr_cpu thr_mem,
            Qlt_bool
              (inject_Z (NodeInfo.cpu_used (deref target) + VMInfo.cpu_cores vm)
               / inject_Z (NodeInfo.cpu_total (deref target))) thr_cpu
            && Qlt_bool
                 (NodeInfo.memory_usage_percent (deref target)
                  + inject_Z (VMInfo.memory_mb vm)
                    / inject_Z (NodeInfo.memory_total_mb (deref target)) * 100)
                 thr_mem = true →
            Qlt_bool
              (inject_Z (NodeInfo.cpu_used (deref target) + VMInfo.cpu_cores vm')
               / inject_Z (NodeInfo.cpu_total (deref target))) thr_cpu
            && Qlt_bool
                 (NodeInfo.memory_usage_percent (deref target)
                  + inject_Z (VMInfo.memory_mb vm')
                    / inject_Z (NodeInfo.memory_total_mb (deref target)) * 100)
                 thr_mem = true) as Hmono.
  { intros thr_cpu thr_mem [H1 H2]%andb_true_iff.
    apply Qlt_bool_iff in H1, H2. apply andb_true_iff; split; apply Qlt_bool_iff.
    - eapply Qle_lt_trans; [|exact H1]. apply ratio_mono; lia.
    - eapply Qle_lt_trans; [|exact H2]. by apply share_mono. }
  split.
  - unfold VMBalancer.can_node_accept_vm, VMBalancer.get_source_node_for_vm. cbv zeta.
    rewrite !truediv_nonzero by lia. rewrite Hnode.
    intros [= [Hres Hq]%andb_true_iff]. by rewrite (Hmono _ _ Hres), Hq.
  - unfold ResourceEstimator.can_node_accept_vm,
      ResourceEstimator.estimate_post_migration_resources.
    rewrite !truediv_nonzero by lia.
    intros [= [Hres Hq]%andb_true_iff]. by rewrite (Hmono _ _ Hres), Hq.
Qed.

Lemma smaller_vm_is_accepted_too_witness :
  let estimator := ResourceEstimator.mk 7 70 in
  let small := VMInfo.mk "101" "small" "1" 1 1024 "active" true in
  ResourceEstimator.can_node_accept_vm estimator Scenario.node_B Scenario.vm_x
    (Some Scenario.node_A) = Ok true
  ∧ ResourceEstimator.can_node_accept_vm estimator Scenario.node_B small
      (Some Scenario.node_A) = Ok true.
Proof.
  intros estimator small.
  assert (ResourceEstimator.can_node_accept_vm estimator Scenario.node_B Scenario.vm_x
            (Some Scenario.node_A) = Ok true) as Hbig by (vm_compute; reflexivity).
  split; [exact Hbig|].
  refine (proj2 (smaller_vm_is_accepted_too estimator
                   (Scenario.balancer (Scenario.remote [] true) false ∅ 1)
                   NodeInfo.t id [] Scenario.node_B Scenario.vm_x small
                   (Some Scenario.node_A) _ _ _ _ _) Hbig);
    vm_compute; (reflexivity || discriminate).
Defined.

(** * The target that is chosen *)



(** * The VM that is chosen *)

Lemma head_sort_by_key_none {A} (key : A → Q) (l : list A) :
  head (sort_by_key Qlt_bool key false l) = None ↔ l = [].
Proof.
  split; [|by intros ->].
  destruct (sort_by_key Qlt_bool key false l) eqn:E; [|done].
  intros _. by eapply sort_by_key_nil_inv.
Qed.

Lemma List_filter_nil_iff {A} (f : A → bool) (l : list A) :
  List.filter f l = [] ↔ ∀ x, x ∈ l → f x = false.
Proof.
  split; [|apply List_filter_nil].
  intros H x Hx. destruct (f x) eqn:E; [|done].
  assert (x ∈ List.filter f l) as Hin by by apply elem_of_List_filter.
  rewrite H in Hin. by apply elem_of_nil in Hin.
Qed.

Lemma script_eligibleb_iff self current_time source_node vm :
  script_eligibleb self current_time source_node vm = true ↔
  script_eligible self current_time source_node vm.
Proof.
  unfold script_eligibleb, script_eligible.
  by rewrite !andb_true_iff, String.eqb_eq, Z.ltb_lt, (assoc and).
Qed.

Lemma guarded_head {A} (key : A → Q) (candidates remaining : list A) :
  (candidates = [] → remaining = []) →
  match candidates with
  | [] => None
  | _ :: _ =>
      match remaining with
      | [] => None
      | _ :: _ => head (sort_by_key Qlt_bool key false remaining)
      end
  end = head (sort_by_key Qlt_bool key false remaining).
Proof.
  intros H. destruct candidates; [by rewrite H|]. by destruct remaining.
Qed.

Lemma legacy_select_vm_eq (self : VMBalancer.t) (current_time : Z)
    (vms : list VMInfo.t) (source_node : NodeInfo.t) :
  VMBalancer.select_vm_for_migration self current_time vms source_node
  = head (sort_by_key Qlt_bool VMBalancer.vm_size_key false
            (List.filter (script_eligibleb self current_time source_node) vms)).
Proof.
  unfold VMBalancer.select_vm_for_migration, script_eligibleb. cbv zeta.
  rewrite !List_filter_filter. cbv beta.
  apply guarded_head.
  rewrite !List_filter_nil_iff. intros H x Hx. by rewrite (H x Hx).
Qed.

(** X7: the script's [select_vm_for_migration] returns none exactly when no
    VM of the list is on the source node, migratable and without a history
    entry in the last hour; otherwise it returns such a VM of smallest size
    cpu_cores + memory_mb / 1024, and among those of smallest size the one
    that comes first in the list. *)
Theorem script_selects_first_smallest (self : VMBalancer.t) (current_time : Z)
    (vms : list VMInfo.t) (source_node : NodeInfo.t) :
  let eligible := script_eligible self current_time source_node in
  (VMBalancer.select_vm_for_migration self current_time vms source_node = None ↔
   ∀ v, v ∈ vms → ¬ eligible v)
  ∧ (∀ v,
       VMBalancer.select_vm_for_migration self current_time vms source_node = Some v →
       eligible v
       ∧ ∃ before after,
           vms = (before ++ v :: after)%list
           ∧ (∀ u, u ∈ before → eligible u →
                   (VMBalancer.vm_size_key v < VMBalancer.vm_size_key u)%Q)
           ∧ (∀ u, u ∈ after → eligible u →
                   (VMBalancer.vm_size_key v <= VMBalancer.vm_size_key u)%Q)).
Proof.
  intros eligible. rewrite legacy_select_vm_eq. split.
  - rewrite head_sort_by_key_none, List_filter_nil_iff.
    apply forall_proper; intros v. unfold eligible.
    rewrite <- script_eligibleb_iff.
    destruct (script_eligibleb _ _ _ v); naive_solver.
  - intros v (b & a & Hsplit & Hb & Ha)%head_sort_by_key_first_min.
    apply List_filter_split in Hsplit as (b' & a' & -> & <- & <- & Hv).
    split; [by apply script_eligibleb_iff|].
    exists b', a'. split_and!; [done|..]; intros u Hu He.
    + apply Hb, elem_of_List_filter. by rewrite script_eligibleb_iff.
    + apply Ha, elem_of_List_filter. by rewrite script_eligibleb_iff.
Qed.

Lemma script_selects_first_smallest_witness :
  let self := Scenario.balancer (Scenario.remote [] true) false ∅ 1 in
  let big := VMInfo.mk "102" "big" "1" 8 8192 "active" true in
  VMBalancer.select_vm_for_migration self Scenario.t0 [big; Scenario.vm_x]
    Scenario.node_A = Some Scenario.vm_x
  ∧ script_eligible self Scenario.t0 Scenario.node_A Scenario.vm_x.
Proof.
  intros self big.
  assert (VMBalancer.select_vm_for_migration self Scenario.t0 [big; Scenario.vm_x]
            Scenario.node_A = Some Scenario.vm_x) as Hsel by (vm_compute; reflexivity).
  split; [exact Hsel|].
  exact (proj1 (proj2 (script_selects_first_smallest self Scenario.t0
                         [big; Scenario.vm_x] Scenario.node_A) Scenario.vm_x Hsel)).
Defined.

Lemma package_eligibleb_iff H_fail H_success self current_time source_node vm :
  package_eligibleb H_fail H_success self current_time source_node vm = true ↔
  package_eligible H_fail H_success self current_time source_node vm.
Proof.
  unfold package_eligibleb, package_eligible.
  rewrite !andb_true_iff, String.eqb_eq, !Z.ltb_lt. tauto.
Qed.

Lemma strategy_select_vm_eq (H_fail H_success : Z) (self : MigrationStrategy.t)
    (current_time : Z) (vms : list VMInfo.t) (source_node : NodeInfo.t) :
  MigrationStrategy.select_vm_for_migration H_fail H_success self current_time
    vms source_node
  = head (sort_by_key Qlt_bool VMBalancer.vm_size_key false
            (List.filter
               (package_eligibleb H_fail H_success self current_time source_node)
               vms)).
Proof.
  unfold MigrationStrategy.select_vm_for_migration. cbv zeta.
  rewrite _filter_recently_migrated_vms_eq.
  assert (List.filter
            (package_eligibleb H_fail H_success self current_time source_node) vms
          = List.filter
              (λ vm, default datetime_min
                       (MigrationStrategy.migration_blacklist self !! VMInfo.id vm)
                     <? current_time - timedelta_hours H_fail)
              (List.filter
                 (λ vm, default datetime_min
                          (MigrationStrategy.migration_history self !! VMInfo.id vm)
                        <? current_time - timedelta_hours H_success)
                 (List.filter VMInfo.can_migrate
                    (List.filter
                       (λ vm, String.eqb (VMInfo.node_id vm) (NodeInfo.id source_node))
                       vms)))) as ->.
  { rewrite !List_filter_filter. apply filter_ext. intros vm.
    unfold package_eligibleb. by rewrite !andb_assoc. }
  destruct (List.filter VMInfo.can_migrate _) as [|c cs]; [done|].
  destruct (List.filter _ (c :: cs)) as [|r rs]; [done|].
  rewrite _filter_blacklisted_vms_eq.
  by destruct (List.filter _ (r :: rs)).
Qed.

(** X8: the package's [select_vm_for_migration] returns none exactly when no
    VM of the list is on the source node, migratable, without a history
    entry within the history retention and without a blacklist entry within
    the blacklist retention; otherwise it returns such a VM of smallest size
    cpu_cores + memory_mb / 1024, the first of them in the list. *)
Theorem package_selects_first_smallest (H_fail H_success : Z)
    (self : MigrationStrategy.t) (current_time : Z)
    (vms : list VMInfo.t) (source_node : NodeInfo.t) :
  let eligible := package_eligible H_fail H_success self current_time source_node in
  let select :=
    MigrationStrategy.select_vm_for_migration H_fail H_success self current_time
      vms source_node in
  (select = None ↔ ∀ v, v ∈ vms → ¬ eligible v)
  ∧ (∀ v,
       select = Some v →
       eligible v
       ∧ ∃ before after,
           vms = (before ++ v :: after)%list
           ∧ (∀ u, u ∈ before → eligible u →
                   (VMBalancer.vm_size_key v < VMBalancer.vm_size_key u)%Q)
           ∧ (∀ u, u ∈ after → eligible u →
                   (VMBalancer.vm_size_key v <= VMBalancer.vm_size_key u)%Q)).
Proof.
  intros eligible select. unfold select. rewrite strategy_select_vm_eq. split.
  - rewrite head_sort_by_key_none, List_filter_nil_iff.
    apply forall_proper; intros v. unfold eligible.
    rewrite <- package_eligibleb_iff.
    destruct (package_eligibleb _ _ _ _ _ v); naive_solver.
  - intros v (b & a & Hsplit & Hb & Ha)%head_sort_by_key_first_min.
    apply List_filter_split in Hsplit as (b' & a' & -> & <- & <- & Hv).
    split; [by apply package_eligibleb_iff|].
    exists b', a'. split_and!; [done|..]; intros u Hu He.
    + apply Hb, elem_of_List_filter. by rewrite package_eligibleb_iff.
    + apply Ha, elem_of_List_filter. by rewrite package_eligibleb_iff.
Qed.

Lemma package_selects_first_smallest_witness :
  let self := MigrationStrategy.mk (ResourceEstimator.mk 7 70) ∅ ∅ in
  let big := VMInfo.mk "102" "big" "1" 8 8192 "active" true in
  MigrationStrategy.select_vm_for_migration 1 1 self Scenario.t0
    [big; Scenario.vm_x] Scenario.node_A = Some Scenario.vm_x
  ∧ package_eligible 1 1 self Scenario.t0 Scenario.node_A Scenario.vm_x.
Proof.
  intros self big.
  assert (MigrationStrategy.select_vm_for_migration 1 1 self Scenario.t0
            [big; Scenario.vm_x] Scenario.node_A = Some Scenario.vm_x) as Hsel
    by (vm_compute; reflexivity).
  split; [exact Hsel|].
  exact (proj1 (proj2 (package_selects_first_smallest 1 1 self Scenario.t0
                         [big; Scenario.vm_x] Scenario.node_A) Scenario.vm_x Hsel)).
Defined.

(** * More about QEMU versions *)

Lemma tuple_le_refl (a : list Z) : tuple_le a a = true.
Proof.
  induction a as [|x a IH]; simpl; [done|].
  by rewrite Z.ltb_irrefl.
Qed.

Lemma tuple_le_total (a b : list Z) : tuple_le a b = true ∨ tuple_le b a = true.
Proof.
  revert b. induction a as [|x a IH]; intros [|y b]; simpl; auto.
  destruct (Z.ltb_spec x y), (Z.ltb_spec y x); auto; lia.
Qed.

Lemma tuple_le_trans (a b c : list Z) :
  tuple_le a b = true → tuple_le b c = true → tuple_le a c = true.
Proof.
  revert b c. induction a as [|x a IH]; intros [|y b] [|z c]; simpl; try done.
  destruct (Z.ltb_spec x y), (Z.ltb_spec y x), (Z.ltb_spec y z), (Z.ltb_spec z y),
    (Z.ltb_spec x z), (Z.ltb_spec z x); try done; try lia.
  apply IH.
Qed.

Lemma _check_qemu_compatibility_eq (self : ResourceEstimator.t)
    (target_node source_node : NodeInfo.t) :
  ResourceEstimator._check_qemu_compatibility self target_node (Some source_node)
  = if String.eqb (NodeInfo.qemu_version target_node) ""
       || String.eqb (NodeInfo.qemu_version source_node) ""
    then true
    else tuple_le (first_three_parts (NodeInfo.qemu_version source_node))
                  (first_three_parts (NodeInfo.qemu_version target_node)).
Proof.
  unfold ResourceEstimator._check_qemu_compatibility.
  by rewrite !_parse_qemu_version_total.
Qed.

Lemma compare_qemu_versions_parsed (source_version target_version : string) :
  VMManagerAPI.compare_qemu_versions source_version target_version
  = if String.eqb source_version "" || String.eqb target_version "" then true
    else match VMManagerAPI.parse_version source_version,
               VMManagerAPI.parse_version target_version with
         | Ok source_parsed, Ok target_parsed => tuple_le source_parsed target_parsed
         | _, _ => true
         end.
Proof.
  unfold VMManagerAPI.compare_qemu_versions.
  destruct (_ || _); [done|].
  by destruct (VMManagerAPI.parse_version source_version),
    (VMManagerAPI.parse_version target_version).
Qed.

(** X9: compatibility of QEMU versions is a total preorder on the non-empty
    version strings of ordinary length, in the script's
    [compare_qemu_versions] and in the package's
    [_check_qemu_compatibility]: a version is compatible with itself, so
    nodes on the same version can always exchange VMs; of two versions at
    least one direction is allowed; and compatibility composes through a
    version that is not empty and, in the script, has at most
    [int_max_str_digits] characters, so that reading it cannot raise. *)
Theorem qemu_compatibility_is_a_total_preorder :
  (∀ v, VMManagerAPI.compare_qemu_versions v v = true)
  ∧ (∀ a b, VMManagerAPI.compare_qemu_versions a b = true
            ∨ VMManagerAPI.compare_qemu_versions b a = true)
  ∧ (∀ a b c, b ≠ "" →
       Z.of_nat (String.length b) ≤ int_max_str_digits →
       VMManagerAPI.compare_qemu_versions a b = true →
       VMManagerAPI.compare_qemu_versions b c = true →
       VMManagerAPI.compare_qemu_versions a c = true)
  ∧ (∀ (self : ResourceEstimator.t) (n : NodeInfo.t),
       ResourceEstimator._check_qemu_compatibility self n (Some n) = true)
  ∧ (∀ (self : ResourceEstimator.t) (a b : NodeInfo.t),
       ResourceEstimator._check_qemu_compatibility self a (Some b) = true
       ∨ ResourceEstimator._check_qemu_compatibility self b (Some a) = true)
  ∧ (∀ (self : ResourceEstimator.t) (a b c : NodeInfo.t),
       NodeInfo.qemu_version b ≠ "" →
       ResourceEstimator._check_qemu_compatibility self b (Some a) = true →
       ResourceEstimator._check_qemu_compatibility self c (Some b) = true →
       ResourceEstimator._check_qemu_compatibility self c (Some a) = true).
Proof.
  split_and!.
  - intros v. rewrite compare_qemu_versions_parsed.
    destruct (String.eqb v ""); [done|]. simpl.
    destruct (VMManagerAPI.parse_version v); [apply tuple_le_refl|done].
  - intros a b. rewrite !compare_qemu_versions_parsed.
    destruct (String.eqb a ""), (String.eqb b ""); simpl; auto.
    destruct (VMManagerAPI.parse_version a), (VMManagerAPI.parse_version b);
      auto using tuple_le_total.
  - intros a b c Hb Hlen. rewrite !compare_qemu_versions_parsed.
    rewrite (parse_version_spec b Hlen).
    apply String.eqb_neq in Hb. rewrite Hb.
    destruct (String.eqb a ""), (String.eqb c ""); simpl; try done.
    destruct (VMManagerAPI.parse_version a), (VMManagerAPI.parse_version c);
      try done.
    apply tuple_le_trans.
  - intros self n. rewrite _check_qemu_compatibility_eq.
    destruct (String.eqb (NodeInfo.qemu_version n) ""); [done|]. apply tuple_le_refl.
  - intros self a b. rewrite !_check_qemu_compatibility_eq.
    destruct (String.eqb (NodeInfo.qemu_version a) ""),
      (String.eqb (NodeInfo.qemu_version b) ""); simpl; auto using tuple_le_total.
  - intros self a b c Hb. rewrite !_check_qemu_compatibility_eq.
    apply String.eqb_neq in Hb. rewrite Hb.
    destruct (String.eqb (NodeInfo.qemu_version a) ""),
      (String.eqb (NodeInfo.qemu_version c) ""); simpl; try done.
    apply tuple_le_trans.
Qed.

Lemma append_cons (c : ascii) (s t : string) :
  (String c s ++ t)%string = String c (s ++ t)%string.
Proof. reflexivity. Qed.

Lemma append_nil_l (t : string) : ("" ++ t)%string = t.
Proof. reflexivity. Qed.

Lemma append_nil_r (s : string) : (s ++ "")%string = s.
Proof. induction s as [|c s IH]; [done|]. by rewrite append_cons, IH. Qed.

Lemma digits_and_dots_no_space (c : ascii) :
  is_digit c || Ascii.eqb c "." = true → is_space c = false.
Proof.
  intros [H|H]%orb_true_iff.
  - by destruct (is_digit_not_special c H).
  - by apply Ascii.eqb_eq in H as ->.
Qed.

Lemma rstrip_app_digits_and_dots (d s : string) :
  digits_and_dots d = true → rstrip (d ++ s) = (d ++ rstrip s)%string.
Proof.
  induction d as [|a d IH]; [done|].
  rewrite !append_cons. simpl.
  intros [Ha Hd]%andb_true_iff. rewrite (IH Hd).
  rewrite (digits_and_dots_no_space a Ha).
  by destruct (d ++ rstrip s)%string.
Qed.

Lemma rstrip_head (c : ascii) (s : string) :
  rstrip (String c s) = "" ∨ ∃ t, rstrip (String c s) = String c t.
Proof.
  simpl. destruct (rstrip s); [|by eauto].
  destruct (is_space c); eauto.
Qed.

Lemma match_more_app_stop (d t : string) (c : ascii) :
  is_digit c = false → Ascii.eqb c "." = false →
  (t = "" ∨ ∃ t', t = String c t') →
  VMManagerAPI.match_more (d ++ t) = VMManagerAPI.match_more d.
Proof.
  intros Hc Hdot Ht. induction d as [|a d IH].
  - rewrite append_nil_l. destruct Ht as [->|[t' ->]]; [done|].
    simpl. by rewrite Hc, Hdot.
  - rewrite append_cons. cbn [VMManagerAPI.match_more]. rewrite IH.
    destruct d as [|x d]; [|by rewrite append_cons].
    rewrite append_nil_l. destruct Ht as [->|[t' ->]]; [done|]. by rewrite Hc.
Qed.

(** X10: the script's version parser ignores whatever follows the numeric
    part.  For a text of digits and dots that starts with a digit, followed
    by any suffix whose first character is an ASCII character other than a
    digit and a dot, [parse_version] gives the tuple of the text alone, or
    raises as it does for the text alone, and [compare_qemu_versions]
    answers as for the text alone, on either side. *)
Theorem parse_version_ignores_suffix (numeric : string) (c : ascii) (rest : string)
    (Hnumeric : digits_and_dots numeric = true)
    (Hstart : ∃ c0 d0, numeric = String c0 d0 ∧ is_digit c0 = true)
    (Hascii : isascii_char c = true)
    (Hc : is_digit c = false)
    (Hdot : c ≠ "."%char) :
  let version := (numeric ++ String c rest)%string in
  VMManagerAPI.parse_version version = VMManagerAPI.parse_version numeric
  ∧ (∀ other,
       VMManagerAPI.compare_qemu_versions version other
       = VMManagerAPI.compare_qemu_versions numeric other
       ∧ VMManagerAPI.compare_qemu_versions other version
         = VMManagerAPI.compare_qemu_versions other numeric).
Proof.
  intros version.
  destruct Hstart as (c0 & d0 & -> & Hc0).
  apply Ascii.eqb_neq in Hdot.
  assert (VMManagerAPI.parse_version version
          = VMManagerAPI.parse_version (String c0 d0)) as Hparse.
  { unfold VMManagerAPI.parse_version, version, strip.
    destruct (is_digit_not_special c0 Hc0) as (Hsp & _).
    rewrite append_cons. cbn [lstrip]. rewrite Hsp.
    rewrite <- append_cons.
    rewrite rstrip_app_digits_and_dots by done.
    rewrite <- (append_nil_r (String c0 d0)) at 2.
    rewrite (rstrip_app_digits_and_dots (String c0 d0) "") by done.
    rewrite !append_cons. change (rstrip "") with "".
    cbn [VMManagerAPI.re_match_numeric]. rewrite Hc0.
    rewrite (match_more_app_stop d0 _ c Hc Hdot (rstrip_head c rest)).
    by rewrite (match_more_app_stop d0 "" c Hc Hdot (or_introl eq_refl)). }
  split; [exact Hparse|].
  intros other. unfold VMManagerAPI.compare_qemu_versions.
  unfold version in *. rewrite Hparse, append_cons. simpl.
  by rewrite !orb_false_r.
Qed.

Lemma parse_version_ignores_suffix_witness :
  VMManagerAPI.parse_version "7.1.0-1ubuntu1" = VMManagerAPI.parse_version "7.1.0".
Proof.
  refine (proj1 (parse_version_ignores_suffix "7.1.0" "-" "1ubuntu1" _ _ _ _ _)).
  - vm_compute; reflexivity.
  - exists "7"%char, ".1.0". split; vm_compute; reflexivity.
  - vm_compute; reflexivity.
  - vm_compute; reflexivity.
  - discriminate.
Defined.

(** * More about the migratability of an inventory record *)

(** X11: [can_vm_migrate] returns true exactly for a record whose [state] is
    present and is a string that reads "active" in any letter case, whose
    [iso_mounted] is absent or false-like, whose [snapshot_count] is absent
    or a number (or boolean) that is not above zero, and whose
    [balancer_mode] is present and is anything but the string "off". *)
Theorem can_vm_migrate_true_iff (vm_data : gmap string json) :
  VMManagerAPI.can_vm_migrate vm_data = Ok true ↔
  (∃ s, vm_data !! "state" = Some (JStr s) ∧ lower s = "active")
  ∧ truthy (default (JBool false) (vm_data !! "iso_mounted")) = false
  ∧ py_gt_zero (default (JNum 0) (vm_data !! "snapshot_count")) = Ok false
  ∧ (∃ mode, vm_data !! "balancer_mode" = Some mode ∧ mode ≠ JStr "off").
Proof.
  unfold VMManagerAPI.can_vm_migrate.
  assert (py_eq_str (default (JStr "off") (vm_data !! "balancer_mode")) "off" = false
          ↔ ∃ mode, vm_data !! "balancer_mode" = Some mode ∧ mode ≠ JStr "off")
    as Hmode.
  { destruct (vm_data !! "balancer_mode") as [mode|]; simpl.
    - split.
      + intros H. exists mode. split; [done|]. intros ->. by simpl in H.
      + intros (m & [= <-] & Hm). destruct mode; try done. simpl.
        apply String.eqb_neq. congruence.
    - split; [done|]. by intros (m & ? & _). }
  rewrite <- Hmode. clear Hmode.
  assert ((∃ s, vm_data !! "state" = Some (JStr s) ∧ lower s = "active")
          ↔ ∃ st, py_lower (default (JStr "") (vm_data !! "state")) = Ok st
                  ∧ String.eqb st "active" = true) as ->.
  { destruct (vm_data !! "state") as [[]|]; simpl; split;
      try (by intros (? & ? & ?)).
    - intros (s0 & [= <-] & H). exists (lower s). by rewrite String.eqb_eq.
    - intros (st & [= <-] & H%String.eqb_eq). by exists s.
    - by intros (st & [= <-] & H). }
  destruct (py_lower _) as [st|e].
  - destruct (String.eqb st "active") eqn:Est; simpl.
    + destruct (py_gt_zero _) as [[]|e];
        destruct (truthy _); destruct (py_eq_str _ _);
        split; try done; try (by intros (_ & ? & ? & ?));
        intros _; split_and!; by eauto.
    + split; [done|]. intros ((st' & [= <-] & H) & _). congruence.
  - split; [done|]. by intros ((st' & ? & _) & _).
Qed.

(** * The clusters that are processed *)

Lemma id_in_iff (ids : list string) (cluster : ClusterInfo.t) :
  VMBalancer.id_in ids cluster = true ↔ ClusterInfo.id cluster ∈ ids.
Proof.
  unfold VMBalancer.id_in. rewrite existsb_exists, list_elem_of_In. split.
  - by intros (x & Hx & ->%String.eqb_eq).
  - intros H. exists (ClusterInfo.id cluster). by rewrite String.eqb_refl.
Qed.

Lemma List_filter_sublist {A} (f : A → bool) (l : list A) :
  sublist (List.filter f l) l.
Proof.
  induction l as [|x l IH]; simpl; [constructor|].
  destruct (f x); by constructor.
Qed.

Lemma List_filter_idemp {A} (f : A → bool) (l : list A) :
  List.filter f (List.filter f l) = List.filter f l.
Proof.
  rewrite List_filter_filter. apply filter_ext. intros x. by destruct (f x).
Qed.

(** X12: [filter_clusters] returns all clusters when no cluster ids are
    configured ([None] or an empty list); otherwise exactly the clusters
    whose id is one of the configured ids.  It keeps the order of the
    inventory, and filtering twice is filtering once. *)
Theorem filter_clusters_selects_configured_ids (self : VMBalancer.t)
    (clusters : list ClusterInfo.t) :
  (VMBalancer.cluster_ids self = None ∨ VMBalancer.cluster_ids self = Some [] →
   VMBalancer.filter_clusters self clusters = clusters)
  ∧ (∀ ids, VMBalancer.cluster_ids self = Some ids → ids ≠ [] →
       ∀ c, c ∈ VMBalancer.filter_clusters self clusters ↔
            c ∈ clusters ∧ ClusterInfo.id c ∈ ids)
  ∧ sublist (VMBalancer.filter_clusters self clusters) clusters
  ∧ VMBalancer.filter_clusters self (VMBalancer.filter_clusters self clusters)
    = VMBalancer.filter_clusters self clusters.
Proof.
  unfold VMBalancer.filter_clusters.
  destruct (VMBalancer.cluster_ids self) as [[|i ids]|]; split_and!;
    try done; try (by intros [|]); try (intros ids' [= <-]; try done).
  - intros _ c. by rewrite elem_of_List_filter, id_in_iff.
  - apply List_filter_sublist.
  - apply List_filter_idemp.
Qed.

Lemma filter_clusters_selects_configured_ids_witness :
  let self :=
    VMBalancer.mk (Scenario.remote [] true) 7 70 6 80 ∅ false (Some ["c2"]) ∅ ∅ 1 1800 in
  VMBalancer.filter_clusters self [Scenario.cluster_AB; Scenario.cluster_AC]
  = [Scenario.cluster_AC]
  ∧ (Scenario.cluster_AC
     ∈ VMBalancer.filter_clusters self [Scenario.cluster_AB; Scenario.cluster_AC]).
Proof.
  intros self. split; [vm_compute; reflexivity|].
  apply (proj1 (proj2 (filter_clusters_selects_configured_ids self
                         [Scenario.cluster_AB; Scenario.cluster_AC]))
           ["c2"] eq_refl); [discriminate|].
  split; [|vm_compute; left]. right. left.
Defined.

(** * More about the orchestrator *)

Lemma attempt_cases (cluster_nodes : list nat) (cluster_vms : list VMInfo.t)
    (source_node : nat) (st : VMBalancer.cycle) :
  let self := VMBalancer.self_ st in
  let o := VMBalancer.attempt cluster_nodes cluster_vms source_node st in
  let projected :=
    λ target, VMBalancer.add_vm_count 1 target
                (VMBalancer.add_vm_count (-1) source_node (VMBalancer.heap st)) in
  let request :=
    λ (vm : VMInfo.t) target,
      (VMInfo.id vm, NodeInfo.id (VMBalancer.node_at (VMBalancer.heap st) target)) in
  outcome_state o = st
  ∨ ∃ vm target,
      VMBalancer.select_vm_for_migration self (now (VMBalancer.world st)) cluster_vms
        (VMBalancer.node_at (VMBalancer.heap st) source_node) = Some vm
      ∧ VMBalancer.find_target_node (VMBalancer.node_at (VMBalancer.heap st)) self
          (Value cluster_nodes) vm (VMBalancer.underloaded_nodes st)
        = Ok (Some target)
      ∧ ((VMBalancer.dry_run self = true
          ∧ outcome_state o
            = VMBalancer.mkCycle self (projected target)
                (VMBalancer.underloaded_nodes st)
                (VMBalancer.migrations_performed st + 1) (VMBalancer.world st))
         ∨ (∃ finished,
              VMBalancer.dry_run self = false
              ∧ outcome_state o
                = VMBalancer.mkCycle
                    (VMBalancer.set_migration_history
                       (<[VMInfo.id vm := finished]>
                          (VMBalancer.migration_history self)) self)
                    (projected target) (VMBalancer.underloaded_nodes st)
                    (VMBalancer.migrations_performed st + 1)
                    (mkWorld finished
                       (migrate_calls (VMBalancer.world st) ++ [request vm target])))
         ∨ (∃ finished,
              VMBalancer.dry_run self = false
              ∧ outcome_state o
                = VMBalancer.mkCycle self (VMBalancer.heap st)
                    (VMBalancer.underloaded_nodes st)
                    (VMBalancer.migrations_performed st)
                    (mkWorld finished
                       (migrate_calls (VMBalancer.world st) ++ [request vm target])))).
Proof.
  intros self o projected request. subst o.
  destruct (VMBalancer.select_vm_for_migration self (now (VMBalancer.world st))
              cluster_vms (VMBalancer.node_at (VMBalancer.heap st) source_node))
    as [vm|] eqn:Hsel; cycle 1.
  { left. unfold VMBalancer.attempt. cbv zeta. fold self. by rewrite Hsel. }
  destruct (VMBalancer.find_target_node (VMBalancer.node_at (VMBalancer.heap st))
              self (Value cluster_nodes) vm (VMBalancer.underloaded_nodes st))
    as [[target|]|e] eqn:Htgt;
    [|left; unfold VMBalancer.attempt; cbv zeta; fold self; by rewrite Hsel, Htgt..].
  right. exists vm, target. split; [done|]. split; [done|].
  destruct (VMBalancer.dry_run self) eqn:Hdry.
  { left. split; [done|]. by rewrite (attempt_dry_run _ _ _ _ vm target). }
  right.
  destruct (VMManagerAPI.migrate_vm (VMBalancer.api self) (VMBalancer.world st)
              (VMInfo.id vm)
              (NodeInfo.id (VMBalancer.node_at (VMBalancer.heap st) target))
              (VMBalancer.migration_timeout self))
    as [[] finished] eqn:Hcall.
  - left. exists finished. split; [done|].
    by rewrite (attempt_migration_succeeds _ _ _ _ vm target finished).
  - right. exists finished. split; [done|].
    by rewrite (attempt_migration_fails _ _ _ _ vm target finished).
Qed.

Lemma node_at_frame (h1 h2 : list NodeInfo.t) (r : nat) :
  map without_vm_count h1 = map without_vm_count h2 →
  without_vm_count (VMBalancer.node_at h1 r)
  = without_vm_count (VMBalancer.node_at h2 r).
Proof.
  intros H. unfold VMBalancer.node_at. rewrite !list_lookup_total_alt.
  assert (map without_vm_count h1 !! r = map without_vm_count h2 !! r) as Hr
    by (by rewrite H).
  rewrite !list_lookup_fmap in Hr.
  destruct (h1 !! r), (h2 !! r); simpl in *; congruence.
Qed.

Lemma total_vm_count_add (d : Z) (r : nat) (heap : list NodeInfo.t) :
  (r < length heap)%nat →
  total_vm_count (VMBalancer.add_vm_count d r heap) = total_vm_count heap + d.
Proof.
  unfold VMBalancer.add_vm_count, total_vm_count.
  set (f := λ n, NodeInfo.set_vm_count (NodeInfo.vm_count n + d) n). revert r.
  induction heap as [|n heap IH]; intros r Hr; simpl in Hr; [lia|].
  destruct r as [|r].
  - simpl. lia.
  - change (alter f (S r) (n :: heap)) with (n :: alter f r heap).
    cbn [foldr]. rewrite IH by lia. lia.
Qed.

Lemma length_add_vm_count (d : Z) (r : nat) (heap : list NodeInfo.t) :
  length (VMBalancer.add_vm_count d r heap) = length heap.
Proof. apply length_alter. Qed.

Lemma set_migration_history_twice (h h' : gmap string Z) (self : VMBalancer.t) :
  VMBalancer.set_migration_history h' (VMBalancer.set_migration_history h self)
  = VMBalancer.set_migration_history h' self.
Proof. reflexivity. Qed.

Lemma set_migration_history_same (self : VMBalancer.t) :
  VMBalancer.set_migration_history (VMBalancer.migration_history self) self = self.
Proof. by destruct self. Qed.

(** One loop body, seen from the start of the cycle. *)
Lemma attempt_step (self0 : VMBalancer.t) (nodes0 : list NodeInfo.t)
    (sources0 targets0 : list nat) (cluster_vms : list VMInfo.t)
    (source_node : nat) (st : VMBalancer.cycle) :
  let refs := seq 0 (length nodes0) in
  let st' := outcome_state (VMBalancer.attempt refs cluster_vms source_node st) in
  source_node ∈ sources0 →
  (∀ s, s ∈ sources0 → (s < length nodes0)%nat) →
  (∀ t, t ∈ targets0 → (t < length nodes0)%nat) →
  cycle_within self0 nodes0 targets0 st →
  cycle_within self0 nodes0 targets0 st'
  ∧ total_vm_count (VMBalancer.heap st') = total_vm_count (VMBalancer.heap st)
  ∧ ∃ new,
      migrate_calls (VMBalancer.world st')
      = (migrate_calls (VMBalancer.world st) ++ new)%list
      ∧ Forall (admissible_between self0 nodes0 sources0 targets0 cluster_vms) new
      ∧ (length new ≤ 1)%nat
      ∧ (VMBalancer.dry_run self0 = false →
         VMBalancer.migrations_performed st'
         ≤ VMBalancer.migrations_performed st + Z.of_nat (length new))
      ∧ (∀ vm_id,
           VMBalancer.migration_history (VMBalancer.self_ st') !! vm_id
           ≠ VMBalancer.migration_history (VMBalancer.self_ st) !! vm_id →
           vm_id ∈ new.*1).
Proof.
  intros refs st' Hsrc Hsources Htargets (Hheap & Hunder & Hself).
  assert (VMBalancer.dry_run (VMBalancer.self_ st) = VMBalancer.dry_run self0) as Hdry0
    by (by rewrite Hself).
  assert (length (VMBalancer.heap st) = length nodes0) as Hlen.
  { apply (f_equal length) in Hheap. by rewrite !length_map in Hheap. }
  destruct (attempt_cases refs cluster_vms source_node st)
    as [Hsame|(vm & target & Hsel & Htgt & Hcase)]; fold st' in Hsame || fold st' in Hcase.
  { rewrite Hsame. split; [done|]. split; [done|].
    exists []. rewrite app_nil_r. split_and!; try done; simpl; lia. }
  apply legacy_select_vm_sound in Hsel as (Hvm & Hnode & Hcan & _).
  pose proof Htgt as [Htarget Haccept]%find_target_node_accepts.
  rewrite Hunder in Htarget.
  assert (total_vm_count
            (VMBalancer.add_vm_count 1 target
               (VMBalancer.add_vm_count (-1) source_node (VMBalancer.heap st)))
          = total_vm_count (VMBalancer.heap st)) as Htotal.
  { rewrite !total_vm_count_add; [lia|..].
    - rewrite Hlen. by apply Hsources.
    - rewrite length_add_vm_count, Hlen. by apply Htargets. }
  assert (admissible_between self0 nodes0 sources0 targets0 cluster_vms
            (VMInfo.id vm,
             NodeInfo.id (VMBalancer.node_at (VMBalancer.heap st) target))) as Hadm.
  { exists vm, source_node, target. split_and!; try done.
    - rewrite Hnode.
      exact (f_equal NodeInfo.id (node_at_frame _ _ source_node Hheap)).
    - exact (f_equal NodeInfo.id (eq_sym (node_at_frame _ _ target Hheap))).
    - rewrite <- Haccept. symmetry. apply can_node_accept_vm_frame.
      + intros r. by apply node_at_frame.
      + by rewrite Hself.
      + by rewrite Hself. }
  destruct Hcase as [[Hdry ->]|[(finished & Hdry & ->)|(finished & Hdry & ->)]]; simpl.
  - split; [|split; [done|]].
    { split_and!; simpl; [by rewrite !map_without_add_vm_count|done..]. }
    exists []. rewrite app_nil_r. split_and!; try done; simpl; [lia|congruence].
  - split; [|split; [done|]].
    { split_and!; simpl; [by rewrite !map_without_add_vm_count|done|].
      rewrite Hself. reflexivity. }
    exists [(VMInfo.id vm,
             NodeInfo.id (VMBalancer.node_at (VMBalancer.heap st) target))].
    split_and!; [done|by constructor|done| |].
    + intros _. simpl. lia.
    + simpl. intros vm_id Hne. destruct (decide (vm_id = VMInfo.id vm)) as [->|Hid].
      * left.
      * by rewrite lookup_insert_ne in Hne.
  - split; [|split; [done|]].
    { by split_and!. }
    exists [(VMInfo.id vm,
             NodeInfo.id (VMBalancer.node_at (VMBalancer.heap st) target))].
    split_and!; [done|by constructor|done| |done].
    intros _. simpl. lia.
Qed.

(** The whole loop, seen from the start of the cycle. *)
Lemma for_each_source_requests (self0 : VMBalancer.t) (nodes0 : list NodeInfo.t)
    (sources0 targets0 : list nat) (cluster_vms : list VMInfo.t)
    (overloaded_nodes : list nat) (st : VMBalancer.cycle) :
  let refs := seq 0 (length nodes0) in
  let st' :=
    outcome_state (VMBalancer.for_each_source refs cluster_vms overloaded_nodes st) in
  (∀ s, s ∈ overloaded_nodes → s ∈ sources0) →
  (∀ s, s ∈ sources0 → (s < length nodes0)%nat) →
  (∀ t, t ∈ targets0 → (t < length nodes0)%nat) →
  cycle_within self0 nodes0 targets0 st →
  cycle_within self0 nodes0 targets0 st'
  ∧ total_vm_count (VMBalancer.heap st') = total_vm_count (VMBalancer.heap st)
  ∧ ∃ new,
      migrate_calls (VMBalancer.world st')
      = (migrate_calls (VMBalancer.world st) ++ new)%list
      ∧ Forall (admissible_between self0 nodes0 sources0 targets0 cluster_vms) new
      ∧ (length new ≤ length overloaded_nodes)%nat
      ∧ (VMBalancer.dry_run self0 = false →
         VMBalancer.migrations_performed st'
         ≤ VMBalancer.migrations_performed st + Z.of_nat (length new))
      ∧ (∀ vm_id,
           VMBalancer.migration_history (VMBalancer.self_ st') !! vm_id
           ≠ VMBalancer.migration_history (VMBalancer.self_ st) !! vm_id →
           vm_id ∈ new.*1).
Proof.
  intros refs st' Hsub Hsources Htargets. subst st'. revert st Hsub.
  induction overloaded_nodes as [|source_node rest IH]; intros st Hsub Hwithin.
  { simpl. split; [done|]. split; [done|].
    exists []. rewrite app_nil_r. split_and!; try done; simpl; lia. }
  cbn [VMBalancer.for_each_source].
  destruct (VMBalancer.max_migrations_per_cycle (VMBalancer.self_ st)
            <=? VMBalancer.migrations_performed st).
  { simpl. split; [done|]. split; [done|].
    exists []. rewrite app_nil_r. split_and!; try done; simpl; lia. }
  destruct (attempt_step self0 nodes0 sources0 targets0 cluster_vms source_node st)
    as (Hwithin1 & Htotal1 & new1 & Hcalls1 & Hadm1 & Hlen1 & Hcount1 & Hhist1);
    [apply Hsub; left|done..|].
  fold refs in Hwithin1, Htotal1, Hcalls1, Hcount1, Hhist1.
  destruct (VMBalancer.attempt refs cluster_vms source_node st) as [st1|e st1];
    simpl in Hwithin1, Htotal1, Hcalls1, Hcount1, Hhist1.
  - destruct (IH st1) as (Hwithin2 & Htotal2 & new2 & Hcalls2 & Hadm2 & Hlen2
                          & Hcount2 & Hhist2);
      [intros s Hs; apply Hsub; by right|done|].
    split; [done|]. split; [congruence|].
    exists (new1 ++ new2)%list. split_and!.
    + by rewrite Hcalls2, Hcalls1, app_assoc.
    + by apply Forall_app.
    + rewrite length_app. simpl. lia.
    + intros Hdry. specialize (Hcount1 Hdry). specialize (Hcount2 Hdry).
      rewrite length_app. lia.
    + intros vm_id Hne. rewrite fmap_app, elem_of_app.
      destruct (decide (VMBalancer.migration_history (VMBalancer.self_ st1) !! vm_id
                        = VMBalancer.migration_history (VMBalancer.self_ st) !! vm_id))
        as [Heq|Hne1].
      * right. apply Hhist2. by rewrite Heq.
      * left. by apply Hhist1.
  - simpl. split; [done|]. split; [done|].
    exists new1. split_and!; try done. simpl. lia.
Qed.

Lemma find_overloaded_nodes_in_range (self : VMBalancer.t) (nodes : list NodeInfo.t)
    (s : nat) :
  s ∈ VMBalancer.find_overloaded_nodes (VMBalancer.node_at nodes) self
        (seq 0 (length nodes)) →
  (s < length nodes)%nat.
Proof.
  rewrite legacy_find_overloaded_nodes_perm, elem_of_List_filter, elem_of_seq. lia.
Qed.

Lemma find_underloaded_nodes_in_range (self : VMBalancer.t) (nodes : list NodeInfo.t)
    (t : nat) :
  t ∈ VMBalancer.find_underloaded_nodes (VMBalancer.node_at nodes) self
        (seq 0 (length nodes)) →
  (t < length nodes)%nat.
Proof.
  rewrite legacy_find_underloaded_nodes_perm, elem_of_List_filter, elem_of_seq. lia.
Qed.

(** A whole call of [balance_cluster] and the requests it sends. *)
Lemma balance_cluster_requests (self : VMBalancer.t) (cluster : ClusterInfo.t)
    (w : World) :
  let nodes := ClusterInfo.nodes cluster in
  let vms := VMManagerAPI.get_cluster_vms (VMBalancer.api self) w (ClusterInfo.id cluster) in
  let r := VMBalancer.balance_cluster self cluster w in
  let st := VMBalancer.final r in
  VMBalancer.self_ st
  = VMBalancer.set_migration_history
      (VMBalancer.migration_history (VMBalancer.self_ st)) self
  ∧ total_vm_count (VMBalancer.heap st) = total_vm_count nodes
  ∧ map without_vm_count (VMBalancer.heap st) = map without_vm_count nodes
  ∧ ∃ new,
      migrate_calls (VMBalancer.world st) = (migrate_calls w ++ new)%list
      ∧ Forall (admissible_request self nodes vms) new
      ∧ (length new
         ≤ length (VMBalancer.find_overloaded_nodes (VMBalancer.node_at nodes) self
                     (seq 0 (length nodes))))%nat
      ∧ (VMBalancer.dry_run self = false →
         VMBalancer.migrations_performed st ≤ Z.of_nat (length new))
      ∧ (∀ vm_id,
           VMBalancer.migration_history (VMBalancer.self_ st) !! vm_id
           ≠ VMBalancer.migration_history self !! vm_id →
           vm_id ∈ new.*1).
Proof.
  intros nodes vms r st. subst r st. unfold VMBalancer.balance_cluster. cbv zeta.
  fold nodes. fold vms.
  pose proof (find_overloaded_nodes_in_range self nodes) as Hsources.
  pose proof (find_underloaded_nodes_in_range self nodes) as Htargets.
  unfold admissible_request.
  set (sources0 := VMBalancer.find_overloaded_nodes _ _ _) in *.
  set (targets0 := VMBalancer.find_underloaded_nodes _ _ _) in *.
  set (st0 := VMBalancer.mkCycle self nodes targets0 0 w).
  assert (cycle_within self nodes targets0 st0) as Hwithin0.
  { split_and!; [done..|]. simpl. by rewrite set_migration_history_same. }
  assert (∀ res,
            VMBalancer.self_ st0
            = VMBalancer.set_migration_history
                (VMBalancer.migration_history (VMBalancer.self_ st0)) self
            ∧ total_vm_count (VMBalancer.heap (VMBalancer.final (VMBalancer.mkRun st0
                              (Value (seq 0 (length nodes))) res)))
            = total_vm_count nodes
            ∧ map without_vm_count (VMBalancer.heap st0) = map without_vm_count nodes
            ∧ ∃ new,
                migrate_calls (VMBalancer.world st0) = (migrate_calls w ++ new)%list
                ∧ Forall (admissible_between self nodes sources0 targets0 vms) new
                ∧ (length new ≤ length sources0)%nat
                ∧ (VMBalancer.dry_run self = false →
                   VMBalancer.migrations_performed st0 ≤ Z.of_nat (length new))
                ∧ (∀ vm_id,
                     VMBalancer.migration_history (VMBalancer.self_ st0) !! vm_id
                     ≠ VMBalancer.migration_history self !! vm_id →
                     vm_id ∈ new.*1)) as Hquiet.
  { intros res. split; [by destruct Hwithin0 as (_ & _ & ?)|].
    split; [done|]. split; [done|].
    exists []. rewrite app_nil_r. split_and!; try done; simpl; lia. }
  destruct sources0 as [|o os] eqn:Eo; [apply Hquiet|].
  destruct targets0 as [|u us] eqn:Eu; [apply Hquiet|].
  destruct (for_each_source_requests self nodes (o :: os) (u :: us) vms (o :: os) st0)
    as ((Hheap & _ & Hself) & Htotal & new & Hcalls & Hadm & Hlen & Hcount & Hhist);
    [done..|].
  destruct (VMBalancer.for_each_source _ vms (o :: os) st0) as [st|e st];
    simpl in *; (split; [done|]); (split; [done|]); (split; [done|]);
    exists new; split_and!; try done; intros Hdry; specialize (Hcount Hdry); lia.
Qed.







(** X15: the projection moves VMs, it does not create or lose them: after a
    call of [balance_cluster] the cluster has as many node snapshots as
    before and the sum of their [vm_count] fields is unchanged. *)
Theorem balance_cluster_conserves_vm_count (self : VMBalancer.t)
    (cluster : ClusterInfo.t) (w : World) :
  let heap :=
    VMBalancer.heap (VMBalancer.final (VMBalancer.balance_cluster self cluster w)) in
  length heap = length (ClusterInfo.nodes cluster)
  ∧ total_vm_count heap = total_vm_count (ClusterInfo.nodes cluster).
Proof.
  intros heap.
  destruct (balance_cluster_requests self cluster w) as (_ & Htotal & Hheap & _).
  split; [|done].
  apply (f_equal length) in Hheap. by rewrite !length_map in Hheap.
Qed.

(** X16: a call of [balance_cluster] changes the migration history only
    under ids of VMs it sent a request for; the entry of every other VM,
    present or absent, is as before. *)
Theorem balance_cluster_history_frame (self : VMBalancer.t)
    (cluster : ClusterInfo.t) (w : World) :
  let r := VMBalancer.balance_cluster self cluster w in
  ∃ new,
    migrate_calls (VMBalancer.world (VMBalancer.final r))
    = (migrate_calls w ++ new)%list
    ∧ ∀ vm_id,
        vm_id ∉ new.*1 →
        VMBalancer.migration_history (VMBalancer.self_ (VMBalancer.final r)) !! vm_id
        = VMBalancer.migration_history self !! vm_id.
Proof.
  intros r.
  destruct (balance_cluster_requests self cluster w)
    as (_ & _ & _ & new & Hcalls & _ & _ & _ & Hhist).
  exists new. split; [done|].
  intros vm_id Hnot.
  destruct (decide (VMBalancer.migration_history
                      (VMBalancer.self_ (VMBalancer.final r)) !! vm_id
                    = VMBalancer.migration_history self !! vm_id)) as [|Hne]; [done|].
  by apply Hhist in Hne.
Qed.

Lemma S6_requests :
  let self := Scenario.balancer (Scenario.remote Scenario.vms_S6 true) false ∅ 2 in
  migrate_calls
    (VMBalancer.world
       (VMBalancer.final
          (VMBalancer.balance_cluster self Scenario.cluster_S6 Scenario.world0)))
  = [("301", "30"); ("302", "30")].
Proof. by vm_compute. Qed.


Lemma balance_cluster_history_frame_witness :
  let self := Scenario.balancer (Scenario.remote Scenario.vms_S6 true) false ∅ 2 in
  let r := VMBalancer.balance_cluster self Scenario.cluster_S6 Scenario.world0 in
  VMBalancer.migration_history (VMBalancer.self_ (VMBalancer.final r)) !! "303" = None.
Proof.
  intros self r.
  destruct (balance_cluster_history_frame self Scenario.cluster_S6 Scenario.world0)
    as (new & Hcalls & Hframe).
  unfold self in Hcalls. rewrite S6_requests in Hcalls. simpl in Hcalls.
  subst new. unfold r. rewrite (Hframe "303"); [reflexivity|].
  simpl. rewrite !not_elem_of_cons. split_and!; [discriminate..|].
  apply not_elem_of_nil.
Defined.





(** * The cycle over all clusters *)

Lemma balance_clusters_invariants (clusters : list ClusterInfo.t) :
  ∀ (self : VMBalancer.t) (w : World) (total : Z),
    0 ≤ VMBalancer.max_migrations_per_cycle self →
    let res := VMBalancer.balance_clusters self clusters w total in
    total ≤ res.2
    ≤ total + VMBalancer.max_migrations_per_cycle self * Z.of_nat (length clusters)
    ∧ res.1.1
      = VMBalancer.set_migration_history (VMBalancer.migration_history res.1.1) self
    ∧ (VMBalancer.dry_run self = true → res.1.1 = self ∧ res.1.2 = w).
Proof.
  induction clusters as [|cluster rest IH]; intros self w total Hcap.
  { simpl. split_and!; [lia..| |done]. by rewrite set_migration_history_same. }
  cbn [VMBalancer.balance_clusters]. cbv zeta.
  pose proof (balance_cluster_invariants self cluster w)
    as ([Hlow Hhigh] & Hret & _ & Hpure).
  pose proof (balance_cluster_requests self cluster w) as (Hself & _).
  cbv zeta in Hself.
  set (r := VMBalancer.balance_cluster self cluster w) in *.
  set (self1 := VMBalancer.self_ (VMBalancer.final r)) in *.
  assert (VMBalancer.max_migrations_per_cycle self1
          = VMBalancer.max_migrations_per_cycle self) as Hcap1
    by (by rewrite Hself).
  assert (VMBalancer.dry_run self1 = VMBalancer.dry_run self) as Hdry1
    by (by rewrite Hself).
  set (total1 := match VMBalancer.returned r with
                 | Ok migrations => total + migrations
                 | Raise _ => total
                 end).
  assert (total ≤ total1 ≤ total + VMBalancer.max_migrations_per_cycle self) as Htotal1.
  { subst total1. destruct (VMBalancer.returned r) as [n|e]; [|lia].
    rewrite (Hret n eq_refl). lia. }
  destruct (IH self1 (VMBalancer.world (VMBalancer.final r)) total1)
    as (Hbound & Hself2 & Hpure2); [lia|].
  rewrite Hcap1 in Hbound. split_and!.
  - lia.
  - cbn [length]. lia.
  - rewrite Hself2 at 1. by rewrite Hself.
  - intros Hdry. destruct (Hpure Hdry) as [Hs Hw].
    destruct Hpure2 as [Hs2 Hw2]; [congruence|].
    rewrite Hs2, Hw2. subst self1. by rewrite Hs, Hw.
Qed.

(** X18: one [run_balance_cycle] with a cap that is not negative.  If the
    API is not reachable, or no cluster is listed or selected, nothing
    changes and no total is logged.  Otherwise the total it logs is at most
    the cap times the number of selected clusters, also when
    [balance_cluster] raises for some of them.  In dry-run mode the cycle
    changes neither the balancer nor the world. *)
Theorem run_balance_cycle_bounds (self : VMBalancer.t)
    (remote : VMBalancer.inventory) (w : World)
    (Hcap : 0 ≤ VMBalancer.max_migrations_per_cycle self) :
  let res := VMBalancer.run_balance_cycle self remote w in
  let selected :=
    VMBalancer.filter_clusters self (VMBalancer.get_clusters remote w) in
  (VMBalancer.check_manager_state remote w = false ∨ selected = [] →
   res = (self, w, None))
  ∧ (∀ total,
       res.2 = Some total →
       0 ≤ total
       ≤ VMBalancer.max_migrations_per_cycle self * Z.of_nat (length selected))
  ∧ (VMBalancer.dry_run self = true → res.1.1 = self ∧ res.1.2 = w).
Proof.
  intros res selected. subst res. unfold VMBalancer.run_balance_cycle.
  destruct (VMBalancer.check_manager_state remote w); cbn [negb];
    [|by split_and!].
  assert (VMBalancer.get_clusters remote w = [] → selected = []) as Hnone.
  { intros H. unfold selected. rewrite H. unfold VMBalancer.filter_clusters.
    by destruct (VMBalancer.cluster_ids self) as [[|]|]. }
  destruct (VMBalancer.get_clusters remote w) as [|c cs] eqn:Hall.
  { by split_and!. }
  fold selected. destruct selected as [|s ss] eqn:Hsel.
  { by split_and!. }
  pose proof (balance_clusters_invariants (s :: ss) self w 0 Hcap)
    as (Hbound & _ & Hpure).
  destruct (VMBalancer.balance_clusters self (s :: ss) w 0) as [[self' w'] total].
  cbn [fst snd] in *. split_and!.
  - by intros [|].
  - intros t Ht. simplify_eq. lia.
  - done.
Qed.

Lemma run_balance_cycle_bounds_witness :
  let self := Scenario.balancer (Scenario.remote Scenario.vms_S6 true) false ∅ 2 in
  let remote :=
    VMBalancer.mkInventory (λ _, true) (λ _, [Scenario.cluster_AC; Scenario.cluster_S6]) in
  0 ≤ VMBalancer.max_migrations_per_cycle self
  ∧ (VMBalancer.run_balance_cycle self remote Scenario.world0).2 = Some 2
  ∧ 0 ≤ 2 ≤ 2 * 2.
Proof.
  intros self remote.
  assert (0 ≤ VMBalancer.max_migrations_per_cycle self) as Hcap
    by (vm_compute; discriminate).
  assert ((VMBalancer.run_balance_cycle self remote Scenario.world0).2 = Some 2)
    as Htotal by (vm_compute; reflexivity).
  split; [exact Hcap|]. split; [exact Htotal|].
  exact (proj1 (proj2 (run_balance_cycle_bounds self remote Scenario.world0 Hcap))
           2 Htotal).
Defined.

(** X19: a migration that succeeded is recorded where the selection looks.
    After a loop body whose request succeeded, [select_vm_for_migration] on
    the balancer it leaves does not return the migrated VM, for any source
    and any list of VMs, at any time up to one hour after the request
    returned. *)
Theorem migrated_vm_rests_for_an_hour
    (cluster_nodes : list nat) (cluster_vms : list VMInfo.t)
    (source_node : nat) (st : VMBalancer.cycle) (vm : VMInfo.t) (target_node : nat)
    (finished : Z)
    (Hdry : VMBalancer.dry_run (VMBalancer.self_ st) = false)
    (Hsel :
       VMBalancer.select_vm_for_migration (VMBalancer.self_ st)
         (now (VMBalancer.world st)) cluster_vms
         (VMBalancer.node_at (VMBalancer.heap st) source_node) = Some vm)
    (Htgt :
       VMBalancer.find_target_node (VMBalancer.node_at (VMBalancer.heap st))
         (VMBalancer.self_ st) (Value cluster_nodes) vm (VMBalancer.underloaded_nodes st)
       = Ok (Some target_node))
    (Hcall :
       VMManagerAPI.migrate_vm (VMBalancer.api (VMBalancer.self_ st))
         (VMBalancer.world st) (VMInfo.id vm)
         (NodeInfo.id (VMBalancer.node_at (VMBalancer.heap st) target_node))
         (VMBalancer.migration_timeout (VMBalancer.self_ st)) = (true, finished)) :
  let st' :=
    outcome_state (VMBalancer.attempt cluster_nodes cluster_vms source_node st) in
  VMBalancer.migration_history (VMBalancer.self_ st') !! VMInfo.id vm = Some finished
  ∧ ∀ later vms node v,
      later ≤ finished + timedelta_hours 1 →
      VMBalancer.select_vm_for_migration (VMBalancer.self_ st') later vms node = Some v →
      VMInfo.id v ≠ VMInfo.id vm.
Proof.
  intros st'. subst st'.
  rewrite (attempt_migration_succeeds _ _ _ _ vm target_node finished) by done.
  simpl. split; [apply lookup_insert_eq|].
  intros later vms node v Hlater Hv Hid.
  apply legacy_select_vm_sound in Hv as (_ & _ & _ & Hlt).
  simpl in Hlt. rewrite Hid, lookup_insert_eq in Hlt. simpl in Hlt. lia.
Qed.

Lemma migrated_vm_rests_for_an_hour_witness :
  let self := Scenario.balancer (Scenario.remote [Scenario.vm_x] true) false ∅ 1 in
  let st := VMBalancer.mkCycle self [Scenario.node_A; Scenario.node_B] [1%nat] 0
              Scenario.world0 in
  let st' := outcome_state (VMBalancer.attempt [0; 1]%nat [Scenario.vm_x] 0%nat st) in
  VMBalancer.migration_history (VMBalancer.self_ st') !! "100"
  = Some (Scenario.t0 + Scenario.minutes 1).
Proof.
  intros self st st'.
  refine (proj1 (migrated_vm_rests_for_an_hour [0; 1]%nat [Scenario.vm_x] 0%nat st
                   Scenario.vm_x 1%nat (Scenario.t0 + Scenario.minutes 1) _ _ _ _));
    vm_compute; reflexivity.
Defined.

(** * Environment variables *)

Lemma contains_char_app (c : ascii) (s t : string) :
  contains_char c (s ++ t) = contains_char c s || contains_char c t.
Proof.
  induction s as [|a s IH]; [done|].
  rewrite append_cons. simpl. by rewrite IH, orb_assoc.
Qed.

Lemma contains_char_lstrip (c : ascii) (s : string) :
  contains_char c s = false → contains_char c (lstrip s) = false.
Proof.
  induction s as [|a s IH]; simpl; [done|].
  intros [Ha Hs]%orb_false_iff. destruct (is_space a); [by apply IH|].
  simpl. by rewrite Ha, Hs.
Qed.

Lemma contains_char_rstrip (c : ascii) (s : string) :
  contains_char c s = false → contains_char c (rstrip s) = false.
Proof.
  induction s as [|a s IH]; simpl; [done|].
  intros [Ha Hs]%orb_false_iff. specialize (IH Hs).
  destruct (rstrip s) as [|b r].
  - destruct (is_space a); simpl; [done|]. by rewrite Ha.
  - simpl in *. by rewrite Ha, IH.
Qed.

Lemma contains_char_strip (c : ascii) (s : string) :
  contains_char c s = false → contains_char c (strip s) = false.
Proof. intros H. by apply contains_char_rstrip, contains_char_lstrip. Qed.

Lemma split_on_nonempty (c : ascii) (s : string) : split_on c s ≠ [].
Proof.
  destruct s as [|a s]; simpl; [done|].
  destruct (Ascii.eqb a c); [done|]. by destruct (split_on c s).
Qed.

Lemma split_on_head (c : ascii) (s rest : string) :
  contains_char c s = false →
  split_on c (s ++ String c rest) = s :: split_on c rest.
Proof.
  induction s as [|a s IH]; intros H.
  - rewrite append_nil_l. simpl. by rewrite Ascii.eqb_refl.
  - rewrite append_cons. simpl in *. apply orb_false_iff in H as [Ha Hs].
    by rewrite Ha, (IH Hs).
Qed.

Lemma split_on_pieces (c d : ascii) (s piece : string) :
  piece ∈ split_on c s →
  contains_char c piece = false
  ∧ (contains_char d s = false → contains_char d piece = false).
Proof.
  revert piece. induction s as [|a s IH]; intros piece; simpl.
  { by intros ->%list_elem_of_singleton. }
  destruct (Ascii.eqb a c) eqn:Ea.
  - intros [->|Hp]%elem_of_cons; [done|].
    destruct (IH piece Hp) as [H1 H2]. split; [done|].
    intros [_ Hs]%orb_false_iff. by apply H2.
  - pose proof (split_on_nonempty c s) as Hne.
    destruct (split_on c s) as [|h t]; [done|].
    intros [->|Hp]%elem_of_cons.
    + destruct (IH h) as [H1 H2]; [left|]. simpl. rewrite Ea, H1. split; [done|].
      intros [Ha Hs]%orb_false_iff. by rewrite Ha, H2.
    + destruct (IH piece) as [H1 H2]; [by right|]. split; [done|].
      intros [_ Hs]%orb_false_iff. by apply H2.
Qed.

Lemma rstrip_cons (a : ascii) (s : string) :
  rstrip (String a s)
  = match rstrip s with
    | EmptyString => if is_space a then EmptyString else String a EmptyString
    | r => String a r
    end.
Proof. reflexivity. Qed.

Lemma rstrip_idemp (s : string) : rstrip (rstrip s) = rstrip s.
Proof.
  induction s as [|a s IH]; [done|].
  rewrite (rstrip_cons a s).
  destruct (rstrip s) as [|b r] eqn:E.
  - destruct (is_space a) eqn:Ea; [done|]. rewrite rstrip_cons. simpl. by rewrite Ea.
  - rewrite rstrip_cons, IH. done.
Qed.

Lemma lstrip_starts (s : string) :
  lstrip s = "" ∨ ∃ a t, lstrip s = String a t ∧ is_space a = false.
Proof.
  induction s as [|a s IH]; simpl; [by left|].
  destruct (is_space a) eqn:Ea; [done|]. right. by exists a, s.
Qed.

Lemma strip_idemp (s : string) : strip (strip s) = strip s.
Proof.
  unfold strip.
  assert (lstrip (rstrip (lstrip s)) = rstrip (lstrip s)) as ->;
    [|apply rstrip_idemp].
  destruct (lstrip_starts s) as [->|(a & t & -> & Ha)]; [done|].
  simpl. destruct (rstrip t); simpl; rewrite ?Ha; simpl; by rewrite ?Ha.
Qed.

Lemma get_env_value_no_hash (environ : gmap string string) (key default : string) :
  contains_char "#" (get_env_value environ key default) = false ∧ True.
Proof.
  split; [|done]. unfold get_env_value.
  generalize (from_option id default (environ !! key)). intros value. cbv zeta.
  destruct (contains_char "#" value) eqn:E; [|done].
  pose proof (split_on_nonempty "#" value) as Hne.
  destruct (split_on "#" value) as [|first rest] eqn:Es; [done|].
  apply contains_char_strip.
  destruct (split_on_pieces "#" "#" value first) as [H _]; [|done].
  rewrite Es. left.
Qed.



(** X21: [get_env_list] returns clean items: none is empty, none has
    surrounding whitespace, none contains a comma or a '#'.  An unset
    variable with an empty default gives the empty list. *)
Theorem get_env_list_items_are_clean (environ : gmap string string)
    (key default : string) :
  Forall
    (λ item,
       item ≠ ""
       ∧ strip item = item
       ∧ contains_char "," item = false
       ∧ contains_char "#" item = false)
    (get_env_list environ key default)
  ∧ (environ !! key = None → default = "" → get_env_list environ key default = []).
Proof.
  unfold get_env_list. cbv zeta. split.
  - destruct (String.eqb _ ""); [constructor|].
    apply Forall_forall. intros item Hitem.
    apply list_elem_of_In, in_map_iff in Hitem as (piece & <- & Hpiece).
    apply filter_In in Hpiece as [Hpiece Hne].
    apply list_elem_of_In in Hpiece.
    apply negb_true_iff, String.eqb_neq in Hne.
    pose proof (proj1 (get_env_value_no_hash environ key default)) as Hhash.
    destruct (split_on_pieces "," "#" _ piece Hpiece) as [Hcomma Hsub].
    split_and!; [done|apply strip_idemp|..]; apply contains_char_strip; auto.
  - intros Hunset ->. unfold get_env_value. by rewrite Hunset.
Qed.

(** ** [str] and [int] of an integer *)

Ltac eval_digit_value :=
  repeat match goal with
         | |- context [digit_value ?c] =>
             let v := eval vm_compute in (digit_value c) in
             change (digit_value c) with v
         end.

Lemma string_of_uint_digits (d : Decimal.uint) :
  all_digits (NilEmpty.string_of_uint d) = true.
Proof. induction d; simpl; auto. Qed.

Lemma decimal_string_of_uint (d : Decimal.uint) (acc : positive) :
  decimal (Z.pos acc) (NilEmpty.string_of_uint d)
  = Z.pos (Pos.of_uint_acc d acc).
Proof.
  revert acc. induction d; intros acc;
    cbn [NilEmpty.string_of_uint decimal Pos.of_uint_acc]; [done|..];
    rewrite <- IHd; f_equal; eval_digit_value; lia.
Qed.

Lemma decimal_string_of_uint_0 (d : Decimal.uint) :
  decimal 0 (NilEmpty.string_of_uint d) = Z.of_N (Pos.of_uint d).
Proof.
  induction d; cbn [NilEmpty.string_of_uint decimal Pos.of_uint]; [done|..];
    eval_digit_value; [exact IHd|..];
    cbn [Z.of_N]; rewrite <- decimal_string_of_uint; f_equal.
Qed.

Lemma string_of_pos_cons (p : positive) :
  ∃ c s, NilEmpty.string_of_uint (Pos.to_uint p) = String c s
         ∧ is_digit c = true ∧ all_digits s = true.
Proof.
  pose proof (string_of_uint_digits (Pos.to_uint p)) as Hd.
  pose proof (decimal_string_of_uint_0 (Pos.to_uint p)) as Hv.
  rewrite DecimalPos.Unsigned.of_to in Hv.
  destruct (NilEmpty.string_of_uint (Pos.to_uint p)) as [|c s]; [done|].
  simpl in Hd. apply andb_true_iff in Hd as [Hc Hs]. by exists c, s.
Qed.

Lemma string_of_uint_pos (p : positive) :
  NilZero.string_of_uint (Pos.to_uint p)
  = NilEmpty.string_of_uint (Pos.to_uint p).
Proof.
  pose proof (string_of_pos_cons p) as (c & s & E & _).
  unfold NilZero.string_of_uint. by destruct (Pos.to_uint p).
Qed.

Lemma all_digits_contains_char (c : ascii) (s : string) :
  is_digit c = false → all_digits s = true → contains_char c s = false.
Proof.
  intros Hc. induction s as [|d s IH]; simpl; [done|].
  intros [Hd Hs]%andb_true_iff. rewrite (IH Hs), orb_false_r.
  apply Ascii.eqb_neq. by intros ->; congruence.
Qed.

Lemma py_str_int_cases (n : Z) :
  n = 0 ∧ py_str_int n = "0"
  ∨ ∃ c s, is_digit c = true ∧ all_digits s = true
           ∧ decimal 0 (String c s) = Z.abs n ∧ n ≠ 0
           ∧ (0 < n ∧ py_str_int n = String c s
              ∨ n < 0 ∧ py_str_int n = String "-" (String c s)).
Proof.
  unfold py_str_int. destruct n as [|p|p]; [by left|right..];
    cbn [Z.to_int NilZero.string_of_int]; rewrite string_of_uint_pos;
    pose proof (decimal_string_of_uint_0 (Pos.to_uint p)) as Hv;
    rewrite DecimalPos.Unsigned.of_to in Hv;
    destruct (string_of_pos_cons p) as (c & s & E & Hc & Hs);
    rewrite E in Hv |- *; exists c, s; split_and!; try done.
  - left. split; [lia|done].
  - right. split; [lia|done].
Qed.

(** [int(str(n))] is [n], for a number that [str] and [int] do not refuse
    for its length. *)
Lemma py_int_py_str_int (n : Z) :
  py_int (py_str_int n)
  = if int_max_str_digits <? count_digits (py_str_int n)
    then Raise ValueError else Ok n.
Proof.
  destruct (py_str_int_cases n) as [[-> ->]|(c & s & Hc & Hs & Hv & Hn & Hcase)];
    [done|].
  assert (all_digits (String c s) = true) as Hall by (simpl; by rewrite Hc, Hs).
  destruct Hcase as [[Hpos ->]|[Hneg ->]].
  - rewrite (py_int_all_digits c s Hc Hs), (count_digits_all_digits _ Hall).
    destruct (_ <? _); [done|]. f_equal. lia.
  - unfold py_int. cbn [int_lstrip].
    change (is_int_space "-") with false. cbv iota.
    assert (int_rstrip (String "-" (String c s)) = String "-" (String c s)) as ->.
    { change (int_rstrip (String "-" (String c s)))
        with (match int_rstrip (String c s) with
              | EmptyString =>
                  if is_int_space "-" then EmptyString else String "-" EmptyString
              | r => String "-" r
              end).
      by rewrite (int_rstrip_all_digits _ Hall). }
    rewrite (int_digits_all_digits s 0 c false Hc Hs).
    change (count_digits (String "-" (String c s))) with (0 + count_digits (String c s)).
    rewrite Z.add_0_l. destruct (_ <? _); [done|]. f_equal. lia.
Qed.

Lemma py_str_int_no_hash (n : Z) : contains_char "#" (py_str_int n) = false.
Proof.
  destruct (py_str_int_cases n) as [[-> ->]|(c & s & Hc & Hs & _ & _ & Hcase)];
    [done|].
  assert (all_digits (String c s) = true) as Hall by (simpl; by rewrite Hc, Hs).
  destruct Hcase as [[_ ->]|[_ ->]].
  - by apply all_digits_contains_char.
  - change (contains_char "#" (String "-" (String c s)))
      with (false || contains_char "#" (String c s)).
    by rewrite (all_digits_contains_char "#" _ eq_refl Hall).
Qed.

(** [int(Prompt.ask(prompt, default=str(n)))] when the user accepts the
    default. *)
Lemma ask_int_default (prompt : string) (n : Z) :
  InteractiveBalancer.ask_int accept_default prompt n
  = if int_max_str_digits <? count_digits (py_str_int n)
    then Raise ValueError else Ok n.
Proof.
  unfold InteractiveBalancer.ask_int, py_str, accept_default. cbv zeta.
  pose proof (py_int_py_str_int n) as H.
  destruct (_ <? _); done.
Qed.

Lemma get_env_value_whole (environ : gmap string string) (key default text : string) :
  from_option id default (environ !! key) = text →
  contains_char "#" text = false →
  get_env_value environ key default = text.
Proof. intros Hv Ht. unfold get_env_value. rewrite Hv. cbv zeta. by rewrite Ht. Qed.

Lemma get_env_value_commented (environ : gmap string string)
    (key default text comment : string) :
  from_option id default (environ !! key) = (text ++ String "#" comment)%string →
  contains_char "#" text = false →
  get_env_value environ key default = strip text.
Proof.
  intros Hv Ht. unfold get_env_value. rewrite Hv. cbv zeta.
  rewrite contains_char_app. simpl. rewrite orb_true_r.
  by rewrite split_on_head.
Qed.

(** What [get_env_int] makes of the text it is left with. *)
Lemma get_env_int_of_value (environ : gmap string string) (key : string)
    (default : Z) (value : string) :
  count_digits (py_str_int default) ≤ int_max_str_digits →
  get_env_value environ key (py_str_int default) = value →
  get_env_int environ key default
  = Ok (match py_int value with Ok n => n | Raise _ => default end).
Proof.
  intros Hdefault Hvalue. unfold get_env_int, py_str. cbv zeta.
  destruct (Z.ltb_spec int_max_str_digits (count_digits (py_str_int default)));
    [lia|].
  rewrite Hvalue. destruct (py_int value) as [n|e] eqn:E; [done|].
  by rewrite (py_int_raises _ _ E).
Qed.

(** X22: [get_env_int] reads the integer written before the comment.  When
    the default has more than [int_max_str_digits] digits, [str(default)]
    raises and the function with it.  Otherwise an unset variable gives the
    default; a variable set to an ASCII text without '#' gives what [int()]
    reads from that text, and one set to an ASCII text followed by a '#'
    comment gives what [int()] reads from the text with its surrounding
    whitespace removed, the default in both cases when [int()] raises.  In
    particular, before a comment, up to [int_max_str_digits] digits
    surrounded by whitespace give their decimal value, and a blank text
    gives the default. *)
Theorem get_env_int_reads_the_number (environ : gmap string string)
    (key : string) (default : Z) :
  (int_max_str_digits < count_digits (py_str_int default) →
   get_env_int environ key default = Raise ValueError)
  ∧ (count_digits (py_str_int default) ≤ int_max_str_digits →
     (environ !! key = None → get_env_int environ key default = Ok default)
     ∧ (∀ text,
          isascii text = true →
          environ !! key = Some text →
          contains_char "#" text = false →
          get_env_int environ key default
          = Ok (match py_int text with Ok n => n | Raise _ => default end))
     ∧ (∀ text comment,
          isascii text = true →
          environ !! key = Some (text ++ String "#" comment)%string →
          contains_char "#" text = false →
          get_env_int environ key default
          = Ok (match py_int (strip text) with Ok n => n | Raise _ => default end)
          ∧ (∀ c ds, strip text = String c ds → is_digit c = true →
                     all_digits ds = true →
                     Z.of_nat (String.length (String c ds)) ≤ int_max_str_digits →
                     get_env_int environ key default = Ok (decimal 0 (String c ds)))
          ∧ (strip text = "" → get_env_int environ key default = Ok default))).
Proof.
  split.
  - intros Hlong. unfold get_env_int, py_str. cbv zeta.
    destruct (Z.ltb_spec int_max_str_digits (count_digits (py_str_int default)));
      [done|lia].
  - intros Hdefault. split_and!.
    + intros Hunset.
      rewrite (get_env_int_of_value environ key default (py_str_int default) Hdefault).
      * rewrite py_int_py_str_int.
        by destruct (Z.ltb_spec int_max_str_digits (count_digits (py_str_int default)));
          [lia|].
      * apply get_env_value_whole; [by rewrite Hunset|apply py_str_int_no_hash].
    + intros text _ Hset Ht.
      apply get_env_int_of_value; [done|].
      apply get_env_value_whole; [by rewrite Hset|done].
    + intros text comment _ Hset Ht.
      assert (get_env_int environ key default
              = Ok (match py_int (strip text) with
                    | Ok n => n | Raise _ => default end)) as Hint.
      { apply get_env_int_of_value; [done|].
        apply (get_env_value_commented _ _ _ text comment); [by rewrite Hset|done]. }
      split_and!; [done|..].
      * intros c ds Hs Hc Hds Hlen.
        by rewrite Hint, Hs, (py_int_digits c ds Hc Hds Hlen).
      * intros Hs. by rewrite Hint, Hs.
Qed.

Lemma get_env_int_reads_the_number_witness :
  get_env_int {["MAX_MIGRATIONS_PER_CYCLE" := "3  # per cycle"]}
    "MAX_MIGRATIONS_PER_CYCLE" 1 = Ok 3
  ∧ get_env_int ∅ "MAX_MIGRATIONS_PER_CYCLE" 1 = Ok 1.
Proof.
  assert (count_digits (py_str_int 1) ≤ int_max_str_digits) as Hdefault
    by (vm_compute; discriminate).
  split.
  - refine (proj1 (proj2 (proj2 (proj2 (proj2 (get_env_int_reads_the_number
              {["MAX_MIGRATIONS_PER_CYCLE" := "3  # per cycle"]}
              "MAX_MIGRATIONS_PER_CYCLE" 1) Hdefault))
            "3  " " per cycle" _ _ _))
            "3"%char "" _ _ _ _); vm_compute; (reflexivity || discriminate).
  - apply (proj1 (proj2 (get_env_int_reads_the_number ∅ "MAX_MIGRATIONS_PER_CYCLE" 1)
                   Hdefault)).
    vm_compute. reflexivity.
Defined.

Lemma get_env_list_items_are_clean_witness :
  get_env_list ∅ "EXCLUDE_SOURCE_NODES" "" = [].
Proof.
  apply (proj2 (get_env_list_items_are_clean ∅ "EXCLUDE_SOURCE_NODES" ""));
    reflexivity.
Defined.

(** * The node's own view of its load *)

Lemma Qlt_bool_comp (a b c d : Q) :
  (a == b)%Q → (c == d)%Q → Qlt_bool a c = Qlt_bool b d.
Proof.
  intros Hab Hcd. apply eq_true_iff_eq.
  rewrite !Qlt_bool_iff, Hab, Hcd. done.
Qed.

(** X23: at the default overload thresholds (ratio 7, 70% of memory) the
    balancer's test for a source is the node's own [is_overloaded]: the list
    of [find_overloaded_nodes] holds exactly the nodes that are not excluded,
    not in maintenance and [is_overloaded]. *)
Theorem node_is_overloaded_is_the_default_test {Ref : Type}
    (deref : Ref → NodeInfo.t) (self : VMBalancer.t) (nodes : list Ref) (r : Ref) :
  (VMBalancer.cpu_overload_threshold self == 7)%Q →
  (VMBalancer.memory_overload_threshold self == 70)%Q →
  r ∈ VMBalancer.find_overloaded_nodes deref self nodes ↔
  r ∈ nodes
  ∧ (NodeInfo.name (deref r) ∉ VMBalancer.excluded_source_nodes self)
  ∧ (NodeInfo.id (deref r) ∉ VMBalancer.excluded_source_nodes self)
  ∧ NodeInfo.is_maintenance (deref r) = false
  ∧ NodeInfo.is_overloaded (deref r) = true.
Proof.
  intros Hcpu Hmem.
  rewrite legacy_find_overloaded_nodes_perm, elem_of_List_filter.
  unfold VMBalancer.is_overloaded_source, NodeInfo.is_overloaded. cbv zeta.
  rewrite (Qlt_bool_comp _ 7 _ (NodeInfo.cpu_allocation_ratio (deref r)) Hcpu)
    by reflexivity.
  rewrite (Qlt_bool_comp _ 70 _ (NodeInfo.memory_usage_percent (deref r)) Hmem)
    by reflexivity.
  destruct (bool_decide_reflect
              (NodeInfo.name (deref r) ∈ VMBalancer.excluded_source_nodes self));
    destruct (bool_decide_reflect
                (NodeInfo.id (deref r) ∈ VMBalancer.excluded_source_nodes self));
    cbn [orb]; try (by intuition).
  rewrite andb_true_iff, negb_true_iff. tauto.
Qed.

Lemma node_is_overloaded_is_the_default_test_witness :
  let self := Scenario.balancer (Scenario.remote [] true) false ∅ 1 in
  Scenario.hot_mem ∈ VMBalancer.find_overloaded_nodes id self
                       [Scenario.node_B; Scenario.hot_mem].
Proof.
  intros self.
  apply (node_is_overloaded_is_the_default_test id self
           [Scenario.node_B; Scenario.hot_mem] Scenario.hot_mem);
    [reflexivity|reflexivity|].
  split_and!; [right; left|apply not_elem_of_empty..|reflexivity|reflexivity].
Defined.

(** * Waiting for a migration job *)

Lemma wait_loop_verdict (self : VMManagerSession.t) (job_id : json)
    (timeout : Z) (fuel k : nat) (b : bool) :
  VMManagerSession.wait_loop self job_id timeout fuel k = Some b →
  b = true ↔
  ∃ n, (k ≤ n)%nat
       ∧ VMManagerSession.poll_status self job_id n = Ok "success"
       ∧ in_time self timeout n
       ∧ ∀ j, (k ≤ j < n)%nat →
              in_time self timeout j ∧ still_running self job_id j.
Proof.
  revert k. induction fuel as [|fuel IH]; intros k; [done|].
  cbn [VMManagerSession.wait_loop].
  destruct (Qlt_bool _ _) eqn:Htime.
  - apply Qlt_bool_iff in Htime.
    destruct (VMManagerSession.poll_status self job_id k) as [status|e] eqn:Hs.
    + destruct (String.eqb status "success") eqn:Hsucc.
      { apply String.eqb_eq in Hsucc as ->. intros [= <-]. split; [|done].
        intros _. exists k. split_and!; [lia|done|done|lia]. }
      apply String.eqb_neq in Hsucc.
      destruct (String.eqb status "error") eqn:Herr.
      { apply String.eqb_eq in Herr as ->. intros [= <-]. split; [done|].
        intros (n & Hn & Hok & _ & Hbefore).
        destruct (decide (n = k)) as [->|Hne]; [congruence|].
        destruct (Hbefore k) as [_ (s' & Hs' & _ & Hs'')]; [lia|]. congruence. }
      apply String.eqb_neq in Herr.
      intros Hrun. rewrite (IH (S k) Hrun). split.
      * intros (n & Hn & Hok & Hin & Hbefore). exists n.
        split_and!; [lia|done|done|]. intros j Hj.
        destruct (decide (j = k)) as [->|Hne]; [|apply Hbefore; lia].
        split; [done|]. by exists status.
      * intros (n & Hn & Hok & Hin & Hbefore).
        destruct (decide (n = k)) as [->|Hne]; [congruence|].
        exists n. split_and!; [lia|done|done|]. intros j Hj. apply Hbefore. lia.
    + intros [= <-]. split; [done|].
      intros (n & Hn & Hok & _ & Hbefore).
      destruct (decide (n = k)) as [->|Hne]; [congruence|].
      destruct (Hbefore k) as [_ (s' & Hs' & _)]; [lia|]. congruence.
  - assert (¬ in_time self timeout k) as Hlate.
    { unfold in_time. rewrite <- Qlt_bool_iff. by rewrite Htime. }
    intros [= <-]. split; [done|].
    intros (n & Hn & _ & Hin & Hbefore).
    destruct (decide (n = k)) as [->|Hne]; [done|].
    destruct (Hbefore k) as [Hk _]; [lia|]. done.
Qed.

Lemma clock_lower_bound (self : VMManagerSession.t) (k : nat) :
  clock_advances self →
  (VMManagerSession.time self 0 + inject_Z (5 * Z.of_nat k)
   <= VMManagerSession.time self (S k))%Q.
Proof.
  intros [Hstart Hstep]. induction k as [|k IH].
  - change (inject_Z (5 * Z.of_nat 0)) with 0%Q. lra.
  - specialize (Hstep k).
    replace (5 * Z.of_nat (S k))%Z with (5 * Z.of_nat k + 5)%Z by lia.
    rewrite inject_Z_plus. change (inject_Z 5) with 5%Q. lra.
Qed.

Lemma in_time_within (self : VMManagerSession.t) (timeout : Z) (k : nat) :
  clock_advances self → in_time self timeout k →
  (k < passes_within timeout)%nat.
Proof.
  intros Hclock Hin. pose proof (clock_lower_bound self k Hclock) as Hk.
  unfold in_time in Hin.
  assert (inject_Z (5 * Z.of_nat k) < inject_Z timeout)%Q as Hlt by lra.
  rewrite <- Zlt_Qlt in Hlt. unfold passes_within.
  pose proof (Z_div_mod_eq_full (timeout + 4) 5) as Hdiv.
  pose proof (Z.mod_pos_bound (timeout + 4) 5 eq_refl) as Hmod.
  lia.
Qed.

Lemma wait_loop_returns (self : VMManagerSession.t) (job_id : json)
    (timeout : Z) (fuel k : nat) :
  clock_advances self → (passes_within timeout - k < fuel)%nat →
  ∃ b, VMManagerSession.wait_loop self job_id timeout fuel k = Some b.
Proof.
  intros Hclock. revert k. induction fuel as [|fuel IH]; intros k Hfuel; [lia|].
  cbn [VMManagerSession.wait_loop].
  destruct (Qlt_bool _ _) eqn:Htime; [|by eexists].
  apply Qlt_bool_iff in Htime.
  pose proof (in_time_within self timeout k Hclock Htime) as Hk.
  destruct (VMManagerSession.poll_status self job_id k) as [status|e];
    [|by eexists].
  destruct (String.eqb status "success"); [by eexists|].
  destruct (String.eqb status "error"); [by eexists|].
  apply IH. lia.
Qed.

Lemma wait_loop_reads_within (self other : VMManagerSession.t) (job_id : json)
    (timeout : Z) (fuel k : nat) :
  clock_advances self →
  (∀ j, VMManagerSession.time other j = VMManagerSession.time self j) →
  (∀ j, (j < passes_within timeout)%nat →
        VMManagerSession.get_task other job_id j
        = VMManagerSession.get_task self job_id j) →
  VMManagerSession.wait_loop other job_id timeout fuel k
  = VMManagerSession.wait_loop self job_id timeout fuel k.
Proof.
  intros Hclock Htimes Hanswers. revert k.
  induction fuel as [|fuel IH]; intros k; [done|].
  cbn [VMManagerSession.wait_loop]. rewrite !Htimes.
  destruct (Qlt_bool _ _) eqn:Htime; [|done].
  apply Qlt_bool_iff in Htime.
  pose proof (in_time_within self timeout k Hclock Htime) as Hk.
  unfold VMManagerSession.poll_status. rewrite (Hanswers k Hk).
  by rewrite IH.
Qed.

Lemma session_with_clock_advances (answers : list json) :
  clock_advances (session_with answers).
Proof.
  split; [done|]. intros k. cbn [session_with VMManagerSession.time].
  change 5%Q with (inject_Z 5). rewrite <- inject_Z_plus, <- Zle_Qle. lia.
Qed.

(** X24: [wait_for_job_completion] returns [True] exactly when the job is
    seen to succeed: some answer says [success], all answers before it say
    the job is still running (no [error], no exception), and the time limit
    has not passed at any test of the loop condition up to that answer. *)
Theorem wait_for_job_completion_verdict (self : VMManagerSession.t)
    (job_id : json) (timeout : Z) (fuel : nat) (b : bool) :
  VMManagerSession.wait_for_job_completion self job_id timeout fuel = Some b →
  b = true ↔ ∃ n, succeeds_in_pass self job_id timeout n.
Proof.
  intros Hrun. rewrite (wait_loop_verdict self job_id timeout fuel 0 b Hrun).
  unfold succeeds_in_pass. split.
  - intros (n & _ & Hok & Hin & Hbefore). exists n.
    split_and!; [done..|]. intros j Hj. apply Hbefore. lia.
  - intros (n & Hok & Hin & Hbefore). exists n.
    split_and!; [lia|done..|]. intros j Hj. apply Hbefore. lia.
Qed.

Lemma wait_for_job_completion_verdict_witness :
  let self :=
    session_with [JObj [("status", JStr "Running")]; JObj [("status", JStr "SUCCESS")]] in
  true = true ↔ ∃ n, succeeds_in_pass self (JNum 7) 1800 n.
Proof.
  intros self.
  apply (wait_for_job_completion_verdict self (JNum 7) 1800 2 true).
  vm_compute. reflexivity.
Defined.

(** X25: when the clock advances by the five seconds of [time.sleep(5)]
    between two passes, [wait_for_job_completion] returns, and after no more
    than [timeout / 5] (rounded up) answers: answers after these do not
    change the result.  With a timeout of zero or less it returns [False]
    without asking. *)
Theorem wait_for_job_completion_returns (self : VMManagerSession.t)
    (job_id : json) (timeout : Z) (fuel : nat) :
  clock_advances self →
  (passes_within timeout < fuel)%nat →
  (∃ b, VMManagerSession.wait_for_job_completion self job_id timeout fuel = Some b)
  ∧ (∀ other,
       (∀ j, VMManagerSession.time other j = VMManagerSession.time self j) →
       (∀ j, (j < passes_within timeout)%nat →
             VMManagerSession.get_task other job_id j
             = VMManagerSession.get_task self job_id j) →
       VMManagerSession.wait_for_job_completion other job_id timeout fuel
       = VMManagerSession.wait_for_job_completion self job_id timeout fuel)
  ∧ (timeout ≤ 0 →
     VMManagerSession.wait_for_job_completion self job_id timeout fuel = Some false).
Proof.
  intros Hclock Hfuel. split_and!.
  - apply wait_loop_returns; [done|lia].
  - intros other Htimes Hanswers. by apply wait_loop_reads_within.
  - intros Htimeout. unfold VMManagerSession.wait_for_job_completion.
    destruct fuel as [|fuel]; [lia|]. cbn [VMManagerSession.wait_loop].
    destruct (Qlt_bool _ _) eqn:Htime; [|done].
    apply Qlt_bool_iff in Htime.
    pose proof (in_time_within self timeout 0 Hclock Htime) as H0.
    unfold passes_within in H0.
    pose proof (Z_div_mod_eq_full (timeout + 4) 5) as Hdiv.
    pose proof (Z.mod_pos_bound (timeout + 4) 5 eq_refl) as Hmod.
    lia.
Qed.

Lemma wait_for_job_completion_returns_witness :
  let self := session_with [JObj [("status", JStr "running")]] in
  ∃ b, VMManagerSession.wait_for_job_completion self (JNum 7) 10 3 = Some b.
Proof.
  intros self.
  apply (wait_for_job_completion_returns self (JNum 7) 10 3);
    [apply session_with_clock_advances|vm_compute; lia].
Defined.

(** X26: [migrate_vm] returns [False] without a request when the target
    node id is not an integer.  When the clock advances between two passes
    of the wait, it returns, and it returns [True] exactly when the id is an
    integer, the request is answered with an object, and that object either
    names no job or names a job that is seen to succeed. *)
Theorem migrate_vm_outcome (self : VMManagerSession.t)
    (vm_id target_node_id : string) (timeout : Z) (fuel : nat) :
  (∀ e other, py_int target_node_id = Raise e →
     VMManagerSession.migrate_vm other vm_id target_node_id timeout fuel
     = Some false)
  ∧ (clock_advances self →
     (passes_within timeout < fuel)%nat →
     ∃ b, VMManagerSession.migrate_vm self vm_id target_node_id timeout fuel = Some b
          ∧ (b = true ↔
             ∃ node job_data job_id,
               py_int target_node_id = Ok node
               ∧ VMManagerSession.post_migrate self vm_id node = Ok job_data
               ∧ VMManagerSession.py_get job_data "id" JNull = Ok job_id
               ∧ (truthy job_id = false
                  ∨ ∃ n, succeeds_in_pass self job_id timeout n))).
Proof.
  split.
  - intros e other He. unfold VMManagerSession.migrate_vm. by rewrite He.
  - intros Hclock Hfuel. unfold VMManagerSession.migrate_vm.
    destruct (py_int target_node_id) as [node|e];
      [|exists false; split; [done|]; split; [done|]; by intros (? & ? & ? & ? & _)].
    destruct (VMManagerSession.post_migrate self vm_id node) as [job_data|e] eqn:Hpost;
      [|exists false; split; [done|]; split; [done|];
        intros (? & ? & ? & ? & ? & _); congruence].
    destruct (VMManagerSession.py_get job_data "id" JNull) as [job_id|e] eqn:Hid;
      [|exists false; split; [done|]; split; [done|];
        intros (? & ? & ? & ? & ? & ? & _); congruence].
    destruct (truthy job_id) eqn:Hjob.
    + destruct (wait_loop_returns self job_id timeout fuel 0 Hclock) as [b Hb];
        [lia|].
      exists b. split; [done|].
      assert (b = true ↔ ∃ n, succeeds_in_pass self job_id timeout n) as ->.
      { rewrite (wait_loop_verdict self job_id timeout fuel 0 b Hb).
        unfold succeeds_in_pass. split.
        - intros (n & _ & Hok & Hin & Hbefore). exists n.
          split_and!; [done..|]. intros j Hj. apply Hbefore. lia.
        - intros (n & Hok & Hin & Hbefore). exists n.
          split_and!; [lia|done..|]. intros j Hj. apply Hbefore. lia. }
      split.
      * intros Hn. exists node, job_data, job_id. split_and!; [done..|by right].
      * intros (node' & job_data' & job_id' & Hnode & Hpost' & Hid' & Hcase).
        injection Hnode as <-. rewrite Hpost in Hpost'. injection Hpost' as <-.
        rewrite Hid in Hid'. injection Hid' as <-.
        destruct Hcase as [Hfalse|Hn]; [congruence|done].
    + exists true. split; [done|]. split; [|done]. intros _.
      exists node, job_data, job_id. split_and!; [done..|by left].
Qed.

Lemma migrate_vm_outcome_witness :
  let self := session_with [JObj [("status", JStr "success")]] in
  VMManagerSession.migrate_vm self "100" "node-2" 1800 0 = Some false
  ∧ ∃ b, VMManagerSession.migrate_vm self "100" "2" 1800 400 = Some b
         ∧ (b = true ↔
            ∃ node job_data job_id,
              py_int "2" = Ok node
              ∧ VMManagerSession.post_migrate self "100" node = Ok job_data
              ∧ VMManagerSession.py_get job_data "id" JNull = Ok job_id
              ∧ (truthy job_id = false
                 ∨ ∃ n, succeeds_in_pass self job_id 1800 n)).
Proof.
  intros self. split.
  - apply (proj1 (migrate_vm_outcome self "100" "node-2" 1800 0) ValueError self).
    vm_compute. reflexivity.
  - apply (proj2 (migrate_vm_outcome self "100" "2" 1800 400));
      [apply session_with_clock_advances|vm_compute; lia].
Defined.

Lemma qemu_compatibility_is_a_total_preorder_witness :
  VMManagerAPI.compare_qemu_versions "7.2.0" "8.1.0" = true.
Proof.
  apply (proj1 (proj2 (proj2 qemu_compatibility_is_a_total_preorder))
           "7.2.0" "8.0.0" "8.1.0");
    [discriminate|vm_compute; discriminate|vm_compute; reflexivity..].
Defined.

(** * The settings dialogs *)

Lemma split_on_whole (c : ascii) (s : string) :
  contains_char c s = false → split_on c s = [s].
Proof.
  induction s as [|a s IH]; simpl; [done|].
  intros [Ha Hs]%orb_false_iff. by rewrite Ha, (IH Hs).
Qed.

Lemma split_names_clean (text : string) :
  Forall clean_name (InteractiveBalancer.split_names text).
Proof.
  apply Forall_forall. intros item Hitem.
  apply list_elem_of_In, in_map_iff in Hitem as (piece & <- & Hpiece).
  apply filter_In in Hpiece as [Hpiece Hne].
  apply list_elem_of_In in Hpiece.
  apply negb_true_iff, String.eqb_neq in Hne.
  destruct (split_on_pieces "," "," text piece Hpiece) as [Hcomma _].
  split_and!; [done|apply strip_idemp|by apply contains_char_strip].
Qed.

Lemma split_names_join (items : list string) :
  Forall clean_name items →
  InteractiveBalancer.split_names (InteractiveBalancer.join_comma items) = items.
Proof.
  unfold InteractiveBalancer.split_names.
  induction 1 as [|item rest (Hne & Hstrip & Hcomma) Hrest IH]; [done|].
  assert (negb (String.eqb (strip item) "") = true) as Hkeep.
  { rewrite Hstrip. by apply negb_true_iff, String.eqb_neq. }
  destruct rest as [|next rest].
  - cbn [InteractiveBalancer.join_comma]. rewrite (split_on_whole _ _ Hcomma).
    cbn [List.filter map]. rewrite Hkeep. cbn [map]. by rewrite Hstrip.
  - change (InteractiveBalancer.join_comma (item :: next :: rest))
      with (item ++ String "," (InteractiveBalancer.join_comma (next :: rest)))%string.
    rewrite (split_on_head _ _ _ Hcomma). cbn [List.filter].
    rewrite Hkeep. cbn [map]. by rewrite Hstrip, IH.
Qed.

Lemma ask_int_raises (ask : string → string → string) (prompt : string)
    (n : Z) (e : exn) :
  InteractiveBalancer.ask_int ask prompt n = Raise e → e = ValueError.
Proof.
  unfold InteractiveBalancer.ask_int, py_str. cbv zeta.
  destruct (_ <? _); [congruence|]. apply py_int_raises.
Qed.

Lemma ask_int_ok (ask : string → string → string) (prompt : string) (n m : Z) :
  InteractiveBalancer.ask_int ask prompt n = Ok m →
  py_int (ask prompt (py_str_int n)) = Ok m.
Proof.
  unfold InteractiveBalancer.ask_int, py_str. cbv zeta.
  by destruct (_ <? _).
Qed.

(** X27: the lists that the settings dialogs store are always clean,
    whatever the user types: no name is empty, has surrounding whitespace or
    contains a comma.  [configure_other] never raises, and when one of its
    two numbers is not an integer it leaves all settings as they were. *)
Theorem settings_dialogs_store_clean_names (ask : string → string → string)
    (self : InteractiveBalancer.settings) :
  Forall clean_name
    (InteractiveBalancer.exclude_source_nodes
       (InteractiveBalancer.configure_exclusions ask self))
  ∧ Forall clean_name
      (InteractiveBalancer.exclude_target_nodes
         (InteractiveBalancer.configure_exclusions ask self))
  ∧ ∃ self',
      InteractiveBalancer.configure_other ask self = Ok self'
      ∧ (self' = self
         ∨ Forall clean_name (InteractiveBalancer.cluster_ids self'))
      ∧ (∀ e,
           py_int (ask "Max migrations per cycle"
                     (py_str_int (InteractiveBalancer.max_migrations_per_cycle self)))
           = Raise e
           ∨ py_int (ask "Balance interval (seconds)"
                       (py_str_int (InteractiveBalancer.balance_interval self)))
             = Raise e →
           self' = self).
Proof.
  split_and!; [apply split_names_clean..|].
  unfold InteractiveBalancer.configure_other.
  destruct (InteractiveBalancer.ask_int ask "Max migrations per cycle" _)
    as [m|e1] eqn:Hm.
  - destruct (InteractiveBalancer.ask_int ask "Balance interval (seconds)" _)
      as [i|e2] eqn:Hi.
    + eexists. split; [done|]. split.
      * right. apply split_names_clean.
      * apply ask_int_ok in Hm, Hi. intros e [?|?]; congruence.
    + exists self. apply ask_int_raises in Hi as ->. by split_and!; [|left|].
  - exists self. apply ask_int_raises in Hm as ->. by split_and!; [|left|].
Qed.

(** X28: a user who accepts every default changes nothing.  When the lists
    of the settings are clean, [configure_exclusions] and [configure_other]
    with every question answered by its default return the settings as they
    were: joining the names with commas and splitting the text again gives
    the names back, and so does printing and reading the two numbers. *)
Theorem accepting_defaults_changes_nothing (self : InteractiveBalancer.settings) :
  Forall clean_name (InteractiveBalancer.cluster_ids self) →
  Forall clean_name (InteractiveBalancer.exclude_source_nodes self) →
  Forall clean_name (InteractiveBalancer.exclude_target_nodes self) →
  InteractiveBalancer.configure_exclusions accept_default self = self
  ∧ InteractiveBalancer.configure_other accept_default self = Ok self.
Proof.
  intros Hids Hsources Htargets. destruct self as [m i ids sources targets].
  unfold InteractiveBalancer.configure_exclusions,
    InteractiveBalancer.configure_other.
  cbn [InteractiveBalancer.max_migrations_per_cycle
       InteractiveBalancer.balance_interval InteractiveBalancer.cluster_ids
       InteractiveBalancer.exclude_source_nodes
       InteractiveBalancer.exclude_target_nodes] in *.
  rewrite (ask_int_default "Max migrations per cycle" m),
    (ask_int_default "Balance interval (seconds)" i).
  unfold accept_default. rewrite !split_names_join by done.
  destruct (_ <? _); [done|]. by destruct (_ <? _).
Qed.

Lemma accepting_defaults_changes_nothing_witness :
  let self :=
    InteractiveBalancer.mkSettings 1 600 ["c1"; "c2"] ["node-a"] [] in
  InteractiveBalancer.configure_exclusions accept_default self = self
  ∧ InteractiveBalancer.configure_other accept_default self = Ok self.
Proof.
  intros self.
  apply (accepting_defaults_changes_nothing self);
    repeat constructor; try discriminate; vm_compute; reflexivity.
Defined.
